(** * Inventory / sales consistency core of the clothing-store manager

    A shallow embedding of the controllers that write the [inventory],
    [inventory_transactions], [sales] and [sale_items] tables
    (controllers/inventory_controller.py, controllers/sale_controller.py,
    controllers/product_controller.py, controllers/customer_controller.py),
    of the model classes they receive (models/sale.py, models/product.py),
    of the part of database/db_manager.py they run on and of the controller
    calls of the add-variant dialog (views/product_view.py).

    Conventions of the embedding.
    - A table is the list of its rows in rowid order together with the
      AUTOINCREMENT counter kept in sqlite_sequence; a SELECT reads the rows
      in that order.
    - The connection is opened with PRAGMA foreign_keys = ON: a statement
      checks the foreign keys and the uniqueness constraints the schema
      declares, and fails with an sqlite3.Error when one is broken.
    - The connection is a pair of databases: the last committed one and the
      one the open transaction sees.  [commit] copies the second onto the
      first, [rollback] the first onto the second.
    - Python [int] is [Z].  The statements are modelled on values that fit
      SQLite's 64-bit INTEGER ([sqlite_integer]); outside it sqlite3 raises
      OverflowError when the value is bound, before the statement runs.  A
      property that says what a call returns or raises on an int its caller
      is free to choose carries that bound as a hypothesis; an id that names
      a stored row fits.
    - Python [float] (and SQLite REAL) is the binary64 [float] of Rocq.
      sqlite3 binds a NaN as NULL: a NOT NULL column refuses it, a column
      that can hold NULL is an [option] and stores [None] ([bind_real]).
    - [datetime.now().isoformat()] is read from a time source carried by the
      connection; every reading advances it.
    - An exception is a value of [exn]; the f-string wrappers of the
      controllers are the constructor [Wrapped]. *)

From Stdlib Require Import ZArith List String Bool Lia Floats DecimalString.
Import ListNotations.
Open Scope string_scope.
Open Scope list_scope.
Open Scope Z_scope.

Set Implicit Arguments.

(** ** Rows of the schema (DatabaseManager.setup_database) *)

Record CategoryRow := mkCategoryRow {
  cat_id : Z;
  cat_name : string;
  cat_description : string
}.

Record ProductRow := mkProductRow {
  prod_id : Z;
  prod_code : string;
  prod_name : string;
  prod_description : string;
  prod_category_id : Z;
  prod_price : float;
  prod_discount_percent : option float;
  prod_discount_start_date : option string;
  prod_discount_end_date : option string;
  prod_created_at : string;
  prod_updated_at : string
}.

Record VariantRow := mkVariantRow {
  pv_id : Z;
  pv_product_id : Z;
  pv_size : string;
  pv_color : string
}.

Record InventoryRow := mkInventoryRow {
  inv_id : Z;
  inv_product_variant_id : Z;
  inv_quantity : Z;
  inv_last_updated : string
}.

Record CustomerRow := mkCustomerRow {
  cust_id : Z;
  cust_name : string;
  cust_email : option string;
  cust_phone : option string;
  cust_address : option string;
  cust_created_at : string;
  cust_updated_at : string
}.

Record SaleRow := mkSaleRow {
  sales_id : Z;
  sales_customer_id : option Z;
  sales_sale_date : string;
  sales_payment_method : string;
  sales_total_amount : float
}.

Record SaleItemRow := mkSaleItemRow {
  si_id : Z;
  si_sale_id : Z;
  si_product_variant_id : Z;
  si_quantity : Z;
  si_unit_price : float;
  si_discount_percent : option float;
  si_subtotal : float
}.

Record TransactionRow := mkTransactionRow {
  tx_id : Z;
  tx_product_variant_id : Z;
  tx_quantity_change : Z;
  tx_transaction_type : string;
  tx_reference_id : option Z;
  tx_transaction_date : string;
  tx_notes : option string
}.

(** A table: its rows and the largest rowid it ever handed out. *)
Record table (R : Type) := mkTable {
  rows : list R;
  seq : Z
}.

Definition empty_table (R : Type) : table R := mkTable [] 0.

Record DB := mkDB {
  categories : table CategoryRow;
  products : table ProductRow;
  product_variants : table VariantRow;
  inventory : table InventoryRow;
  customers : table CustomerRow;
  sales : table SaleRow;
  sale_items : table SaleItemRow;
  inventory_transactions : table TransactionRow
}.

Definition empty_db : DB :=
  mkDB (empty_table _) (empty_table _) (empty_table _) (empty_table _)
       (empty_table _) (empty_table _) (empty_table _) (empty_table _).

Definition set_products (t : table ProductRow) (db : DB) : DB :=
  mkDB (categories db) t (product_variants db) (inventory db) (customers db)
       (sales db) (sale_items db) (inventory_transactions db).

Definition set_product_variants (t : table VariantRow) (db : DB) : DB :=
  mkDB (categories db) (products db) t (inventory db) (customers db)
       (sales db) (sale_items db) (inventory_transactions db).

Definition set_inventory (t : table InventoryRow) (db : DB) : DB :=
  mkDB (categories db) (products db) (product_variants db) t (customers db)
       (sales db) (sale_items db) (inventory_transactions db).

Definition set_customers (t : table CustomerRow) (db : DB) : DB :=
  mkDB (categories db) (products db) (product_variants db) (inventory db) t
       (sales db) (sale_items db) (inventory_transactions db).

Definition set_sales (t : table SaleRow) (db : DB) : DB :=
  mkDB (categories db) (products db) (product_variants db) (inventory db)
       (customers db) t (sale_items db) (inventory_transactions db).

Definition set_sale_items (t : table SaleItemRow) (db : DB) : DB :=
  mkDB (categories db) (products db) (product_variants db) (inventory db)
       (customers db) (sales db) t (inventory_transactions db).

Definition set_inventory_transactions (t : table TransactionRow) (db : DB) : DB :=
  mkDB (categories db) (products db) (product_variants db) (inventory db)
       (customers db) (sales db) (sale_items db) t.

(** ** SQL statements the controllers issue

    INTEGER PRIMARY KEY AUTOINCREMENT: the new rowid is one more than the
    largest rowid the table ever held. *)

Definition max_id (ids : list Z) : Z := fold_right Z.max 0 ids.

Definition next_rowid (R : Type) (key : R -> Z) (t : table R) : Z :=
  Z.max (seq t) (max_id (map key (rows t))) + 1.

Definition append_row (R : Type) (t : table R) (id : Z) (r : R) : table R :=
  mkTable (rows t ++ [r]) id.

Definition with_rows (R : Type) (t : table R) (l : list R) : table R :=
  mkTable l (seq t).

Inductive sqlite_error :=
| FOREIGN_KEY_constraint_failed
| UNIQUE_constraint_failed
| NOT_NULL_constraint_failed.

(** The values of SQLite's INTEGER: what sqlite3 binds of a Python int. *)
Definition sqlite_integer (n : Z) : Prop := - 2 ^ 63 <= n < 2 ^ 63.

(** A parameter that is an int or None. *)
Definition sqlite_integer_or_null (n : option Z) : Prop :=
  match n with
  | Some n => sqlite_integer n
  | None => True
  end.

(** What sqlite3 binds of a Python float: NULL for a NaN. *)
Definition bind_real (x : float) : option float :=
  if is_nan x then None else Some x.

(** Outcome of a writing statement: the new database and the value the
    cursor then holds ([lastrowid] after an INSERT), or the sqlite3.Error. *)
Inductive sql_result (A : Type) :=
| SqlOk (a : A) (db : DB)
| SqlError (e : sqlite_error).
Arguments SqlError {A} e.

Definition statement (A : Type) := DB -> sql_result A.

Definition has_id (R : Type) (key : R -> Z) (l : list R) (id : Z) : bool :=
  existsb (fun r => key r =? id) l.

Definition variant_exists (db : DB) (v : Z) : bool :=
  has_id pv_id (rows (product_variants db)) v.

Definition product_exists (db : DB) (p : Z) : bool :=
  has_id prod_id (rows (products db)) p.

Definition category_exists (db : DB) (c : Z) : bool :=
  has_id cat_id (rows (categories db)) c.

Definition customer_exists (db : DB) (c : Z) : bool :=
  has_id cust_id (rows (customers db)) c.

Definition sale_exists (db : DB) (s : Z) : bool :=
  has_id sales_id (rows (sales db)) s.

(** SELECT * FROM inventory WHERE product_variant_id = ?   (fetchone) *)
Definition SELECT_inventory (v : Z) (db : DB) : option InventoryRow :=
  find (fun r => inv_product_variant_id r =? v) (rows (inventory db)).

(** SELECT quantity FROM inventory WHERE product_variant_id = ?   (fetchone) *)
Definition SELECT_inventory_quantity (v : Z) (db : DB) : option Z :=
  option_map inv_quantity (SELECT_inventory v db).

(** SELECT p.name, pv.size, pv.color FROM product_variants pv
    JOIN products p ON pv.product_id = p.id WHERE pv.id = ?   (fetchone) *)
Definition SELECT_variant_info (v : Z) (db : DB) : option (string * string * string) :=
  match find (fun r => pv_id r =? v) (rows (product_variants db)) with
  | None => None
  | Some pv =>
      match find (fun p => prod_id p =? pv_product_id pv) (rows (products db)) with
      | None => None
      | Some p => Some (prod_name p, pv_size pv, pv_color pv)
      end
  end.

(** INSERT INTO sales (customer_id, sale_date, payment_method, total_amount);
    total_amount is REAL NOT NULL, customer_id REFERENCES customers(id). *)
Definition INSERT_sale (customer_id : option Z) (sale_date payment_method : string)
    (total_amount : float) : statement Z := fun db =>
  if is_nan total_amount then SqlError NOT_NULL_constraint_failed
  else if match customer_id with
          | None => true
          | Some c => customer_exists db c
          end
  then
    let id := next_rowid sales_id (sales db) in
    SqlOk id (set_sales (append_row (sales db) id
      (mkSaleRow id customer_id sale_date payment_method total_amount)) db)
  else SqlError FOREIGN_KEY_constraint_failed.

(** INSERT INTO sale_items (sale_id, product_variant_id, quantity, unit_price,
    discount_percent, subtotal); unit_price and subtotal are REAL NOT NULL,
    discount_percent can hold NULL, sale_id REFERENCES sales(id),
    product_variant_id REFERENCES product_variants(id). *)
Definition INSERT_sale_item (sale variant quantity : Z)
    (unit_price discount_percent subtotal : float) : statement Z := fun db =>
  if is_nan unit_price || is_nan subtotal then SqlError NOT_NULL_constraint_failed
  else if sale_exists db sale && variant_exists db variant then
    let id := next_rowid si_id (sale_items db) in
    SqlOk id (set_sale_items (append_row (sale_items db) id
      (mkSaleItemRow id sale variant quantity unit_price (bind_real discount_percent)
                     subtotal)) db)
  else SqlError FOREIGN_KEY_constraint_failed.

(** The row an UPDATE of inventory leaves for a row it finds. *)
Definition restock (quantity : Z) (last_updated : string) (v : Z) (r : InventoryRow)
    : InventoryRow :=
  if inv_product_variant_id r =? v
  then mkInventoryRow (inv_id r) (inv_product_variant_id r) quantity last_updated
  else r.

(** UPDATE inventory SET quantity = ?, last_updated = ? WHERE product_variant_id = ? *)
Definition UPDATE_inventory (quantity : Z) (last_updated : string) (v : Z)
    : statement unit := fun db =>
  SqlOk tt (set_inventory (with_rows (inventory db)
    (map (restock quantity last_updated v) (rows (inventory db)))) db).

(** INSERT INTO inventory_transactions (product_variant_id, quantity_change,
    transaction_type, reference_id, transaction_date, notes);
    product_variant_id REFERENCES product_variants(id). *)
Definition INSERT_inventory_transaction (v quantity_change : Z)
    (transaction_type : string) (reference_id : option Z)
    (transaction_date : string) (notes : option string) : statement Z := fun db =>
  if variant_exists db v then
    let id := next_rowid tx_id (inventory_transactions db) in
    SqlOk id (set_inventory_transactions (append_row (inventory_transactions db) id
      (mkTransactionRow id v quantity_change transaction_type reference_id
                        transaction_date notes)) db)
  else SqlError FOREIGN_KEY_constraint_failed.

(** SELECT s.*, c.name FROM sales s LEFT JOIN customers c
    ON s.customer_id = c.id WHERE s.id = ?   (fetchone) *)
Definition SELECT_sale (id : Z) (db : DB) : option (SaleRow * option string) :=
  match find (fun s => sales_id s =? id) (rows (sales db)) with
  | None => None
  | Some s =>
      Some (s, match sales_customer_id s with
               | None => None
               | Some c => option_map cust_name
                             (find (fun r => cust_id r =? c) (rows (customers db)))
               end)
  end.

(** SELECT si.*, p.name, p.code, pv.size, pv.color FROM sale_items si
    JOIN product_variants pv ON si.product_variant_id = pv.id
    JOIN products p ON pv.product_id = p.id WHERE si.sale_id = ?   (fetchall);
    the query has no ORDER BY, the rows come in the rowid order of sale_items. *)
Definition SELECT_sale_items (sale : Z) (db : DB)
    : list (SaleItemRow * (string * string * string * string)) :=
  flat_map (fun si =>
    if si_sale_id si =? sale then
      match find (fun r => pv_id r =? si_product_variant_id si)
                 (rows (product_variants db)) with
      | None => []
      | Some pv =>
          match find (fun p => prod_id p =? pv_product_id pv) (rows (products db)) with
          | None => []
          | Some p => [(si, (prod_name p, prod_code p, pv_size pv, pv_color pv))]
          end
      end
    else []) (rows (sale_items db)).

(** DELETE FROM sale_items WHERE sale_id = ? *)
Definition DELETE_sale_items (sale : Z) : statement unit := fun db =>
  SqlOk tt (set_sale_items (with_rows (sale_items db)
    (filter (fun si => negb (si_sale_id si =? sale)) (rows (sale_items db)))) db).

(** DELETE FROM sales WHERE id = ?; sale_items.sale_id is ON DELETE CASCADE. *)
Definition DELETE_sale (id : Z) : statement unit := fun db =>
  if sale_exists db id then
    SqlOk tt
      (set_sale_items (with_rows (sale_items db)
         (filter (fun si => negb (si_sale_id si =? id)) (rows (sale_items db))))
      (set_sales (with_rows (sales db)
         (filter (fun s => negb (sales_id s =? id)) (rows (sales db)))) db))
  else SqlOk tt db.

(** INSERT INTO products (code, name, description, category_id, price,
    discount_percent, discount_start_date, discount_end_date, created_at,
    updated_at); price is REAL NOT NULL, discount_percent can hold NULL,
    code is UNIQUE, category_id REFERENCES categories(id). *)
Definition INSERT_product (code name description : string) (category_id : Z)
    (price discount_percent : float) (discount_start_date discount_end_date : option string)
    (created_at updated_at : string) : statement Z := fun db =>
  if is_nan price then SqlError NOT_NULL_constraint_failed
  else if existsb (fun p => String.eqb (prod_code p) code) (rows (products db)) then
    SqlError UNIQUE_constraint_failed
  else if category_exists db category_id then
    let id := next_rowid prod_id (products db) in
    SqlOk id (set_products (append_row (products db) id
      (mkProductRow id code name description category_id price (bind_real discount_percent)
                    discount_start_date discount_end_date created_at updated_at)) db)
  else SqlError FOREIGN_KEY_constraint_failed.

(** SELECT id FROM product_variants
    WHERE product_id = ? AND size = ? AND color = ?   (fetchone) *)
Definition SELECT_variant_id (product_id : Z) (size color : string) (db : DB) : option Z :=
  option_map pv_id
    (find (fun r => (pv_product_id r =? product_id)
                    && String.eqb (pv_size r) size && String.eqb (pv_color r) color)
          (rows (product_variants db))).

(** INSERT INTO product_variants (product_id, size, color);
    UNIQUE(product_id, size, color), product_id REFERENCES products(id). *)
Definition INSERT_variant (product_id : Z) (size color : string) : statement Z := fun db =>
  match SELECT_variant_id product_id size color db with
  | Some _ => SqlError UNIQUE_constraint_failed
  | None =>
      if product_exists db product_id then
        let id := next_rowid pv_id (product_variants db) in
        SqlOk id (set_product_variants (append_row (product_variants db) id
          (mkVariantRow id product_id size color)) db)
      else SqlError FOREIGN_KEY_constraint_failed
  end.

(** INSERT INTO inventory (product_variant_id, quantity, last_updated);
    product_variant_id REFERENCES product_variants(id). *)
Definition INSERT_inventory (v quantity : Z) (last_updated : string) : statement Z := fun db =>
  if variant_exists db v then
    let id := next_rowid inv_id (inventory db) in
    SqlOk id (set_inventory (append_row (inventory db) id
      (mkInventoryRow id v quantity last_updated)) db)
  else SqlError FOREIGN_KEY_constraint_failed.

(** SELECT COUNT( * ) FROM sale_items WHERE product_variant_id = ? *)
Definition COUNT_sale_items_of_variant (v : Z) (db : DB) : Z :=
  Z.of_nat (List.length (filter (fun si => si_product_variant_id si =? v)
                           (rows (sale_items db)))).

(** DELETE FROM inventory WHERE product_variant_id = ? *)
Definition DELETE_inventory (v : Z) : statement unit := fun db =>
  SqlOk tt (set_inventory (with_rows (inventory db)
    (filter (fun r => negb (inv_product_variant_id r =? v)) (rows (inventory db)))) db).

(** DELETE FROM product_variants WHERE id = ?; inventory rows cascade,
    sale_items and inventory_transactions are ON DELETE RESTRICT. *)
Definition DELETE_variant (v : Z) : statement unit := fun db =>
  if variant_exists db v then
    if existsb (fun si => si_product_variant_id si =? v) (rows (sale_items db))
       || existsb (fun t => tx_product_variant_id t =? v)
                  (rows (inventory_transactions db))
    then SqlError FOREIGN_KEY_constraint_failed
    else
      SqlOk tt
        (set_inventory (with_rows (inventory db)
           (filter (fun r => negb (inv_product_variant_id r =? v)) (rows (inventory db))))
        (set_product_variants (with_rows (product_variants db)
           (filter (fun r => negb (pv_id r =? v)) (rows (product_variants db)))) db))
  else SqlOk tt db.

(** SELECT COUNT( * ) FROM sales WHERE customer_id = ? *)
Definition COUNT_sales_of_customer (c : Z) (db : DB) : Z :=
  Z.of_nat (List.length (filter (fun s => match sales_customer_id s with
                                     | Some c' => c' =? c
                                     | None => false
                                     end) (rows (sales db)))).

Definition clear_customer (c : Z) (s : SaleRow) : SaleRow :=
  match sales_customer_id s with
  | Some c' =>
      if c' =? c
      then mkSaleRow (sales_id s) None (sales_sale_date s) (sales_payment_method s)
                     (sales_total_amount s)
      else s
  | None => s
  end.

(** UPDATE sales SET customer_id = NULL WHERE customer_id = ? *)
Definition UPDATE_sales_clear_customer (c : Z) : statement unit := fun db =>
  SqlOk tt (set_sales (with_rows (sales db) (map (clear_customer c) (rows (sales db)))) db).

(** DELETE FROM customers WHERE id = ?; sales.customer_id is ON DELETE SET NULL. *)
Definition DELETE_customer (c : Z) : statement unit := fun db =>
  SqlOk tt
    (set_sales (with_rows (sales db)
       (if customer_exists db c then map (clear_customer c) (rows (sales db))
        else rows (sales db)))
    (set_customers (with_rows (customers db)
       (filter (fun r => negb (cust_id r =? c)) (rows (customers db)))) db)).

(** ** Exceptions *)

(** The context a controller puts in front of the message it re-raises. *)
Inductive wrapper :=
| Error_getting_inventory
| Error_updating_inventory
| Error_adjusting_inventory
| Error_creando_la_venta
| Error_getting_sale
| Error_cancelling_sale
| Error_adding_product
| Error_adding_variant
| Error_deleting_variant
| Error_deleting_customer.

Inductive exn :=
(** DatabaseManager.execute: "Error executing query: ..." *)
| Error_executing_query (e : sqlite_error)
(** subscripting the None a fetchone() returned *)
| TypeError_NoneType_not_subscriptable
(** "unsupported operand type(s) for /: 'NoneType' and 'int'": dividing the
    None of a discount_percent read back as NULL *)
| TypeError_NoneType_and_int
(** "Producto no encontrado en el inventario" *)
| Producto_no_encontrado_en_el_inventario
(** "Stock insuficiente para {name} - {color} Talla {size}.
     Disponible: {available}, Solicitado: {requested}" *)
| Stock_insuficiente (name color size : string) (available requested : Z)
(** "Inventario no encontrado para la variante de producto especificada" *)
| Inventario_no_encontrado
(** "La cantidad de inventario no puede ser negativa" *)
| Cantidad_no_puede_ser_negativa
(** "Venta no encontrada" *)
| Venta_no_encontrada
(** "Ya existe una variante con esta talla y color para este producto" *)
| Ya_existe_una_variante
(** "No se puede eliminar la variante porque está asociada a ventas existentes" *)
| Variante_asociada_a_ventas
(** f"{wrapper}: {str(e)}" *)
| Wrapped (w : wrapper) (cause : exn).

(** ** The connection and the monad of controller code *)

Record Conn := mkConn {
  committed : DB;
  working : DB;
  time_source : nat -> string;
  time_reads : nat
}.

Inductive result (A : Type) :=
| Return (a : A)
| Raise (e : exn).
Arguments Raise {A} e.

Definition M (A : Type) := Conn -> result A * Conn.

Definition ret (A : Type) (a : A) : M A := fun c => (Return a, c).

Definition bind (A B : Type) (m : M A) (k : A -> M B) : M B := fun c =>
  match m c with
  | (Return a, c') => k a c'
  | (Raise e, c') => (Raise e, c')
  end.

Definition raise (A : Type) (e : exn) : M A := fun c => (Raise e, c).
Arguments raise {A} e.

(** try: m / except Exception as e: h e *)
Definition try_except (A : Type) (m : M A) (h : exn -> M A) : M A := fun c =>
  match m c with
  | (Return a, c') => (Return a, c')
  | (Raise e, c') => h e c'
  end.

Notation "x <- m ;; k" := (bind m (fun x => k))
  (at level 61, m at next level, right associativity).
Notation "m ;; k" := (bind m (fun _ => k))
  (at level 61, right associativity).

(** for x in l: body x *)
Fixpoint for_each (A : Type) (l : list A) (body : A -> M unit) : M unit :=
  match l with
  | [] => ret tt
  | x :: l' => body x ;; for_each l' body
  end.

(** conn.rollback() *)
Definition rollback : M unit := fun c =>
  (Return tt, mkConn (committed c) (committed c) (time_source c) (time_reads c)).

(** DatabaseManager.commit *)
Definition commit : M unit := fun c =>
  (Return tt, mkConn (working c) (working c) (time_source c) (time_reads c)).

(** DatabaseManager.execute on a writing statement whose parameters sqlite3
    can bind (every int among them a [sqlite_integer]).  The value returned
    is what the controller reads next from the cursor ([lastrowid]).  An
    sqlite3.Error is rolled back and re-raised here.  (The OverflowError of
    an int too large to bind is not an sqlite3.Error: it would pass through
    to the except clause of the controller.) *)
Definition execute (A : Type) (s : statement A) : M A := fun c =>
  match s (working c) with
  | SqlOk a db => (Return a, mkConn (committed c) db (time_source c) (time_reads c))
  | SqlError e =>
      (Raise (Error_executing_query e),
       mkConn (committed c) (committed c) (time_source c) (time_reads c))
  end.

(** DatabaseManager.execute on a SELECT followed by fetchone / fetchall, for
    parameters sqlite3 can bind. *)
Definition query (A : Type) (q : DB -> A) : M A := fun c =>
  (Return (q (working c)), c).

(** DatabaseManager.get_current_timestamp *)
Definition get_current_timestamp : M string := fun c =>
  (Return (time_source c (time_reads c)),
   mkConn (committed c) (working c) (time_source c) (S (time_reads c))).

(** datetime.now().isoformat() in a model class: the same clock. *)
Definition now_isoformat : M string := get_current_timestamp.

(** for x in l: acc.append(body x) *)
Fixpoint collect (A B : Type) (l : list A) (body : A -> M B) : M (list B) :=
  match l with
  | [] => ret []
  | x :: l' => y <- body x ;; ys <- collect l' body ;; ret (y :: ys)
  end.

(** ** Model classes (models/sale.py, models/inventory.py, models/product.py) *)

(** float(n) for a Python int n, rounded to nearest even. *)
Definition float_of_int (n : Z) : float :=
  SF2Prim (binary_normalize prec emax n 0 false).

(** sum(...) over floats: left-to-right addition from 0. *)
Definition py_sum (l : list float) : float :=
  fold_left PrimFloat.add l 0%float.

(** str(n) for a Python int n. *)
Definition str (n : Z) : string :=
  DecimalString.NilZero.string_of_int (Z.to_int n).

Module InventoryTransaction.
Definition SALE := "SALE".
Definition PURCHASE := "PURCHASE".
Definition ADJUSTMENT := "ADJUSTMENT".
Definition RETURN := "RETURN".
End InventoryTransaction.

Module Inventory.
(** [last_updated] is kept as read from the row. *)
Record t := mk {
  id : Z;
  product_variant_id : Z;
  quantity : Z;
  last_updated : string
}.
End Inventory.

Module SaleItem.
Record t := mk {
  id : option Z;
  sale_id : option Z;
  product_variant_id : Z;
  quantity : Z;
  unit_price : float;
  discount_percent : float;
  subtotal : float;
  product_name : string;
  variant_info : string
}.

Definition set_sale_id (s : Z) (self : t) : t :=
  mk (id self) (Some s) (product_variant_id self) (quantity self) (unit_price self)
     (discount_percent self) (subtotal self) (product_name self) (variant_info self).

Definition set_quantity (q : Z) (self : t) : t :=
  mk (id self) (sale_id self) (product_variant_id self) q (unit_price self)
     (discount_percent self) (subtotal self) (product_name self) (variant_info self).

Definition set_subtotal (x : float) (self : t) : t :=
  mk (id self) (sale_id self) (product_variant_id self) (quantity self) (unit_price self)
     (discount_percent self) x (product_name self) (variant_info self).

Definition set_product_info (name info : string) (self : t) : t :=
  mk (id self) (sale_id self) (product_variant_id self) (quantity self) (unit_price self)
     (discount_percent self) (subtotal self) name info.

(** quantity * unit_price * (1 - discount_percent / 100) *)
Definition calculate_subtotal (self : t) : float :=
  (float_of_int (quantity self) * unit_price self
   * (1 - discount_percent self / 100))%float.

(** SaleItem.__init__: subtotal if subtotal > 0 else calculate_subtotal() *)
Definition init (id sale_id : option Z) (product_variant_id quantity : Z)
    (unit_price discount_percent subtotal : float) : t :=
  let self := mk id sale_id product_variant_id quantity unit_price discount_percent
                 subtotal "" "" in
  if (0 <? subtotal)%float then self
  else set_subtotal (calculate_subtotal self) self.

Definition recalculate_subtotal (self : t) : t :=
  set_subtotal (calculate_subtotal self) self.
End SaleItem.

Module Sale.
Definition CASH := "EFECTIVO".
Definition CREDIT_CARD := "TARJETA".
Definition TRANSFER := "TRANSFERENCIA".

Record t := mk {
  id : option Z;
  customer_id : option Z;
  sale_date : string;
  payment_method : string;
  total_amount : float;
  items : list SaleItem.t;
  customer_name : string
}.

(** Sale.__init__ on the sale_date it keeps: the one it is given, when that
    is not empty. *)
Definition init (id customer_id : option Z) (sale_date payment_method : string)
    (total_amount : float) : t :=
  mk id customer_id sale_date payment_method total_amount [] "".

(** Sale.__init__: self.sale_date = sale_date or datetime.now().isoformat();
    the clock is read for a sale_date that is empty. *)
Definition new (id customer_id : option Z) (sale_date payment_method : string)
    (total_amount : float) : M t :=
  sale_date <- (if String.eqb sale_date "" then now_isoformat else ret sale_date) ;;
  ret (init id customer_id sale_date payment_method total_amount).

Definition set_items (l : list SaleItem.t) (self : t) : t :=
  mk (id self) (customer_id self) (sale_date self) (payment_method self)
     (total_amount self) l (customer_name self).

Definition set_total_amount (x : float) (self : t) : t :=
  mk (id self) (customer_id self) (sale_date self) (payment_method self)
     x (items self) (customer_name self).

Definition set_customer_name (n : string) (self : t) : t :=
  mk (id self) (customer_id self) (sale_date self) (payment_method self)
     (total_amount self) (items self) n.

(** self.total_amount = sum(item.subtotal for item in self.items) *)
Definition recalculate_total (self : t) : t :=
  set_total_amount (py_sum (map SaleItem.subtotal (items self))) self.

(** The loop of add_item: the first item of the same variant gets the
    quantity added and its subtotal recalculated; [None] when no item
    has that variant. *)
Fixpoint merge_item (sale_item : SaleItem.t) (l : list SaleItem.t)
    : option (list SaleItem.t) :=
  match l with
  | [] => None
  | item :: l' =>
      if SaleItem.product_variant_id item =? SaleItem.product_variant_id sale_item
      then Some (SaleItem.recalculate_subtotal
                   (SaleItem.set_quantity
                      (SaleItem.quantity item + SaleItem.quantity sale_item) item)
                 :: l')
      else option_map (cons item) (merge_item sale_item l')
  end.

Definition add_item (sale_item : SaleItem.t) (self : t) : t :=
  match merge_item sale_item (items self) with
  | Some l => recalculate_total (set_items l self)
  | None => recalculate_total (set_items (items self ++ [sale_item]) self)
  end.

(** del self.items[item_index] when 0 <= item_index < len(self.items) *)
Definition remove_item (item_index : Z) (self : t) : t * bool :=
  if (0 <=? item_index) && (item_index <? Z.of_nat (List.length (items self))) then
    (recalculate_total
       (set_items (firstn (Z.to_nat item_index) (items self)
                   ++ skipn (S (Z.to_nat item_index)) (items self)) self), true)
  else (self, false).
End Sale.

Module ProductVariant.
Record t := mk {
  id : option Z;
  product_id : Z;
  size : string;
  color : string;
  inventory_quantity : Z
}.

(** ProductVariant.__init__ sets inventory_quantity to 0. *)
Definition init (id : option Z) (product_id : Z) (size color : string) : t :=
  mk id product_id size color 0.

Definition set_inventory_quantity (q : Z) (self : t) : t :=
  mk (id self) (product_id self) (size self) (color self) q.
End ProductVariant.

Module Product.
Record t := mk {
  id : option Z;
  code : string;
  name : string;
  description : string;
  category_id : Z;
  price : float;
  discount_percent : float;
  discount_start_date : option string;
  discount_end_date : option string
}.
End Product.

(** ** InventoryController (controllers/inventory_controller.py) *)

Definition get_inventory (product_variant_id : Z) : M (option Inventory.t) :=
  try_except
    (inventory_data <- query (SELECT_inventory product_variant_id) ;;
     match inventory_data with
     | None => ret None
     | Some r =>
         ret (Some (Inventory.mk (inv_id r) (inv_product_variant_id r)
                                 (inv_quantity r) (inv_last_updated r)))
     end)
    (fun e => raise (Wrapped Error_getting_inventory e)).

Definition update_inventory (product_variant_id new_quantity : Z)
    (transaction_type : string) (reference_id : option Z) (notes : option string)
    : M bool :=
  try_except
    (current_inventory <- get_inventory product_variant_id ;;
     match current_inventory with
     | None => raise Inventario_no_encontrado
     | Some inv =>
         let current_quantity := Inventory.quantity inv in
         let quantity_change := new_quantity - current_quantity in
         current_time <- get_current_timestamp ;;
         execute (UPDATE_inventory new_quantity current_time product_variant_id) ;;
         execute (INSERT_inventory_transaction product_variant_id quantity_change
                    transaction_type reference_id current_time notes) ;;
         commit ;;
         ret true
     end)
    (fun e => rollback ;; raise (Wrapped Error_updating_inventory e)).

Definition adjust_inventory (product_variant_id quantity_change : Z)
    (notes : option string) : M bool :=
  try_except
    (current_inventory <- get_inventory product_variant_id ;;
     match current_inventory with
     | None => raise Inventario_no_encontrado
     | Some inv =>
         let new_quantity := Inventory.quantity inv + quantity_change in
         if new_quantity <? 0 then raise Cantidad_no_puede_ser_negativa
         else update_inventory product_variant_id new_quantity
                InventoryTransaction.ADJUSTMENT None notes
     end)
    (fun e => raise (Wrapped Error_adjusting_inventory e)).

(** ** SaleController (controllers/sale_controller.py) *)

(** Body of the first loop of create_sale: the stock check of one item. *)
Definition check_item (item : SaleItem.t) : M unit :=
  inventory_data <- query (SELECT_inventory_quantity (SaleItem.product_variant_id item)) ;;
  match inventory_data with
  | None => raise Producto_no_encontrado_en_el_inventario
  | Some current_quantity =>
      if current_quantity <? SaleItem.quantity item then
        product_info <- query (SELECT_variant_info (SaleItem.product_variant_id item)) ;;
        match product_info with
        | None => raise TypeError_NoneType_not_subscriptable
        | Some (product_name, product_size, product_color) =>
            raise (Stock_insuficiente product_name product_color product_size
                     current_quantity (SaleItem.quantity item))
        end
      else ret tt
  end.

(** Body of the second loop of create_sale: the sale item row, the new
    stock and the SALE transaction of one item. *)
Definition sell_item (sale_id : Z) (item : SaleItem.t) : M unit :=
  let item := SaleItem.set_sale_id sale_id item in
  execute (INSERT_sale_item sale_id (SaleItem.product_variant_id item)
             (SaleItem.quantity item) (SaleItem.unit_price item)
             (SaleItem.discount_percent item) (SaleItem.subtotal item)) ;;
  inventory_data <- query (SELECT_inventory_quantity (SaleItem.product_variant_id item)) ;;
  match inventory_data with
  | None => raise TypeError_NoneType_not_subscriptable
  | Some current_quantity =>
      let new_quantity := current_quantity - SaleItem.quantity item in
      updated <- get_current_timestamp ;;
      execute (UPDATE_inventory new_quantity updated (SaleItem.product_variant_id item)) ;;
      transaction_date <- get_current_timestamp ;;
      execute (INSERT_inventory_transaction (SaleItem.product_variant_id item)
                 (- SaleItem.quantity item) InventoryTransaction.SALE (Some sale_id)
                 transaction_date (Some ("Venta #" ++ str sale_id)%string)) ;;
      ret tt
  end.

Definition create_sale (sale : Sale.t) : M Z :=
  try_except
    (for_each (Sale.items sale) check_item ;;
     sale_id <- execute (INSERT_sale (Sale.customer_id sale) (Sale.sale_date sale)
                           (Sale.payment_method sale) (Sale.total_amount sale)) ;;
     for_each (Sale.items sale) (sell_item sale_id) ;;
     commit ;;
     ret sale_id)
    (fun e => rollback ;; raise (Wrapped Error_creando_la_venta e)).

(** The SaleItem object get_sale builds from one row of its join, when the
    constructor returns.  A discount_percent that is NULL comes as None; the
    None the object then keeps is written NaN (cancel_sale, the one reader
    of these objects here, looks at product_variant_id and quantity only). *)
Definition item_of_row (item_data : SaleItemRow * (string * string * string * string))
    : SaleItem.t :=
  let '(si, (name, _, size, color)) := item_data in
  SaleItem.set_product_info name (color ++ " - Talla " ++ size)%string
    (SaleItem.init (Some (si_id si)) (Some (si_sale_id si)) (si_product_variant_id si)
       (si_quantity si) (si_unit_price si)
       (match si_discount_percent si with
        | Some discount_percent => discount_percent
        | None => nan
        end)
       (si_subtotal si)).

(** item = SaleItem(...) in the loop of get_sale.  SaleItem.__init__ keeps a
    subtotal above 0 and computes any other one: with a discount_percent of
    None, [None / 100] in calculate_subtotal raises TypeError. *)
Definition read_item (item_data : SaleItemRow * (string * string * string * string))
    : M SaleItem.t :=
  match si_discount_percent (fst item_data) with
  | Some _ => ret (item_of_row item_data)
  | None =>
      if (0 <? si_subtotal (fst item_data))%float then ret (item_of_row item_data)
      else raise TypeError_NoneType_and_int
  end.

Definition get_sale (sale_id : Z) : M (option Sale.t) :=
  try_except
    (sale_data <- query (SELECT_sale sale_id) ;;
     match sale_data with
     | None => ret None
     | Some (s, customer) =>
         sale <- Sale.new (Some (sales_id s)) (sales_customer_id s)
                   (sales_sale_date s) (sales_payment_method s) (sales_total_amount s) ;;
         let sale := Sale.set_customer_name
                       (match customer with
                        | Some n => if String.eqb n "" then "Cliente no registrado" else n
                        | None => "Cliente no registrado"
                        end) sale in
         items_data <- query (SELECT_sale_items sale_id) ;;
         items <- collect items_data read_item ;;
         ret (Some (Sale.set_items items sale))
     end)
    (fun e => raise (Wrapped Error_getting_sale e)).

(** Body of the loop of cancel_sale: the stock given back and the RETURN
    transaction of one item. *)
Definition return_item (sale_id : Z) (item : SaleItem.t) : M unit :=
  inventory_data <- query (SELECT_inventory_quantity (SaleItem.product_variant_id item)) ;;
  match inventory_data with
  | None => raise TypeError_NoneType_not_subscriptable
  | Some current_quantity =>
      let new_quantity := current_quantity + SaleItem.quantity item in
      updated <- get_current_timestamp ;;
      execute (UPDATE_inventory new_quantity updated (SaleItem.product_variant_id item)) ;;
      transaction_date <- get_current_timestamp ;;
      execute (INSERT_inventory_transaction (SaleItem.product_variant_id item)
                 (SaleItem.quantity item) InventoryTransaction.RETURN (Some sale_id)
                 transaction_date (Some ("Cancelación de venta #" ++ str sale_id)%string)) ;;
      ret tt
  end.

Definition cancel_sale (sale_id : Z) : M bool :=
  try_except
    (sale <- get_sale sale_id ;;
     match sale with
     | None => raise Venta_no_encontrada
     | Some sale =>
         for_each (Sale.items sale) (return_item sale_id) ;;
         execute (DELETE_sale_items sale_id) ;;
         execute (DELETE_sale sale_id) ;;
         commit ;;
         ret true
     end)
    (fun e => rollback ;; raise (Wrapped Error_cancelling_sale e)).

(** ** ProductController (controllers/product_controller.py) *)

Definition add_product (product : Product.t) (variants : list ProductVariant.t) : M Z :=
  try_except
    (current_time <- get_current_timestamp ;;
     product_id <- execute (INSERT_product (Product.code product) (Product.name product)
                              (Product.description product) (Product.category_id product)
                              (Product.price product) (Product.discount_percent product)
                              (Product.discount_start_date product)
                              (Product.discount_end_date product)
                              current_time current_time) ;;
     for_each variants (fun variant =>
       variant_id <- execute (INSERT_variant product_id (ProductVariant.size variant)
                                (ProductVariant.color variant)) ;;
       execute (INSERT_inventory variant_id 0 current_time) ;;
       ret tt) ;;
     commit ;;
     ret product_id)
    (fun e => rollback ;; raise (Wrapped Error_adding_product e)).

Definition add_variant (variant : ProductVariant.t) : M Z :=
  try_except
    (current_time <- get_current_timestamp ;;
     existing <- query (SELECT_variant_id (ProductVariant.product_id variant)
                          (ProductVariant.size variant) (ProductVariant.color variant)) ;;
     match existing with
     | Some _ => raise Ya_existe_una_variante
     | None =>
         variant_id <- execute (INSERT_variant (ProductVariant.product_id variant)
                                  (ProductVariant.size variant)
                                  (ProductVariant.color variant)) ;;
         execute (INSERT_inventory variant_id (ProductVariant.inventory_quantity variant)
                    current_time) ;;
         commit ;;
         ret variant_id
     end)
    (fun e => rollback ;; raise (Wrapped Error_adding_variant e)).

Definition delete_variant (variant_id : Z) : M bool :=
  try_except
    (count <- query (COUNT_sale_items_of_variant variant_id) ;;
     if 0 <? count then raise Variante_asociada_a_ventas
     else
       execute (DELETE_inventory variant_id) ;;
       execute (DELETE_variant variant_id) ;;
       commit ;;
       ret true)
    (fun e => rollback ;; raise (Wrapped Error_deleting_variant e)).

(** ** CustomerController (controllers/customer_controller.py) *)

Definition delete_customer (customer_id : Z) : M bool :=
  try_except
    (count <- query (COUNT_sales_of_customer customer_id) ;;
     (if 0 <? count then execute (UPDATE_sales_clear_customer customer_id)
      else ret tt) ;;
     execute (DELETE_customer customer_id) ;;
     commit ;;
     ret true)
    (fun e => rollback ;; raise (Wrapped Error_deleting_customer e)).

(** ** The add-variant dialog (views/product_view.py, save_variant)

    Only its calls into the controllers; an exception ends in a message box. *)
Definition save_variant (product_id : Z) (size color : string) (stock : Z) : M unit :=
  if stock <? 0 then ret tt
  else
    let variant := ProductVariant.set_inventory_quantity stock
                     (ProductVariant.init None product_id size color) in
    try_except
      (variant_id <- add_variant variant ;;
       (if 0 <? stock
        then adjust_inventory variant_id stock (Some "Inventario inicial") ;; ret tt
        else ret tt))
      (fun _ => ret tt).

(** ** Notions the properties are stated with *)

(** Inventory.quantity of a variant, as every controller reads it. *)
Definition stock (db : DB) (v : Z) : option Z := SELECT_inventory_quantity v db.

(** Signed sum of quantity_change over the transactions of a variant. *)
Definition ledger_sum (db : DB) (v : Z) : Z :=
  fold_right Z.add 0
    (map tx_quantity_change
       (filter (fun t => tx_product_variant_id t =? v) (rows (inventory_transactions db)))).

(** Every Inventory row holds the ledger sum of its variant. *)
Definition ledger_invariant (db : DB) : Prop :=
  forall r, In r (rows (inventory db)) ->
    inv_quantity r = ledger_sum db (inv_product_variant_id r).

Definition stock_nonneg (db : DB) : Prop :=
  Forall (fun r => 0 <= inv_quantity r) (rows (inventory db)).

Definition items_positive (db : DB) : Prop :=
  Forall (fun si => 0 < si_quantity si) (rows (sale_items db)).

(** The stock check of create_sale passes for this item. *)
Definition in_stock (db : DB) (item : SaleItem.t) : Prop :=
  exists q, stock db (SaleItem.product_variant_id item) = Some q
            /\ SaleItem.quantity item <= q.

(** Referential integrity SQLite keeps for the tables a sale touches:
    a variant has its product, a sale item has its sale. *)
Definition references_ok (db : DB) : Prop :=
  (forall pv, In pv (rows (product_variants db)) ->
     product_exists db (pv_product_id pv) = true)
  /\ (forall si, In si (rows (sale_items db)) ->
        sale_exists db (si_sale_id si) = true).

(** What a transaction row says, without its rowid, date and notes. *)
Definition tx_summary (t : TransactionRow) : Z * Z * string * option Z :=
  (tx_product_variant_id t, tx_quantity_change t, tx_transaction_type t,
   tx_reference_id t).

(** Quantity a list of sale lines moves on one variant. *)
Definition moved (v : Z) (items : list SaleItem.t) : Z :=
  fold_right Z.add 0
    (map SaleItem.quantity
         (filter (fun item => SaleItem.product_variant_id item =? v) items)).

(** What a sale item row says, without its rowid. *)
Definition si_summary (si : SaleItemRow) : Z * Z * Z * float * option float * float :=
  (si_sale_id si, si_product_variant_id si, si_quantity si, si_unit_price si,
   si_discount_percent si, si_subtotal si).

Definition item_summary (sale : Z) (item : SaleItem.t)
    : Z * Z * Z * float * option float * float :=
  (sale, SaleItem.product_variant_id item, SaleItem.quantity item,
   SaleItem.unit_price item, bind_real (SaleItem.discount_percent item),
   SaleItem.subtotal item).

(** A sale item row get_sale can read: its discount_percent is not NULL
    unless its subtotal is above 0. *)
Definition row_reads_back (si : SaleItemRow) : bool :=
  match si_discount_percent si with
  | Some _ => true
  | None => (0 <? si_subtotal si)%float
  end.


Definition sale_summary (sale : Z) (item : SaleItem.t) : Z * Z * string * option Z :=
  (SaleItem.product_variant_id item, - SaleItem.quantity item,
   InventoryTransaction.SALE, Some sale).

Definition return_summary (sale : Z) (item : SaleItem.t) : Z * Z * string * option Z :=
  (SaleItem.product_variant_id item, SaleItem.quantity item,
   InventoryTransaction.RETURN, Some sale).

(** What a run of writes inside one transaction leaves alone and adds:
    the catalogue, customers and sales tables are the same, sale item rows
    [si] and transaction rows [tx] were appended. *)
Record appended (c c' : Conn) (si : list SaleItemRow) (tx : list TransactionRow) : Prop := {
  app_committed : committed c' = committed c;
  app_categories : categories (working c') = categories (working c);
  app_products : products (working c') = products (working c);
  app_variants : product_variants (working c') = product_variants (working c);
  app_customers : customers (working c') = customers (working c);
  app_sales : sales (working c') = sales (working c);
  app_sale_items : rows (sale_items (working c')) = rows (sale_items (working c)) ++ si;
  app_transactions :
    rows (inventory_transactions (working c'))
    = rows (inventory_transactions (working c)) ++ tx
}.

(** What create_sale has done when it returns. *)
Record sale_created (sale : Sale.t) (c : Conn) (sale_id : Z) (c' : Conn)
    (si : list SaleItemRow) (tx : list TransactionRow) : Prop := {
  sc_in_stock : Forall (in_stock (working c)) (Sale.items sale);
  sc_customer :
    match Sale.customer_id sale with
    | Some customer => customer_exists (working c) customer = true
    | None => True
    end;
  sc_sale_id : sale_id = next_rowid sales_id (sales (working c));
  sc_committed : committed c' = working c';
  sc_categories : categories (working c') = categories (working c);
  sc_products : products (working c') = products (working c);
  sc_variants : product_variants (working c') = product_variants (working c);
  sc_customers : customers (working c') = customers (working c);
  sc_sales :
    rows (sales (working c'))
    = rows (sales (working c))
      ++ [mkSaleRow sale_id (Sale.customer_id sale) (Sale.sale_date sale)
                    (Sale.payment_method sale) (Sale.total_amount sale)];
  sc_sale_items : rows (sale_items (working c')) = rows (sale_items (working c)) ++ si;
  sc_si_summary : map si_summary si = map (item_summary sale_id) (Sale.items sale);
  sc_transactions :
    rows (inventory_transactions (working c'))
    = rows (inventory_transactions (working c)) ++ tx;
  sc_tx_summary : map tx_summary tx = map (sale_summary sale_id) (Sale.items sale);
  sc_variants_exist :
    Forall (fun item => variant_exists (working c)
                          (SaleItem.product_variant_id item) = true) (Sale.items sale);
  sc_stock :
    forall v, stock (working c') v
              = option_map (fun q => q - moved v (Sale.items sale)) (stock (working c) v)
}.

(** The variant and quantity of a sale line. *)
Definition item_line (item : SaleItem.t) : Z * Z :=
  (SaleItem.product_variant_id item, SaleItem.quantity item).

(** Calls at the mutation boundary of the stock. *)
Inductive call :=
| Update_inventory (product_variant_id new_quantity : Z) (transaction_type : string)
                   (reference_id : option Z) (notes : option string)
| Adjust_inventory (product_variant_id quantity_change : Z) (notes : option string)
| Create_sale (sale : Sale.t)
| Cancel_sale (sale_id : Z).

(** The connection a call leaves behind, whether it returned or raised. *)
Definition perform (k : call) (c : Conn) : Conn :=
  match k with
  | Update_inventory v q ty ref notes => snd (update_inventory v q ty ref notes c)
  | Adjust_inventory v d notes => snd (adjust_inventory v d notes c)
  | Create_sale sale => snd (create_sale sale c)
  | Cancel_sale s => snd (cancel_sale s c)
  end.

Definition perform_all (ks : list call) (c : Conn) : Conn :=
  fold_left (fun c k => perform k c) ks c.

(** Calls that stay inside the guards the code has: a set quantity that is
    not negative, sale lines of positive quantity on distinct variants. *)
Definition within_guards (k : call) : Prop :=
  match k with
  | Update_inventory _ q _ _ _ => 0 <= q
  | Create_sale sale =>
      NoDup (map SaleItem.product_variant_id (Sale.items sale))
      /\ Forall (fun item => 0 < SaleItem.quantity item) (Sale.items sale)
  | _ => True
  end.

(** A sale put together the way models/sale.py offers: a fresh Sale and
    add_item calls with items built without a subtotal. *)
Definition new_item (line : Z * Z * float * float) : SaleItem.t :=
  let '(variant, quantity, unit_price, discount_percent) := line in
  SaleItem.init None None variant quantity unit_price discount_percent 0.

Definition assemble (customer_id : option Z) (sale_date payment_method : string)
    (lines : list (Z * Z * float * float)) : Sale.t :=
  fold_left (fun sale line => Sale.add_item (new_item line) sale) lines
            (Sale.init None customer_id sale_date payment_method 0).

(** An item whose subtotal is the product of its own fields. *)
Definition priced (item : SaleItem.t) : Prop :=
  SaleItem.subtotal item = SaleItem.calculate_subtotal item.

(** A sale whose items are priced and whose total is their sum. *)
Definition totalled (sale : Sale.t) : Prop :=
  Forall priced (Sale.items sale)
  /\ Sale.total_amount sale = py_sum (map SaleItem.subtotal (Sale.items sale)).

(** Stock not negative and sale items of positive quantity. *)
Definition good (db : DB) : Prop := stock_nonneg db /\ items_positive db.

(** A computation that leaves the committed database alone. *)
Definition holds_committed {A : Type} (m : M A) : Prop :=
  forall c, committed (snd (m c)) = committed c.

(** A computation that, when it raises, has not committed. *)
Definition raises_uncommitted {A : Type} (m : M A) : Prop :=
  forall c c1 e, m c = (Raise e, c1) -> committed c1 = committed c.

(** A property of the database on both sides of the connection. *)
Definition both (P : DB -> Prop) (c : Conn) : Prop := P (committed c) /\ P (working c).

(** A computation that keeps a property of the database on both sides of
    the connection. *)
Definition keeps {A : Type} (P : DB -> Prop) (m : M A) : Prop :=
  forall c, P (committed c) -> P (working c) ->
            P (committed (snd (m c))) /\ P (working (snd (m c))).

(** A statement that keeps a property of the database when it succeeds. *)
Definition statement_keeps {A : Type} (P : DB -> Prop) (s : statement A) : Prop :=
  forall db a db', s db = SqlOk a db' -> P db -> P db'.

(** Every transaction belongs to a variant that exists. *)
Definition transactions_ok (db : DB) : Prop :=
  forall t, In t (rows (inventory_transactions db)) ->
    variant_exists db (tx_product_variant_id t) = true.

(** The ledger invariant, with the foreign key of the transactions. *)
Definition ledger_ok (db : DB) : Prop := ledger_invariant db /\ transactions_ok db.

(** Signed sum of the transactions of a variant in a list of rows. *)
Definition ledger_of (v : Z) (l : list TransactionRow) : Z :=
  fold_right Z.add 0
    (map tx_quantity_change (filter (fun t => tx_product_variant_id t =? v) l)).

(** Calls into the controllers that write stock, sales or the catalogue. *)
Inductive operation :=
| Stock_call (k : call)
| Add_product (product : Product.t) (variants : list ProductVariant.t)
| Add_variant (variant : ProductVariant.t)
| Delete_variant (variant_id : Z)
| Delete_customer (customer_id : Z).

(** The connection an operation leaves behind, whether it returned or raised. *)
Definition run (op : operation) (c : Conn) : Conn :=
  match op with
  | Stock_call k => perform k c
  | Add_product product variants => snd (add_product product variants c)
  | Add_variant variant => snd (add_variant variant c)
  | Delete_variant variant_id => snd (delete_variant variant_id c)
  | Delete_customer customer_id => snd (delete_customer customer_id c)
  end.

Definition run_all (ops : list operation) (c : Conn) : Conn :=
  fold_left (fun c op => run op c) ops c.

(** Operations whose initial stock, if any, goes through the ledger:
    add_variant is called with an inventory_quantity of 0. *)
Definition records_stock (op : operation) : Prop :=
  match op with
  | Add_variant variant => ProductVariant.inventory_quantity variant = 0
  | _ => True
  end.

(** The connection has no write pending. *)
Definition settled (c : Conn) : Prop := committed c = working c.

(** A computation that returns only with its writes committed. *)
Definition returns_settled {A : Type} (m : M A) : Prop :=
  forall c a c', m c = (Return a, c') -> settled c'.

(** ** Notions of the properties on reading back and on the catalogue *)

(** What a sale line says of its variant, quantity and price. *)
Definition item_terms (item : SaleItem.t) : Z * Z * float * float :=
  (SaleItem.product_variant_id item, SaleItem.quantity item,
   SaleItem.unit_price item, SaleItem.discount_percent item).

(** The subtotal SaleItem.__init__ keeps for a subtotal it is given. *)
Definition kept_subtotal (item : SaleItem.t) : float :=
  if (0 <? SaleItem.subtotal item)%float then SaleItem.subtotal item
  else SaleItem.calculate_subtotal item.

(** The size and colour of a variant object. *)
Definition variant_key (variant : ProductVariant.t) : string * string :=
  (ProductVariant.size variant, ProductVariant.color variant).

(** What a variant row says, without its rowid. *)
Definition pv_summary (r : VariantRow) : Z * string * string :=
  (pv_product_id r, pv_size r, pv_color r).

(** The variant and quantity of an Inventory row. *)
Definition inv_summary (r : InventoryRow) : Z * Z :=
  (inv_product_variant_id r, inv_quantity r).

(** Body of the loop of add_product. *)
Definition add_product_variant (product_id : Z) (current_time : string)
    (variant : ProductVariant.t) : M unit :=
  variant_id <- execute (INSERT_variant product_id (ProductVariant.size variant)
                           (ProductVariant.color variant)) ;;
  execute (INSERT_inventory variant_id 0 current_time) ;;
  ret tt.

(** What the loop of add_product has written when it returns. *)
Record variants_added (product_id : Z) (variants : list ProductVariant.t) (c c' : Conn)
    (pvs : list VariantRow) (invs : list InventoryRow) : Prop := {
  va_committed : committed c' = committed c;
  va_categories : categories (working c') = categories (working c);
  va_products : products (working c') = products (working c);
  va_customers : customers (working c') = customers (working c);
  va_sales : sales (working c') = sales (working c);
  va_sale_items : sale_items (working c') = sale_items (working c);
  va_transactions :
    inventory_transactions (working c') = inventory_transactions (working c);
  va_variants :
    rows (product_variants (working c')) = rows (product_variants (working c)) ++ pvs;
  va_pv_summary :
    map pv_summary pvs
    = map (fun v => (product_id, ProductVariant.size v, ProductVariant.color v)) variants;
  va_inventory : rows (inventory (working c')) = rows (inventory (working c)) ++ invs;
  va_inv_summary : map inv_summary invs = map (fun r => (pv_id r, 0)) pvs
}.

(** ** Maintenance of the catalogue and of the customers

    The calls below raise messages that no other call looks into.  They
    are kept as the text the code raises, over the exceptions of the
    sections above. *)

Inductive failure :=
(** an exception of the sections above: what execute raises *)
| Below (e : exn)
(** raise Exception(message) *)
| Exception (message : string)
(** raise Exception(f"{context}: {str(e)}") *)
| Reraised (context : string) (cause : failure).

Inductive outcome (A : Type) :=
| Done (a : A)
| Failed (f : failure).
Arguments Done {A} a.
Arguments Failed {A} f.

Module Txt.
Definition t (A : Type) := Conn -> outcome A * Conn.

Definition ret (A : Type) (a : A) : t A := fun c => (Done a, c).

Definition bind (A B : Type) (m : t A) (k : A -> t B) : t B := fun c =>
  match m c with
  | (Done a, c') => k a c'
  | (Failed f, c') => (Failed f, c')
  end.

Definition raise (A : Type) (f : failure) : t A := fun c => (Failed f, c).
Arguments raise {A} f.

(** try: m / except Exception as e: h e *)
Definition try_except (A : Type) (m : t A) (h : failure -> t A) : t A := fun c =>
  match m c with
  | (Done a, c') => (Done a, c')
  | (Failed f, c') => h f c'
  end.

(** A call into DatabaseManager. *)
Definition lift (A : Type) (m : M A) : t A := fun c =>
  match m c with
  | (Return a, c') => (Done a, c')
  | (Raise e, c') => (Failed (Below e), c')
  end.
End Txt.

Declare Scope txt_scope.
Delimit Scope txt_scope with txt.
Notation "x <- m ;; k" := (Txt.bind m (fun x => k))
  (at level 61, m at next level, right associativity) : txt_scope.
Notation "m ;; k" := (Txt.bind m (fun _ => k))
  (at level 61, right associativity) : txt_scope.

Definition set_categories (t : table CategoryRow) (db : DB) : DB :=
  mkDB t (products db) (product_variants db) (inventory db) (customers db)
       (sales db) (sale_items db) (inventory_transactions db).

(** *** Model classes (models/product.py, models/customer.py, models/inventory.py) *)

Module Category.
Record t := mk {
  id : option Z;
  name : string;
  description : string
}.
End Category.

Module Customer.
Record t := mk {
  id : option Z;
  name : string;
  email : option string;
  phone : option string;
  address : option string
}.
End Customer.

(** Inventory.is_in_stock: quantity > 0 *)
Definition is_in_stock (self : Inventory.t) : bool := 0 <? Inventory.quantity self.

(** Inventory.has_low_stock: 0 < quantity < threshold *)
Definition has_low_stock (threshold : Z) (self : Inventory.t) : bool :=
  (0 <? Inventory.quantity self) && (Inventory.quantity self <? threshold).

(** Truth value of an optional text: None and the empty text are false. *)
Definition truthy (s : option string) : bool :=
  match s with
  | Some x => negb (String.eqb x "")
  | None => false
  end.

(** *** Statements *)

(** UPDATE products SET code = ?, name = ?, description = ?, category_id = ?,
    price = ?, discount_percent = ?, discount_start_date = ?,
    discount_end_date = ?, updated_at = ? WHERE id = ?;
    price is REAL NOT NULL, discount_percent can hold NULL, code is UNIQUE,
    category_id REFERENCES categories(id).  The constraints are checked on
    the row the UPDATE finds. *)
Definition UPDATE_product (code name description : string) (category_id : Z)
    (price discount_percent : float) (discount_start_date discount_end_date : option string)
    (updated_at : string) (id : option Z) : statement unit := fun db =>
  match id with
  | None => SqlOk tt db
  | Some i =>
      if product_exists db i then
        if is_nan price then SqlError NOT_NULL_constraint_failed
        else if existsb (fun p => negb (prod_id p =? i) && String.eqb (prod_code p) code)
                   (rows (products db))
        then SqlError UNIQUE_constraint_failed
        else if category_exists db category_id then
          SqlOk tt (set_products (with_rows (products db)
            (map (fun p => if prod_id p =? i
                           then mkProductRow (prod_id p) code name description category_id
                                  price (bind_real discount_percent) discount_start_date
                                  discount_end_date (prod_created_at p) updated_at
                           else p) (rows (products db)))) db)
        else SqlError FOREIGN_KEY_constraint_failed
      else SqlOk tt db
  end.

(** SELECT COUNT( * ) FROM sale_items
    JOIN product_variants ON sale_items.product_variant_id = product_variants.id
    WHERE product_variants.product_id = ? *)
Definition COUNT_sale_items_of_product (p : Z) (db : DB) : Z :=
  Z.of_nat (List.length (filter (fun si =>
    match find (fun r => pv_id r =? si_product_variant_id si)
               (rows (product_variants db)) with
    | Some pv => pv_product_id pv =? p
    | None => false
    end) (rows (sale_items db)))).

(** The variant is one of the product's. *)
Definition variant_of (p : Z) (db : DB) (v : Z) : bool :=
  existsb (fun r => (pv_id r =? v) && (pv_product_id r =? p)) (rows (product_variants db)).

(** DELETE FROM products WHERE id = ?; the variants of the product
    cascade and with them their inventory rows, while sale_items and
    inventory_transactions are ON DELETE RESTRICT on the variant.  (The rows
    of supplier_products cascade as well; that table is not part of this
    model.) *)
Definition DELETE_product (p : Z) : statement unit := fun db =>
  if product_exists db p then
    if existsb (fun si => variant_of p db (si_product_variant_id si)) (rows (sale_items db))
       || existsb (fun t => variant_of p db (tx_product_variant_id t))
                  (rows (inventory_transactions db))
    then SqlError FOREIGN_KEY_constraint_failed
    else
      SqlOk tt
        (set_inventory (with_rows (inventory db)
           (filter (fun r => negb (variant_of p db (inv_product_variant_id r)))
                   (rows (inventory db))))
        (set_product_variants (with_rows (product_variants db)
           (filter (fun r => negb (pv_product_id r =? p)) (rows (product_variants db))))
        (set_products (with_rows (products db)
           (filter (fun r => negb (prod_id r =? p)) (rows (products db)))) db)))
  else SqlOk tt db.

(** SELECT id FROM product_variants
    WHERE product_id = ? AND size = ? AND color = ? AND id != ?   (fetchone) *)
Definition SELECT_other_variant_id (product_id : Z) (size color : string) (id : option Z)
    (db : DB) : option Z :=
  option_map pv_id
    (find (fun r => (pv_product_id r =? product_id)
                    && String.eqb (pv_size r) size && String.eqb (pv_color r) color
                    && match id with
                       | Some i => negb (pv_id r =? i)
                       | None => false
                       end)
          (rows (product_variants db))).

(** UPDATE product_variants SET size = ?, color = ? WHERE id = ?;
    UNIQUE(product_id, size, color). *)
Definition UPDATE_variant (size color : string) (id : option Z) : statement unit := fun db =>
  match id with
  | None => SqlOk tt db
  | Some i =>
      match find (fun r => pv_id r =? i) (rows (product_variants db)) with
      | None => SqlOk tt db
      | Some old =>
          if existsb (fun r => negb (pv_id r =? i)
                               && (pv_product_id r =? pv_product_id old)
                               && String.eqb (pv_size r) size
                               && String.eqb (pv_color r) color)
                     (rows (product_variants db))
          then SqlError UNIQUE_constraint_failed
          else
            SqlOk tt (set_product_variants (with_rows (product_variants db)
              (map (fun r => if pv_id r =? i
                             then mkVariantRow (pv_id r) (pv_product_id r) size color
                             else r) (rows (product_variants db)))) db)
      end
  end.

(** INSERT INTO categories (name, description) VALUES (?, ?); name is UNIQUE. *)
Definition INSERT_category (name description : string) : statement Z := fun db =>
  if existsb (fun r => String.eqb (cat_name r) name) (rows (categories db)) then
    SqlError UNIQUE_constraint_failed
  else
    let id := next_rowid cat_id (categories db) in
    SqlOk id (set_categories (append_row (categories db) id
      (mkCategoryRow id name description)) db).

(** UPDATE categories SET name = ?, description = ? WHERE id = ? *)
Definition UPDATE_category (name description : string) (id : option Z)
    : statement unit := fun db =>
  match id with
  | None => SqlOk tt db
  | Some i =>
      if category_exists db i then
        if existsb (fun r => negb (cat_id r =? i) && String.eqb (cat_name r) name)
                   (rows (categories db))
        then SqlError UNIQUE_constraint_failed
        else
          SqlOk tt (set_categories (with_rows (categories db)
            (map (fun r => if cat_id r =? i then mkCategoryRow (cat_id r) name description
                           else r) (rows (categories db)))) db)
      else SqlOk tt db
  end.

(** SELECT COUNT( * ) FROM products WHERE category_id = ? *)
Definition COUNT_products_of_category (c : Z) (db : DB) : Z :=
  Z.of_nat (List.length (filter (fun p => prod_category_id p =? c) (rows (products db)))).

(** DELETE FROM categories WHERE id = ?; products.category_id REFERENCES
    categories(id) without an ON DELETE action. *)
Definition DELETE_category (c : Z) : statement unit := fun db =>
  if category_exists db c
     && existsb (fun p => prod_category_id p =? c) (rows (products db))
  then SqlError FOREIGN_KEY_constraint_failed
  else
    SqlOk tt (set_categories (with_rows (categories db)
      (filter (fun r => negb (cat_id r =? c)) (rows (categories db)))) db).

(** The row has this email. *)
Definition has_email (email : string) (r : CustomerRow) : bool :=
  match cust_email r with
  | Some e => String.eqb e email
  | None => false
  end.

(** SELECT id FROM customers WHERE email = ?   (fetchone) *)
Definition SELECT_customer_by_email (email : string) (db : DB) : option Z :=
  option_map cust_id (find (has_email email) (rows (customers db))).

(** SELECT id FROM customers WHERE email = ? AND id != ?   (fetchone) *)
Definition SELECT_other_customer_by_email (email : string) (id : option Z) (db : DB)
    : option Z :=
  option_map cust_id
    (find (fun r => has_email email r
                    && match id with
                       | Some i => negb (cust_id r =? i)
                       | None => false
                       end)
          (rows (customers db))).

(** INSERT INTO customers (name, email, phone, address, created_at, updated_at);
    email is UNIQUE, and NULL emails never collide. *)
Definition INSERT_customer (name : string) (email phone address : option string)
    (created_at updated_at : string) : statement Z := fun db =>
  if match email with
     | Some e => existsb (has_email e) (rows (customers db))
     | None => false
     end
  then SqlError UNIQUE_constraint_failed
  else
    let id := next_rowid cust_id (customers db) in
    SqlOk id (set_customers (append_row (customers db) id
      (mkCustomerRow id name email phone address created_at updated_at)) db).

(** UPDATE customers SET name = ?, email = ?, phone = ?, address = ?,
    updated_at = ? WHERE id = ? *)
Definition UPDATE_customer (name : string) (email phone address : option string)
    (updated_at : string) (id : option Z) : statement unit := fun db =>
  match id with
  | None => SqlOk tt db
  | Some i =>
      if customer_exists db i then
        if match email with
           | Some e => existsb (fun r => negb (cust_id r =? i) && has_email e r)
                               (rows (customers db))
           | None => false
           end
        then SqlError UNIQUE_constraint_failed
        else
          SqlOk tt (set_customers (with_rows (customers db)
            (map (fun r => if cust_id r =? i
                           then mkCustomerRow (cust_id r) name email phone address
                                  (cust_created_at r) updated_at
                           else r) (rows (customers db)))) db)
      else SqlOk tt db
  end.

(** *** ProductController, the maintenance calls *)

Definition update_product (product : Product.t) : Txt.t bool :=
  (Txt.try_except
     (current_time <- Txt.lift get_current_timestamp ;;
      Txt.lift (execute (UPDATE_product (Product.code product) (Product.name product)
                           (Product.description product) (Product.category_id product)
                           (Product.price product) (Product.discount_percent product)
                           (Product.discount_start_date product)
                           (Product.discount_end_date product)
                           current_time (Product.id product))) ;;
      Txt.lift commit ;;
      Txt.ret true)
     (fun e => Txt.lift rollback ;;
               Txt.raise (Reraised "Error updating product" e)))%txt.

Definition delete_product (product_id : Z) : Txt.t bool :=
  (Txt.try_except
     (count <- Txt.lift (query (COUNT_sale_items_of_product product_id)) ;;
      if 0 <? count then
        Txt.raise (Exception
          "No se puede eliminar el producto porque está asociado a ventas existentes")
      else
        Txt.lift (execute (DELETE_product product_id)) ;;
        Txt.lift commit ;;
        Txt.ret true)
     (fun e => Txt.lift rollback ;;
               Txt.raise (Reraised "Error deleting product" e)))%txt.

Definition update_variant (variant : ProductVariant.t) : Txt.t bool :=
  (Txt.try_except
     (existing <- Txt.lift (query (SELECT_other_variant_id
                                     (ProductVariant.product_id variant)
                                     (ProductVariant.size variant)
                                     (ProductVariant.color variant)
                                     (ProductVariant.id variant))) ;;
      match existing with
      | Some _ =>
          Txt.raise (Exception
            "Ya existe otra variante con esta talla y color para este producto")
      | None =>
          Txt.lift (execute (UPDATE_variant (ProductVariant.size variant)
                               (ProductVariant.color variant)
                               (ProductVariant.id variant))) ;;
          Txt.lift commit ;;
          Txt.ret true
      end)
     (fun e => Txt.lift rollback ;;
               Txt.raise (Reraised "Error updating variant" e)))%txt.

Definition add_category (category : Category.t) : Txt.t Z :=
  (Txt.try_except
     (category_id <- Txt.lift (execute (INSERT_category (Category.name category)
                                          (Category.description category))) ;;
      Txt.lift commit ;;
      Txt.ret category_id)
     (fun e => Txt.lift rollback ;;
               Txt.raise (Reraised "Error adding category" e)))%txt.

Definition update_category (category : Category.t) : Txt.t bool :=
  (Txt.try_except
     (Txt.lift (execute (UPDATE_category (Category.name category)
                           (Category.description category) (Category.id category))) ;;
      Txt.lift commit ;;
      Txt.ret true)
     (fun e => Txt.lift rollback ;;
               Txt.raise (Reraised "Error updating category" e)))%txt.

Definition delete_category (category_id : Z) : Txt.t bool :=
  (Txt.try_except
     (count <- Txt.lift (query (COUNT_products_of_category category_id)) ;;
      if 0 <? count then
        Txt.raise (Exception
          "No se puede eliminar la categoría porque hay productos asociados a ella")
      else
        Txt.lift (execute (DELETE_category category_id)) ;;
        Txt.lift commit ;;
        Txt.ret true)
     (fun e => Txt.lift rollback ;;
               Txt.raise (Reraised "Error deleting category" e)))%txt.

(** *** CustomerController, the maintenance calls *)

Definition add_customer (customer : Customer.t) : Txt.t Z :=
  (Txt.try_except
     ((if truthy (Customer.email customer) then
         existing <- Txt.lift (query (SELECT_customer_by_email
                                        (match Customer.email customer with
                                         | Some e => e
                                         | None => ""
                                         end))) ;;
         match existing with
         | Some _ =>
             Txt.raise (Exception "Ya existe un cliente con este correo electrónico")
         | None => Txt.ret tt
         end
       else Txt.ret tt) ;;
      current_time <- Txt.lift get_current_timestamp ;;
      customer_id <- Txt.lift (execute (INSERT_customer (Customer.name customer)
                                          (Customer.email customer)
                                          (Customer.phone customer)
                                          (Customer.address customer)
                                          current_time current_time)) ;;
      Txt.lift commit ;;
      Txt.ret customer_id)
     (fun e => Txt.lift rollback ;;
               Txt.raise (Reraised "Error adding customer" e)))%txt.

Definition update_customer (customer : Customer.t) : Txt.t bool :=
  (Txt.try_except
     ((if truthy (Customer.email customer) then
         existing <- Txt.lift (query (SELECT_other_customer_by_email
                                        (match Customer.email customer with
                                         | Some e => e
                                         | None => ""
                                         end)
                                        (Customer.id customer))) ;;
         match existing with
         | Some _ =>
             Txt.raise (Exception "Ya existe otro cliente con este correo electrónico")
         | None => Txt.ret tt
         end
       else Txt.ret tt) ;;
      current_time <- Txt.lift get_current_timestamp ;;
      Txt.lift (execute (UPDATE_customer (Customer.name customer)
                           (Customer.email customer) (Customer.phone customer)
                           (Customer.address customer) current_time
                           (Customer.id customer))) ;;
      Txt.lift commit ;;
      Txt.ret true)
     (fun e => Txt.lift rollback ;;
               Txt.raise (Reraised "Error updating customer" e)))%txt.

(** The emails of the customers that have one. *)
Definition emails (l : list CustomerRow) : list string :=
  flat_map (fun r => match cust_email r with
                     | Some e => [e]
                     | None => []
                     end) l.

(** ** DatabaseManager.setup_database (database/db_manager.py) *)

(** INSERT OR IGNORE INTO categories (name, description) VALUES (?, ?):
    a name that is there already leaves the rows alone; the AUTOINCREMENT
    counter has handed out a rowid all the same. *)
Definition INSERT_OR_IGNORE_category (name description : string) : statement unit := fun db =>
  let id := next_rowid cat_id (categories db) in
  if existsb (fun r => String.eqb (cat_name r) name) (rows (categories db)) then
    SqlOk tt (set_categories (mkTable (rows (categories db)) id) db)
  else
    SqlOk tt (set_categories (append_row (categories db) id
      (mkCategoryRow id name description)) db).

Definition default_categories : list (string * string) :=
  [("Camisetas", "Todo tipo de camisetas");
   ("Pantalones", "Pantalones para hombre y mujer");
   ("Accesorios", "Complementos de moda");
   ("Vestidos", "Vestidos para mujer");
   ("Chaquetas", "Chaquetas y abrigos")].

(** The CREATE TABLE IF NOT EXISTS statements leave a table that exists
    alone, and the tables of [DB] always exist: an empty one stands for a
    table just created.  What is left is the seeding of the categories. *)
Definition setup_database : M unit :=
  for_each default_categories (fun category =>
    execute (INSERT_OR_IGNORE_category (fst category) (snd category))) ;;
  commit.

(** ** The stock reports of InventoryController *)

(** ORDER BY: a sort that keeps rows of equal keys in the order they were
    read in; [le x y] says that the keys of [x] are not above those of [y]. *)
Fixpoint insert_sorted (A : Type) (le : A -> A -> bool) (x : A) (l : list A) : list A :=
  match l with
  | [] => [x]
  | y :: l' => if le x y then x :: l else y :: insert_sorted le x l'
  end.

Definition order_by (A : Type) (le : A -> A -> bool) (l : list A) : list A :=
  fold_right (insert_sorted le) [] l.

(** A list of numbers that goes up. *)
Fixpoint ascending (l : list Z) : Prop :=
  match l with
  | [] => True
  | x :: l' => (forall y, In y l' -> x <= y) /\ ascending l'
  end.

(** FROM inventory i JOIN product_variants pv ON i.product_variant_id = pv.id
    JOIN products p ON pv.product_id = p.id *)
Definition stock_rows (db : DB) : list (ProductRow * VariantRow * InventoryRow) :=
  flat_map (fun i =>
    match find (fun r => pv_id r =? inv_product_variant_id i)
               (rows (product_variants db)) with
    | None => []
    | Some pv =>
        match find (fun p => prod_id p =? pv_product_id pv) (rows (products db)) with
        | None => []
        | Some p => [(p, pv, i)]
        end
    end) (rows (inventory db)).

(** SELECT p.id, p.code, p.name, pv.id, pv.size, pv.color, i.quantity *)
Definition stock_line (x : ProductRow * VariantRow * InventoryRow)
    : Z * string * string * Z * string * string * Z :=
  let '(p, pv, i) := x in
  (prod_id p, prod_code p, prod_name p, pv_id pv, pv_size pv, pv_color pv, inv_quantity i).

Definition line_quantity (line : Z * string * string * Z * string * string * Z) : Z :=
  snd line.

(** ... WHERE i.quantity > 0 AND i.quantity <= ? ORDER BY i.quantity, p.name *)
Definition SELECT_low_stock (threshold : Z) (db : DB)
    : list (Z * string * string * Z * string * string * Z) :=
  map stock_line
    (order_by (fun x y =>
                 let '(p, _, i) := x in
                 let '(p', _, i') := y in
                 (inv_quantity i <? inv_quantity i')
                 || ((inv_quantity i =? inv_quantity i')
                     && String.leb (prod_name p) (prod_name p')))
       (filter (fun x => let '(_, _, i) := x in
                         (0 <? inv_quantity i) && (inv_quantity i <=? threshold))
               (stock_rows db))).

(** ... WHERE i.quantity = 0 ORDER BY p.name *)
Definition SELECT_out_of_stock (db : DB)
    : list (Z * string * string * Z * string * string * Z) :=
  map stock_line
    (order_by (fun x y =>
                 let '(p, _, _) := x in
                 let '(p', _, _) := y in
                 String.leb (prod_name p) (prod_name p'))
       (filter (fun x => let '(_, _, i) := x in inv_quantity i =? 0)
               (stock_rows db))).

Definition get_low_stock_items (threshold : Z)
    : Txt.t (list (Z * string * string * Z * string * string * Z)) :=
  Txt.try_except
    (Txt.lift (query (SELECT_low_stock threshold)))
    (fun e => Txt.raise (Reraised "Error getting low stock items" e)).

Definition get_out_of_stock_items
    : Txt.t (list (Z * string * string * Z * string * string * Z)) :=
  Txt.try_except
    (Txt.lift (query SELECT_out_of_stock))
    (fun e => Txt.raise (Reraised "Error getting out of stock items" e)).

(** ** A small shop used for the concrete runs *)

Module Shop.
Definition clock : nat -> string := fun _ => "2024-05-01T10:00:00".

(** One product with two variants: 3 units of variant 1 and 10 of
    variant 2, each bought in one purchase; one customer. *)
Definition db : DB :=
  mkDB
    (mkTable [mkCategoryRow 1 "Camisetas" "Todo tipo de camisetas"] 1)
    (mkTable [mkProductRow 1 "TSH001" "Camiseta" "Algodon" 1 20 (Some 0%float) None None
                           "2024-04-01T09:00:00" "2024-04-01T09:00:00"] 1)
    (mkTable [mkVariantRow 1 1 "M" "Negro"; mkVariantRow 2 1 "G" "Negro"] 2)
    (mkTable [mkInventoryRow 1 1 3 "2024-04-02T09:00:00";
              mkInventoryRow 2 2 10 "2024-04-02T09:00:00"] 2)
    (mkTable [mkCustomerRow 1 "Ana" None None None
                            "2024-04-01T09:00:00" "2024-04-01T09:00:00"] 1)
    (empty_table _)
    (empty_table _)
    (mkTable [mkTransactionRow 1 1 3 "PURCHASE" None "2024-04-02T09:00:00" None;
              mkTransactionRow 2 2 10 "PURCHASE" None "2024-04-02T09:00:00" None] 2).

Definition conn : Conn := mkConn db db clock 0.

Definition line (variant quantity : Z) : SaleItem.t :=
  SaleItem.init None None variant quantity 20 0 0.

Definition sale_of (customer : option Z) (total : float) (l : list SaleItem.t) : Sale.t :=
  Sale.set_items l (Sale.init None customer "2024-05-01T10:00:00" Sale.CASH total).

(** 4 units of variant 2, total 80. *)
Definition sale_a : Sale.t := sale_of None 80 [line 2 4].

(** 4 units of variant 2 (in stock), then 5 of variant 1 (3 in stock). *)
Definition sale_c : Sale.t := sale_of None 180 [line 2 4; line 1 5].

(** A line on variant 7, which has no inventory, then 5 of variant 1. *)
Definition sale_unknown_first : Sale.t := sale_of None 200 [line 7 1; line 1 5].

(** 5 of variant 1 (3 in stock), then a line on variant 7. *)
Definition sale_unknown_last : Sale.t := sale_of None 200 [line 1 5; line 7 1].

(** 4 units of variant 2, then a line on variant 7. *)
Definition sale_unknown_second : Sale.t := sale_of None 100 [line 2 4; line 7 1].

(** No line, customer 1, total 12.5. *)
Definition sale_empty : Sale.t := sale_of (Some 1) 12.5 [].

(** No line, customer 999 who does not exist. *)
Definition sale_empty_stranger : Sale.t := sale_of (Some 999) 12.5 [].

(** Items put on the sale directly; the total stays at its default 0. *)
Definition sale_untotalled : Sale.t := sale_of None 0 [line 2 4].

(** The sale of Scenario A put together with add_item. *)
Definition sale_assembled : Sale.t :=
  assemble None "2024-05-01T10:00:00" Sale.CASH [(2, 4, 20%float, 0%float)].

(** Two lines of 2 units on variant 1, which holds 3. *)
Definition sale_twice : Sale.t := sale_of None 80 [line 1 2; line 1 2].



Definition variant_with_stock : ProductVariant.t :=
  ProductVariant.set_inventory_quantity 5 (ProductVariant.init None 1 "S" "Rojo").

(** The shop with a sale of customer 1 on record. *)
Definition conn_sold : Conn :=
  snd (create_sale (sale_of (Some 1) 80 [line 2 4]) conn).
End Shop.

(** ** The shop with more on its shelves, for the concrete runs *)

Module Shelf.
Definition jean : Product.t :=
  Product.mk None "PNT001" "Jean" "Corte recto" 1 50 0 None None.

Definition jean_variants : list ProductVariant.t :=
  [ProductVariant.init None 0 "30" "Azul"; Shop.variant_with_stock].

(** The shop after add_product of the jean: product 2, variants 3 and 4,
    both without stock and without history. *)
Definition conn_jean : Conn := snd (add_product jean jean_variants Shop.conn).

(** The shop with a second customer, who has an email. *)
Definition conn_two_customers : Conn :=
  let db := set_customers
              (mkTable [mkCustomerRow 1 "Ana" None None None
                          "2024-04-01T09:00:00" "2024-04-01T09:00:00";
                        mkCustomerRow 2 "Luis" (Some "luis@example.com") None None
                          "2024-04-03T09:00:00" "2024-04-03T09:00:00"] 2)
              Shop.db in
  mkConn db db Shop.clock 0.

(** The shop with a second category, which no product is in. *)
Definition conn_two_categories : Conn :=
  let db := set_categories
              (mkTable [mkCategoryRow 1 "Camisetas" "Todo tipo de camisetas";
                        mkCategoryRow 2 "Pantalones" "Pantalones para hombre y mujer"] 2)
              Shop.db in
  mkConn db db Shop.clock 0.
End Shelf.

(** * Properties *)

Unset Implicit Arguments.

(** ** The connection primitives *)

Lemma conn_eta (c : Conn) :
  mkConn (committed c) (working c) (time_source c) (time_reads c) = c.
Proof. destruct c; reflexivity. Qed.

Lemma rollback_clean (c : Conn) :
  committed c = working c ->
  mkConn (committed c) (committed c) (time_source c) (time_reads c) = c.
Proof. destruct c; cbn; intros ->; reflexivity. Qed.

Lemma find_some_key {R : Type} (key : R -> Z) (l : list R) (k : Z) (r : R) :
  find (fun x => key x =? k) l = Some r -> In r l /\ key r = k.
Proof.
  intros H. apply find_some in H. destruct H as [Hin Hk].
  split; [exact Hin | now apply Z.eqb_eq].
Qed.

Lemma has_id_true {R : Type} (key : R -> Z) (l : list R) (k : Z) :
  has_id key l k = true <-> exists r, In r l /\ key r = k.
Proof.
  unfold has_id. rewrite existsb_exists.
  split; intros (r & Hin & Hk); exists r; split; auto; now apply Z.eqb_eq.
Qed.

Lemma has_id_find {R : Type} (key : R -> Z) (l : list R) (k : Z) :
  has_id key l k = true -> exists r, find (fun x => key x =? k) l = Some r.
Proof.
  intros H. apply has_id_true in H. destruct H as (r & Hin & Hk).
  destruct (find (fun x => key x =? k) l) as [r'|] eqn:E; [now exists r'|].
  exfalso. apply (find_none _ _ E) in Hin. rewrite Hk, Z.eqb_refl in Hin. discriminate.
Qed.

(** ** The stock check of create_sale *)

Lemma check_item_pass (c : Conn) (item : SaleItem.t) :
  in_stock (working c) item -> check_item item c = (Return tt, c).
Proof.
  intros (q & Hq & Hle). unfold check_item, bind, query.
  unfold stock in Hq. rewrite Hq.
  destruct (q <? SaleItem.quantity item) eqn:E; [|reflexivity].
  apply Z.ltb_lt in E. lia.
Qed.

Lemma check_item_short (c : Conn) (item : SaleItem.t) (q : Z) (name size color : string) :
  stock (working c) (SaleItem.product_variant_id item) = Some q ->
  q < SaleItem.quantity item ->
  SELECT_variant_info (SaleItem.product_variant_id item) (working c)
    = Some (name, size, color) ->
  check_item item c
    = (Raise (Stock_insuficiente name color size q (SaleItem.quantity item)), c).
Proof.
  intros Hq Hlt Hinfo. unfold check_item, bind, query.
  unfold stock in Hq. rewrite Hq.
  apply Z.ltb_lt in Hlt. rewrite Hlt, Hinfo. reflexivity.
Qed.

Lemma check_item_unknown (c : Conn) (item : SaleItem.t) :
  stock (working c) (SaleItem.product_variant_id item) = None ->
  check_item item c = (Raise Producto_no_encontrado_en_el_inventario, c).
Proof.
  intros Hq. unfold check_item, bind, query.
  unfold stock in Hq. rewrite Hq. reflexivity.
Qed.

(** The check reads only: whatever it answers, the connection is the same. *)
Lemma check_item_reads_only (c : Conn) (item : SaleItem.t) :
  snd (check_item item c) = c.
Proof.
  unfold check_item, bind, query.
  destruct (SELECT_inventory_quantity _ _) as [q|]; [|reflexivity].
  destruct (q <? _); [|reflexivity].
  destruct (SELECT_variant_info _ _) as [[[n s] co]|]; reflexivity.
Qed.

Lemma check_item_return (c c' : Conn) (item : SaleItem.t) :
  check_item item c = (Return tt, c') -> in_stock (working c) item.
Proof.
  unfold check_item, bind, query, in_stock, stock.
  destruct (SELECT_inventory_quantity _ _) as [q|]; [|discriminate].
  destruct (q <? _) eqn:E.
  - destruct (SELECT_variant_info _ _) as [[[n s] co]|]; discriminate.
  - intros _. exists q. split; [reflexivity|]. now apply Z.ltb_ge in E.
Qed.

Lemma check_all_pass (c : Conn) (items : list SaleItem.t) :
  Forall (in_stock (working c)) items ->
  for_each items check_item c = (Return tt, c).
Proof.
  induction 1 as [|item items Hitem _ IH]; [reflexivity|].
  cbn. unfold bind. rewrite (check_item_pass _ _ Hitem). exact IH.
Qed.

Lemma check_all_first_failure (c : Conn) (pre post : list SaleItem.t)
    (item : SaleItem.t) (e : exn) :
  Forall (in_stock (working c)) pre ->
  check_item item c = (Raise e, c) ->
  for_each (pre ++ item :: post) check_item c = (Raise e, c).
Proof.
  intros Hpre Hitem.
  induction Hpre as [|x pre Hx _ IH]; cbn; unfold bind.
  - rewrite Hitem. reflexivity.
  - rewrite (check_item_pass _ _ Hx). exact IH.
Qed.

Lemma check_all_reads_only (c : Conn) (items : list SaleItem.t) :
  snd (for_each items check_item c) = c.
Proof.
  induction items as [|item items IH]; [reflexivity|].
  cbn. unfold bind.
  pose proof (check_item_reads_only c item) as H.
  destruct (check_item item c) as [[[]|e] c']; cbn in H; subst c'; [exact IH|reflexivity].
Qed.

Lemma check_all_return (c c' : Conn) (items : list SaleItem.t) :
  for_each items check_item c = (Return tt, c') ->
  c' = c /\ Forall (in_stock (working c)) items.
Proof.
  intros H. pose proof (check_all_reads_only c items) as Hc.
  rewrite H in Hc. cbn in Hc. subst c'. split; [reflexivity|].
  induction items as [|item items IH]; [constructor|].
  cbn in H. unfold bind in H.
  pose proof (check_item_reads_only c item) as Hi.
  destruct (check_item item c) as [[[]|e] c'] eqn:E; cbn in Hi; subst c'; [|discriminate].
  constructor; [eapply check_item_return; exact E | exact (IH H)].
Qed.

(** A failed stock check ends create_sale before its first INSERT. *)
Lemma create_sale_check_fails (c : Conn) (sale : Sale.t) (e : exn) :
  committed c = working c ->
  for_each (Sale.items sale) check_item c = (Raise e, c) ->
  create_sale sale c = (Raise (Wrapped Error_creando_la_venta e), c).
Proof.
  intros Hclean Hcheck. unfold create_sale, try_except, bind at 1.
  rewrite Hcheck. unfold bind, rollback, raise.
  rewrite (rollback_clean _ Hclean). reflexivity.
Qed.

(** C2, as the code has it.  When the first line item that fails the stock
    check is one that requests more than its variant holds (every line
    before it is in stock), create_sale raises the insufficient-stock error
    with that variant's available and requested quantities; the check
    comes before any write and the connection, with the Sale, SaleItem,
    Inventory and InventoryTransaction tables, is exactly as before the
    call. *)
Theorem create_sale_insufficient_stock :
  forall (c : Conn) (sale : Sale.t) (pre post : list SaleItem.t) (item : SaleItem.t)
         (available : Z) (name size color : string),
    committed c = working c ->
    Sale.items sale = pre ++ item :: post ->
    Forall (in_stock (working c)) pre ->
    stock (working c) (SaleItem.product_variant_id item) = Some available ->
    available < SaleItem.quantity item ->
    SELECT_variant_info (SaleItem.product_variant_id item) (working c)
      = Some (name, size, color) ->
    create_sale sale c
      = (Raise (Wrapped Error_creando_la_venta
                  (Stock_insuficiente name color size available
                                      (SaleItem.quantity item))), c).
Proof.
  intros c sale pre post item available name size color
         Hclean Hitems Hpre Hstock Hshort Hinfo.
  apply create_sale_check_fails; [exact Hclean|].
  rewrite Hitems. apply check_all_first_failure; [exact Hpre|].
  now apply check_item_short.
Qed.

(** Scenario C of the specification: the first line is in stock, the second
    asks for 5 of a variant that holds 3. *)
Lemma create_sale_insufficient_stock_witness :
  create_sale Shop.sale_c Shop.conn
    = (Raise (Wrapped Error_creando_la_venta
                (Stock_insuficiente "Camiseta" "Negro" "M" 3 5)), Shop.conn).
Proof.
  apply (@create_sale_insufficient_stock Shop.conn Shop.sale_c
           [Shop.line 2 4] [] (Shop.line 1 5) 3 "Camiseta" "M" "Negro").
  - reflexivity.
  - reflexivity.
  - constructor; [|constructor].
    exists 10. split; [reflexivity | cbn; lia].
  - reflexivity.
  - cbn; lia.
  - reflexivity.
Defined.

(** C2 as stated fails: a line asks for 5 of a variant that holds 3, yet the
    error raised is the not-found one of the line before it. *)
Lemma create_sale_shortage_behind_unknown_variant :
  (exists item q,
     In item (Sale.items Shop.sale_unknown_first)
     /\ stock (working Shop.conn) (SaleItem.product_variant_id item) = Some q
     /\ q < SaleItem.quantity item)
  /\ create_sale Shop.sale_unknown_first Shop.conn
       = (Raise (Wrapped Error_creando_la_venta
                   Producto_no_encontrado_en_el_inventario), Shop.conn).
Proof.
  split; [|reflexivity].
  exists (Shop.line 1 5), 3. split; [right; left; reflexivity|].
  split; [reflexivity | cbn; lia].
Qed.

(** C8, as the code has it.  When the first line item that fails the stock
    check is one whose variant id fits SQLite's INTEGER and has no
    Inventory row (every line before it is in stock), create_sale raises the
    inventory-not-found error and the connection is exactly as before the
    call: no Sale, SaleItem, Inventory or InventoryTransaction row is
    written.  (An id outside SQLite's INTEGER cannot be bound to the SELECT
    of the stock check: sqlite3 raises OverflowError there.) *)
Theorem create_sale_unknown_variant :
  forall (c : Conn) (sale : Sale.t) (pre post : list SaleItem.t) (item : SaleItem.t),
    committed c = working c ->
    Sale.items sale = pre ++ item :: post ->
    Forall (in_stock (working c)) pre ->
    sqlite_integer (SaleItem.product_variant_id item) ->
    stock (working c) (SaleItem.product_variant_id item) = None ->
    create_sale sale c
      = (Raise (Wrapped Error_creando_la_venta
                  Producto_no_encontrado_en_el_inventario), c).
Proof.
  intros c sale pre post item Hclean Hitems Hpre _ Hstock.
  apply create_sale_check_fails; [exact Hclean|].
  rewrite Hitems. apply check_all_first_failure; [exact Hpre|].
  now apply check_item_unknown.
Qed.

Lemma create_sale_unknown_variant_witness :
  create_sale Shop.sale_unknown_second Shop.conn
    = (Raise (Wrapped Error_creando_la_venta
                Producto_no_encontrado_en_el_inventario), Shop.conn).
Proof.
  apply (@create_sale_unknown_variant Shop.conn Shop.sale_unknown_second
           [Shop.line 2 4] [] (Shop.line 7 1)).
  - reflexivity.
  - reflexivity.
  - constructor; [|constructor].
    exists 10. split; [reflexivity | cbn; lia].
  - unfold sqlite_integer. cbn. lia.
  - reflexivity.
Defined.

(** C8 as stated fails: the sale has a line on a variant without Inventory
    row, yet the error raised is the insufficient-stock one of the line
    before it. *)
Lemma create_sale_unknown_variant_behind_shortage :
  (exists item,
     In item (Sale.items Shop.sale_unknown_last)
     /\ stock (working Shop.conn) (SaleItem.product_variant_id item) = None)
  /\ create_sale Shop.sale_unknown_last Shop.conn
       = (Raise (Wrapped Error_creando_la_venta
                   (Stock_insuficiente "Camiseta" "Negro" "M" 3 5)), Shop.conn).
Proof.
  split; [|reflexivity].
  exists (Shop.line 7 1). split; [right; left; reflexivity | reflexivity].
Qed.

(** ** adjust_inventory *)

(** C7.  adjust_inventory on a variant whose quantity plus the change is
    below 0 raises the negative-quantity error and leaves the connection,
    hence Inventory.quantity and the InventoryTransaction table, as it was. *)
Theorem adjust_inventory_rejects_negative :
  forall (c : Conn) (v delta : Z) (notes : option string) (q : Z),
    stock (working c) v = Some q ->
    q + delta < 0 ->
    adjust_inventory v delta notes c
      = (Raise (Wrapped Error_adjusting_inventory Cantidad_no_puede_ser_negativa), c).
Proof.
  intros c v delta notes q Hq Hneg.
  unfold stock, SELECT_inventory_quantity in Hq.
  destruct (SELECT_inventory v (working c)) as [r|] eqn:Hr; [|discriminate].
  cbn in Hq. injection Hq as Hq.
  unfold adjust_inventory, get_inventory, try_except, bind, query.
  rewrite Hr. cbn. rewrite Hq.
  destruct (q + delta <? 0) eqn:E; [reflexivity|].
  apply Z.ltb_ge in E. lia.
Qed.

Lemma adjust_inventory_rejects_negative_witness :
  adjust_inventory 1 (-5) None Shop.conn
    = (Raise (Wrapped Error_adjusting_inventory Cantidad_no_puede_ser_negativa),
       Shop.conn).
Proof.
  apply (@adjust_inventory_rejects_negative Shop.conn 1 (-5) None 3).
  - reflexivity.
  - lia.
Defined.

(** ** delete_customer *)

Lemma clear_customer_idempotent (c : Z) (s : SaleRow) :
  clear_customer c (clear_customer c s) = clear_customer c s.
Proof.
  unfold clear_customer.
  destruct (sales_customer_id s) as [c'|] eqn:E.
  - destruct (c' =? c) eqn:E2; cbn; [reflexivity|]. rewrite E, E2. reflexivity.
  - rewrite E. reflexivity.
Qed.

(** C9.  delete_customer on a customer that sales refer to returns True;
    the sales table is the old one with customer_id cleared on exactly
    those rows (same rows, same order, every other field as before), so each
    such sale is still there with customer_id NULL, and sale_items is
    untouched. *)
Theorem delete_customer_keeps_sales :
  forall (c : Conn) (customer_id : Z),
    (exists s, In s (rows (sales (working c)))
               /\ sales_customer_id s = Some customer_id) ->
    exists c',
      delete_customer customer_id c = (Return true, c')
      /\ committed c' = working c'
      /\ rows (sales (working c'))
           = map (clear_customer customer_id) (rows (sales (working c)))
      /\ (forall s, In s (rows (sales (working c))) ->
            sales_customer_id s = Some customer_id ->
            In (mkSaleRow (sales_id s) None (sales_sale_date s)
                          (sales_payment_method s) (sales_total_amount s))
               (rows (sales (working c'))))
      /\ (forall s, In s (rows (sales (working c))) ->
            sales_customer_id s <> Some customer_id ->
            In s (rows (sales (working c'))))
      /\ sale_items (working c') = sale_items (working c).
Proof.
  intros c cid Href.
  assert (Hrows :
    (if customer_exists (working c) cid
     then map (clear_customer cid) (map (clear_customer cid) (rows (sales (working c))))
     else map (clear_customer cid) (rows (sales (working c))))
    = map (clear_customer cid) (rows (sales (working c)))).
  { destruct (customer_exists (working c) cid); [|reflexivity].
    rewrite map_map. apply map_ext. intros; apply clear_customer_idempotent. }
  unfold delete_customer, try_except, bind, query, execute, commit, ret.
  destruct (0 <? COUNT_sales_of_customer cid (working c)) eqn:Hc; cbn.
  - eexists. split; [reflexivity|]. cbn. split; [reflexivity|].
    split; [exact Hrows|]. split; [|split; [|reflexivity]].
    + intros s Hin Hs. unfold customer_exists in *. cbn. rewrite Hrows.
      apply in_map_iff. exists s. split; [|exact Hin].
      unfold clear_customer. rewrite Hs, Z.eqb_refl. reflexivity.
    + intros s Hin Hs. unfold customer_exists in *. cbn. rewrite Hrows.
      apply in_map_iff. exists s. split; [|exact Hin].
      unfold clear_customer. destruct (sales_customer_id s) as [c'|]; [|reflexivity].
      destruct (c' =? cid) eqn:E; [|reflexivity].
      apply Z.eqb_eq in E. subst c'. now elim Hs.
  - exfalso. destruct Href as (s & Hin & Hs).
    apply Z.ltb_ge in Hc. unfold COUNT_sales_of_customer in Hc.
    assert (Hf : In s (filter (fun s0 => match sales_customer_id s0 with
                                         | Some c' => c' =? cid
                                         | None => false
                                         end) (rows (sales (working c))))).
    { apply filter_In. split; [exact Hin|]. rewrite Hs. apply Z.eqb_refl. }
    destruct (filter _ _); [contradiction|]. cbn [List.length] in Hc. lia.
Qed.

Lemma delete_customer_keeps_sales_witness :
  exists c',
    delete_customer 1 Shop.conn_sold = (Return true, c')
    /\ rows (sales (working c'))
         = [mkSaleRow 1 None "2024-05-01T10:00:00" "EFECTIVO" 80].
Proof.
  destruct (@delete_customer_keeps_sales Shop.conn_sold 1) as (c' & Hrun & _ & Hrows & _).
  - exists (mkSaleRow 1 (Some 1) "2024-05-01T10:00:00" "EFECTIVO" 80).
    split; [left; reflexivity | reflexivity].
  - exists c'. split; [exact Hrun | exact Hrows].
Defined.

(** ** Tables: rowids, lookups, the stock after an UPDATE *)

Lemma max_id_ge (l : list Z) (x : Z) : In x l -> x <= max_id l.
Proof.
  induction l as [|y l IH]; [contradiction|].
  cbn [max_id fold_right In]. fold (max_id l).
  intros [->|H]; [lia | specialize (IH H); lia].
Qed.

Lemma next_rowid_fresh {R : Type} (key : R -> Z) (t : table R) (r : R) :
  In r (rows t) -> key r < next_rowid key t.
Proof.
  intros H. unfold next_rowid.
  assert (key r <= max_id (map key (rows t))) by (apply max_id_ge, in_map, H).
  lia.
Qed.

Lemma has_id_next_rowid {R : Type} (key : R -> Z) (t : table R) :
  has_id key (rows t) (next_rowid key t) = false.
Proof.
  destruct (has_id key (rows t) (next_rowid key t)) eqn:E; [|reflexivity].
  apply has_id_true in E. destruct E as (r & Hin & Hk).
  apply (next_rowid_fresh key) in Hin. lia.
Qed.

Lemma has_id_app {R : Type} (key : R -> Z) (l l' : list R) (k : Z) :
  has_id key (l ++ l') k = has_id key l k || has_id key l' k.
Proof. unfold has_id. apply existsb_app. Qed.

Lemma find_map_key {R : Type} (key : R -> Z) (f : R -> R) (l : list R) (k : Z) :
  (forall r, key (f r) = key r) ->
  find (fun r => key r =? k) (map f l) = option_map f (find (fun r => key r =? k) l).
Proof.
  intros Hkey. induction l as [|r l IH]; [reflexivity|].
  cbn. rewrite Hkey. destruct (key r =? k); [reflexivity | exact IH].
Qed.

Lemma restock_key (q : Z) (ts : string) (v : Z) (r : InventoryRow) :
  inv_product_variant_id (restock q ts v r) = inv_product_variant_id r.
Proof. unfold restock. destruct (_ =? _); reflexivity. Qed.

Lemma stock_restock (db db' : DB) (q : Z) (ts : string) (v v' : Z) :
  rows (inventory db') = map (restock q ts v) (rows (inventory db)) ->
  stock db' v'
  = if v' =? v then option_map (fun _ => q) (stock db v) else stock db v'.
Proof.
  intros Hrows.
  unfold stock, SELECT_inventory_quantity, SELECT_inventory. rewrite Hrows.
  rewrite (find_map_key inv_product_variant_id) by (intros; apply restock_key).
  destruct (v' =? v) eqn:E.
  - apply Z.eqb_eq in E. subst v'.
    destruct (find _ _) as [r|] eqn:F; [|reflexivity].
    apply find_some_key in F. destruct F as [_ Hk].
    cbn. unfold restock. rewrite Hk, Z.eqb_refl. reflexivity.
  - destruct (find _ _) as [r|] eqn:F; [|reflexivity].
    apply find_some_key in F. destruct F as [_ Hk].
    cbn. unfold restock. rewrite Hk, E. reflexivity.
Qed.

Lemma stock_same_inventory (db db' : DB) (v : Z) :
  inventory db' = inventory db -> stock db' v = stock db v.
Proof.
  intros H. unfold stock, SELECT_inventory_quantity, SELECT_inventory.
  now rewrite H.
Qed.

Lemma moved_cons (v : Z) (item : SaleItem.t) (items : list SaleItem.t) :
  moved v (item :: items)
  = (if SaleItem.product_variant_id item =? v then SaleItem.quantity item else 0)
    + moved v items.
Proof.
  unfold moved. cbn. destruct (_ =? _); reflexivity.
Qed.

(** ** create_sale, when it returns *)

Lemma appended_refl (c : Conn) : appended c c [] [].
Proof. constructor; try reflexivity; now rewrite app_nil_r. Qed.

Lemma appended_trans (c1 c2 c3 : Conn) si1 tx1 si2 tx2 :
  appended c1 c2 si1 tx1 -> appended c2 c3 si2 tx2 ->
  appended c1 c3 (si1 ++ si2) (tx1 ++ tx2).
Proof.
  intros [] []. constructor; try congruence.
  - rewrite app_assoc. congruence.
  - rewrite app_assoc. congruence.
Qed.

(** One line sold: what sell_item needs to return and what it then leaves. *)
Lemma sell_item_return (sale_id : Z) (item : SaleItem.t) (c c' : Conn) :
  sell_item sale_id item c = (Return tt, c') ->
  exists si tx,
    appended c c' [si] [tx]
    /\ si_summary si = item_summary sale_id item
    /\ tx_summary tx = sale_summary sale_id item
    /\ variant_exists (working c) (SaleItem.product_variant_id item) = true
    /\ (forall v, stock (working c') v
                  = if v =? SaleItem.product_variant_id item
                    then option_map (fun q => q - SaleItem.quantity item)
                                    (stock (working c) v)
                    else stock (working c) v).
Proof.
  unfold sell_item, bind, execute, query, get_current_timestamp, ret.
  cbn [SaleItem.product_variant_id SaleItem.set_sale_id SaleItem.quantity
       SaleItem.unit_price SaleItem.discount_percent SaleItem.subtotal].
  unfold INSERT_sale_item.
  destruct (is_nan (SaleItem.unit_price item) || is_nan (SaleItem.subtotal item));
    [discriminate|].
  destruct (sale_exists (working c) sale_id && variant_exists (working c) _) eqn:Hfk;
    [|discriminate].
  apply andb_prop in Hfk. destruct Hfk as [Hsale Hvar].
  cbn [working committed time_source time_reads].
  change (SELECT_inventory_quantity (SaleItem.product_variant_id item)
            (set_sale_items _ (working c)))
    with (stock (working c) (SaleItem.product_variant_id item)).
  destruct (stock (working c) (SaleItem.product_variant_id item)) as [q|] eqn:Hq;
    [|discriminate].
  unfold UPDATE_inventory, INSERT_inventory_transaction.
  cbn [working committed time_source time_reads].
  change (variant_exists (set_inventory _ (set_sale_items _ (working c))) ?v)
    with (variant_exists (working c) v).
  rewrite Hvar. cbn [working committed time_source time_reads].
  intros H. injection H as H. subst c'.
  eexists _, _. split; [|split; [|split; [|split]]].
  - constructor; reflexivity.
  - reflexivity.
  - reflexivity.
  - reflexivity.
  - intros v. cbn [working].
    rewrite (@stock_restock (working c) _ (q - SaleItem.quantity item)
               (time_source c (time_reads c)) (SaleItem.product_variant_id item) v)
      by reflexivity.
    destruct (v =? _) eqn:E; [|reflexivity].
    apply Z.eqb_eq in E. subst v. rewrite Hq. reflexivity.
Qed.

Lemma option_map_sub_sub (o : option Z) (a b : Z) :
  option_map (fun q => q - b) (option_map (fun q => q - a) o)
  = option_map (fun q => q - (a + b)) o.
Proof. destruct o; cbn; [f_equal; lia | reflexivity]. Qed.

(** The second loop of create_sale, when it returns. *)
Lemma sell_items_return (sale_id : Z) (items : list SaleItem.t) :
  forall c c',
    for_each items (sell_item sale_id) c = (Return tt, c') ->
    exists si tx,
      appended c c' si tx
      /\ map si_summary si = map (item_summary sale_id) items
      /\ map tx_summary tx = map (sale_summary sale_id) items
      /\ Forall (fun item => variant_exists (working c)
                               (SaleItem.product_variant_id item) = true) items
      /\ (forall v, stock (working c') v
                    = option_map (fun q => q - moved v items) (stock (working c) v)).
Proof.
  induction items as [|item items IH]; intros c c' H.
  - cbn in H. injection H as <-. exists [], []. 
    split; [apply appended_refl|]. repeat split; try constructor.
    intros v. unfold moved. cbn. destruct (stock (working c) v); cbn; [f_equal; lia|reflexivity].
  - cbn in H. unfold bind in H.
    destruct (sell_item sale_id item c) as [[[]|e] c1] eqn:E1; [|discriminate].
    apply sell_item_return in E1. destruct E1 as (si1 & tx1 & Happ1 & Hsi1 & Htx1 & Hv1 & Hst1).
    apply IH in H. destruct H as (si & tx & Happ & Hsi & Htx & Hv & Hst).
    exists (si1 :: si), (tx1 :: tx). split; [|split; [|split; [|split]]].
    + change (appended c c' ([si1] ++ si) ([tx1] ++ tx)).
      eapply appended_trans; eassumption.
    + cbn. now rewrite Hsi1, Hsi.
    + cbn. now rewrite Htx1, Htx.
    + constructor; [exact Hv1|].
      unfold variant_exists in *. rewrite <- (app_variants Happ1). exact Hv.
    + intros v. rewrite Hst, Hst1, moved_cons.
      destruct (v =? SaleItem.product_variant_id item) eqn:E.
      * apply Z.eqb_eq in E. subst v. rewrite Z.eqb_refl. apply option_map_sub_sub.
      * rewrite Z.eqb_sym, E. destruct (stock (working c) v); cbn; [f_equal; lia|reflexivity].
Qed.

Lemma create_sale_return (sale : Sale.t) (c c' : Conn) (sale_id : Z) :
  create_sale sale c = (Return sale_id, c') ->
  exists si tx, sale_created sale c sale_id c' si tx.
Proof.
  unfold create_sale, try_except. unfold bind at 1.
  destruct (for_each (Sale.items sale) check_item c) as [[[]|e] c0] eqn:Hcheck;
    [|unfold bind, rollback, raise; discriminate].
  apply check_all_return in Hcheck. destruct Hcheck as [-> Hstock].
  unfold bind at 1. unfold execute at 1, INSERT_sale.
  destruct (is_nan (Sale.total_amount sale));
    [unfold bind, rollback, raise; discriminate|].
  destruct (match Sale.customer_id sale with
            | Some c1 => customer_exists (working c) c1
            | None => true
            end) eqn:Hcust; [|unfold bind, rollback, raise; discriminate].
  set (sid := next_rowid sales_id (sales (working c))).
  unfold bind at 1.
  match goal with
  | |- context [for_each _ _ ?c1] => set (c1' := c1)
  end.
  destruct (for_each (Sale.items sale) (sell_item sid) c1') as [[[]|e] c2] eqn:Hsell;
    [|unfold bind, rollback, raise; discriminate].
  apply sell_items_return in Hsell.
  destruct Hsell as (si & tx & Happ & Hsi & Htx & Hvar & Hst).
  unfold bind, commit, ret. intros H. injection H as <- <-.
  exists si, tx.
  destruct Happ as [Hcom Hcat Hprod Hpv Hcus Hsal Hsit Htxs].
  subst c1'. cbn [working committed] in *.
  constructor; cbn [working committed]; try assumption; try reflexivity.
  - destruct (Sale.customer_id sale); [exact Hcust | exact I].
  - rewrite Hsal. reflexivity.
Qed.

(** ** cancel_sale after create_sale *)

Lemma return_item_run (sale_id : Z) (item : SaleItem.t) (c : Conn) :
  stock (working c) (SaleItem.product_variant_id item) <> None ->
  variant_exists (working c) (SaleItem.product_variant_id item) = true ->
  exists c' tx,
    return_item sale_id item c = (Return tt, c')
    /\ appended c c' [] [tx]
    /\ tx_summary tx = return_summary sale_id item
    /\ (forall v, stock (working c') v
                  = if v =? SaleItem.product_variant_id item
                    then option_map (fun q => q + SaleItem.quantity item)
                                    (stock (working c) v)
                    else stock (working c) v).
Proof.
  intros Hstock Hvar.
  unfold return_item, bind, execute, query, get_current_timestamp, ret.
  change (SELECT_inventory_quantity (SaleItem.product_variant_id item) (working c))
    with (stock (working c) (SaleItem.product_variant_id item)).
  destruct (stock (working c) (SaleItem.product_variant_id item)) as [q|] eqn:Hq;
    [|congruence].
  unfold UPDATE_inventory, INSERT_inventory_transaction.
  cbn [working committed time_source time_reads].
  change (variant_exists (set_inventory _ (working c)) ?v)
    with (variant_exists (working c) v).
  rewrite Hvar. cbn [working committed time_source time_reads].
  eexists _, _. split; [reflexivity|]. split; [|split].
  - constructor; try reflexivity. cbn. now rewrite app_nil_r.
  - reflexivity.
  - intros v. cbn [working].
    rewrite (@stock_restock (working c) _ (q + SaleItem.quantity item)
               (time_source c (time_reads c)) (SaleItem.product_variant_id item) v)
      by reflexivity.
    destruct (v =? _) eqn:E; [|reflexivity].
    apply Z.eqb_eq in E. subst v. rewrite Hq. reflexivity.
Qed.

Lemma option_map_add_add (o : option Z) (a b : Z) :
  option_map (fun q => q + b) (option_map (fun q => q + a) o)
  = option_map (fun q => q + (a + b)) o.
Proof. destruct o; cbn; [f_equal; lia | reflexivity]. Qed.


(** Sale.__init__ reads the clock for an empty sale_date, and only then. *)
Lemma sale_new_run (id customer_id : option Z) (sale_date payment_method : string)
    (total_amount : float) (c : Conn) :
  exists n date,
    Sale.new id customer_id sale_date payment_method total_amount c
    = (Return (Sale.init id customer_id date payment_method total_amount),
       mkConn (committed c) (working c) (time_source c) n)
    /\ (sale_date <> "" -> n = time_reads c /\ date = sale_date)
    /\ (sale_date = "" -> n = S (time_reads c) /\ date = time_source c (time_reads c)).
Proof.
  unfold Sale.new, bind, now_isoformat, get_current_timestamp, ret.
  destruct (String.eqb sale_date "") eqn:E.
  - apply String.eqb_eq in E. eexists _, _. split; [reflexivity|].
    split; [intros H; now elim H | intros _; split; reflexivity].
  - apply String.eqb_neq in E. exists (time_reads c), sale_date.
    split; [now destruct c|]. split; [intros _; split; reflexivity | intros H; now elim E].
Qed.

(** The loop of get_sale over the rows: every row is read, or the first
    row with a NULL discount_percent and no subtotal above 0 raises. *)
Lemma collect_read_item (l : list (SaleItemRow * (string * string * string * string)))
    (c : Conn) :
  collect l read_item c
  = (if forallb (fun item_data => row_reads_back (fst item_data)) l
     then Return (map item_of_row l)
     else Raise TypeError_NoneType_and_int, c).
Proof.
  induction l as [|x l IH]; [reflexivity|].
  cbn [collect forallb map]. unfold bind at 1.
  assert (Hx : read_item x c
               = (if row_reads_back (fst x) then Return (item_of_row x)
                  else Raise TypeError_NoneType_and_int, c)).
  { unfold read_item, row_reads_back, ret, raise.
    destruct (si_discount_percent (fst x)); [reflexivity|].
    destruct (0 <? si_subtotal (fst x))%float; reflexivity. }
  rewrite Hx. destruct (row_reads_back (fst x)); [|reflexivity].
  unfold bind. rewrite IH. cbn [andb].
  destruct (forallb _ l); reflexivity.
Qed.

(** get_sale writes nothing: it answers None, the sale with its lines, or
    raises on a line it cannot read. *)
Lemma get_sale_reads_only (sale_id : Z) (c : Conn) :
  (sale_exists (working c) sale_id = false /\ get_sale sale_id c = (Return None, c))
  \/ (sale_exists (working c) sale_id = true
      /\ exists n,
           (forallb (fun item_data => row_reads_back (fst item_data))
                    (SELECT_sale_items sale_id (working c)) = true
            /\ exists sale,
                 get_sale sale_id c
                 = (Return (Some sale),
                    mkConn (committed c) (working c) (time_source c) n)
                 /\ Sale.items sale
                    = map item_of_row (SELECT_sale_items sale_id (working c)))
           \/ (forallb (fun item_data => row_reads_back (fst item_data))
                       (SELECT_sale_items sale_id (working c)) = false
               /\ get_sale sale_id c
                  = (Raise (Wrapped Error_getting_sale TypeError_NoneType_and_int),
                     mkConn (committed c) (working c) (time_source c) n))).
Proof.
  destruct (find (fun s => sales_id s =? sale_id) (rows (sales (working c))))
    as [s|] eqn:Hs.
  - right. split; [apply has_id_true; exists s; now apply find_some_key in Hs|].
    destruct (sale_new_run (Some (sales_id s)) (sales_customer_id s) (sales_sale_date s)
                (sales_payment_method s) (sales_total_amount s) c)
      as (n & date & Hnew & _). exists n.
    assert (Hget : exists sale,
               get_sale sale_id c
               = (if forallb (fun item_data => row_reads_back (fst item_data))
                             (SELECT_sale_items sale_id (working c))
                  then Return (Some sale)
                  else Raise (Wrapped Error_getting_sale TypeError_NoneType_and_int),
                  mkConn (committed c) (working c) (time_source c) n)
               /\ Sale.items sale
                  = map item_of_row (SELECT_sale_items sale_id (working c))).
    { unfold get_sale, try_except, bind, query, SELECT_sale. rewrite Hs.
      cbv beta iota. rewrite Hnew. cbv beta iota. rewrite collect_read_item.
      cbn [working]. eexists. split.
      - destruct (forallb _ _); reflexivity.
      - reflexivity. }
    destruct Hget as (sale & Hget & Hitems). rewrite Hget.
    destruct (forallb _ _).
    + left. split; [reflexivity|]. exists sale. split; [reflexivity | exact Hitems].
    + right. split; reflexivity.
  - left. split.
    + unfold sale_exists, has_id. destruct (existsb _ _) eqn:E; [|reflexivity].
      apply existsb_exists in E. destruct E as (s & Hin & Hk).
      now rewrite (find_none _ _ Hs s Hin) in Hk.
    + unfold get_sale, try_except, bind, query, SELECT_sale. now rewrite Hs.
Qed.






Lemma find_app_new {R : Type} (f : R -> bool) (l l' : list R) :
  (forall r, In r l -> f r = false) -> find f (l ++ l') = find f l'.
Proof.
  induction l as [|x l IH]; intros H; [reflexivity|].
  cbn. rewrite (H x (or_introl eq_refl)). apply IH. intros; apply H; now right.
Qed.

Lemma select_sale_items_rows (sale_id : Z) (db : DB) (old new : list SaleItemRow) :
  rows (sale_items db) = old ++ new ->
  (forall si, In si old -> si_sale_id si <> sale_id) ->
  (forall si, In si new -> si_sale_id si = sale_id
                           /\ variant_exists db (si_product_variant_id si) = true) ->
  (forall pv, In pv (rows (product_variants db)) ->
              product_exists db (pv_product_id pv) = true) ->
  map fst (SELECT_sale_items sale_id db) = new.
Proof.
  intros Hrows Hold Hnew Hprod. unfold SELECT_sale_items. rewrite Hrows, flat_map_app.
  rewrite !map_app.
  match goal with |- ?a ++ _ = _ => assert (Ha : a = []) end.
  { clear Hrows. induction old as [|si old IH]; [reflexivity|].
    cbn [flat_map]. destruct (si_sale_id si =? sale_id) eqn:E.
    - apply Z.eqb_eq in E. exfalso. apply (Hold si); [now left | exact E].
    - cbn [app]. apply IH. intros; apply Hold; now right. }
  rewrite Ha. cbn [app]. clear Ha Hrows Hold.
  induction new as [|si new IH]; [reflexivity|].
  cbn [flat_map]. destruct (Hnew si (or_introl eq_refl)) as [Hs Hv].
  rewrite Hs, Z.eqb_refl.
  apply has_id_find in Hv. destruct Hv as [pv Hpv]. rewrite Hpv.
  apply find_some_key in Hpv. destruct Hpv as [Hin _].
  apply Hprod in Hin. apply has_id_find in Hin. destruct Hin as [p Hp]. rewrite Hp.
  cbn [app map fst]. f_equal.
  apply IH. intros; apply Hnew; now right.
Qed.



Lemma filter_all {A : Type} (f : A -> bool) (l : list A) :
  (forall x, In x l -> f x = true) -> filter f l = l.
Proof.
  induction l as [|x l IH]; intros H; [reflexivity|].
  cbn. rewrite (H x (or_introl eq_refl)). f_equal. apply IH. intros; apply H; now right.
Qed.

Lemma filter_none {A : Type} (f : A -> bool) (l : list A) :
  (forall x, In x l -> f x = false) -> filter f l = [].
Proof.
  induction l as [|x l IH]; intros H; [reflexivity|].
  cbn. rewrite (H x (or_introl eq_refl)). apply IH. intros; apply H; now right.
Qed.

Lemma summaries_lines (sale_id : Z) (si : list SaleItemRow) (items : list SaleItem.t) :
  map si_summary si = map (item_summary sale_id) items ->
  map (fun r => (si_product_variant_id r, si_quantity r)) si = map item_line items
  /\ (forall r, In r si -> si_sale_id r = sale_id).
Proof.
  revert items. induction si as [|r si IH]; intros [|item items] H; try discriminate.
  - split; [reflexivity | contradiction].
  - cbn [map] in H. injection H as Hs Hv Hq _ _ _ Hrest.
    destruct (IH _ Hrest) as [Hl Hall]. split.
    + cbn [map]. unfold item_line at 1. now rewrite Hl, Hv, Hq.
    + intros r' [<-|Hin]; [exact Hs | now apply Hall].
Qed.

Lemma lines_variants_exist (db : DB) (si : list SaleItemRow) (items : list SaleItem.t) :
  map (fun r => (si_product_variant_id r, si_quantity r)) si = map item_line items ->
  Forall (fun item => variant_exists db (SaleItem.product_variant_id item) = true) items ->
  forall r, In r si -> variant_exists db (si_product_variant_id r) = true.
Proof.
  revert items. induction si as [|r si IH]; intros [|item items] H Hall; try discriminate.
  - contradiction.
  - cbn [map] in H. injection H as Hv _ Hrest. inversion Hall as [|x l Hx Hl]; subst.
    intros r' [<-|Hin]; [now rewrite Hv | now apply (IH _ Hrest Hl)].
Qed.




Lemma shop_references_ok : references_ok Shop.db.
Proof.
  split.
  - intros pv [<-|[<-|[]]]; reflexivity.
  - intros si [].
Qed.



(** ** create_sale without line items *)

(** C10, as the code has it.  create_sale on a Sale without items whose
    customer_id is None or the id of a customer row and whose total_amount
    is not NaN returns the new sale id; it appends the one Sale row, with
    the total_amount the Sale object carries, and leaves sale_items,
    inventory and inventory_transactions as they were. *)
Theorem create_sale_without_items :
  forall (c : Conn) (sale : Sale.t),
    Sale.items sale = [] ->
    match Sale.customer_id sale with
    | Some customer => customer_exists (working c) customer = true
    | None => True
    end ->
    is_nan (Sale.total_amount sale) = false ->
    exists c',
      create_sale sale c = (Return (next_rowid sales_id (sales (working c))), c')
      /\ committed c' = working c'
      /\ rows (sales (working c'))
           = rows (sales (working c))
             ++ [mkSaleRow (next_rowid sales_id (sales (working c)))
                           (Sale.customer_id sale) (Sale.sale_date sale)
                           (Sale.payment_method sale) (Sale.total_amount sale)]
      /\ sale_items (working c') = sale_items (working c)
      /\ inventory (working c') = inventory (working c)
      /\ inventory_transactions (working c') = inventory_transactions (working c).
Proof.
  intros c sale Hitems Hcust Hnan.
  unfold create_sale, try_except, bind, execute, INSERT_sale, commit, ret.
  rewrite Hitems. cbn [for_each]. unfold ret.
  assert (H : match Sale.customer_id sale with
              | Some c0 => customer_exists (working c) c0
              | None => true
              end = true)
    by (destruct (Sale.customer_id sale); [exact Hcust | reflexivity]).
  rewrite Hnan, H. cbn [working committed time_source time_reads].
  eexists. repeat split.
Qed.

(** A total_amount that is NaN is bound as NULL, which the NOT NULL column
    refuses: create_sale raises and leaves the database as it was. *)
Lemma create_sale_without_items_nan_total (c : Conn) (sale : Sale.t) :
  committed c = working c ->
  Sale.items sale = [] ->
  is_nan (Sale.total_amount sale) = true ->
  create_sale sale c
  = (Raise (Wrapped Error_creando_la_venta
              (Error_executing_query NOT_NULL_constraint_failed)), c).
Proof.
  intros Hc Hitems Hnan.
  unfold create_sale, try_except, bind, execute, INSERT_sale, rollback, raise.
  rewrite Hitems. cbn [for_each]. unfold ret. rewrite Hnan.
  cbn [working committed time_source time_reads]. now rewrite (rollback_clean c Hc).
Qed.

Lemma create_sale_without_items_witness :
  exists c',
    create_sale Shop.sale_empty Shop.conn = (Return 1, c')
    /\ committed c' = working c'
    /\ rows (sales (working c'))
         = [mkSaleRow 1 (Some 1) "2024-05-01T10:00:00" "EFECTIVO" 12.5]
    /\ sale_items (working c') = sale_items Shop.db
    /\ inventory (working c') = inventory Shop.db
    /\ inventory_transactions (working c') = inventory_transactions Shop.db.
Proof.
  apply (create_sale_without_items Shop.conn Shop.sale_empty).
  - reflexivity.
  - reflexivity.
  - vm_compute; reflexivity.
Defined.

(** C10 as stated fails: a Sale without items whose customer_id names no
    customer row makes create_sale raise, on the foreign key of
    sales.customer_id. *)
Lemma create_sale_without_items_unknown_customer :
  Sale.items Shop.sale_empty_stranger = []
  /\ create_sale Shop.sale_empty_stranger Shop.conn
       = (Raise (Wrapped Error_creando_la_venta
                   (Error_executing_query FOREIGN_KEY_constraint_failed)), Shop.conn).
Proof. split; reflexivity. Qed.

(** ** Amounts *)

Lemma new_item_priced (line : Z * Z * float * float) : priced (new_item line).
Proof. destruct line as [[[v q] p] d]. reflexivity. Qed.

Lemma merge_item_priced (sale_item : SaleItem.t) (l l' : list SaleItem.t) :
  Forall priced l -> Sale.merge_item sale_item l = Some l' -> Forall priced l'.
Proof.
  revert l'. induction l as [|item l IH]; intros l' Hl H; [discriminate|].
  inversion Hl as [|x l0 Hx Hrest]; subst. cbn [Sale.merge_item] in H.
  destruct (_ =? _).
  - injection H as <-. constructor; [reflexivity | exact Hrest].
  - destruct (Sale.merge_item sale_item l) as [m|]; [|discriminate].
    injection H as <-. constructor; [exact Hx | now apply IH].
Qed.

Lemma add_item_totalled (sale_item : SaleItem.t) (sale : Sale.t) :
  priced sale_item -> Forall priced (Sale.items sale) ->
  totalled (Sale.add_item sale_item sale).
Proof.
  intros Hi Hs. unfold Sale.add_item.
  destruct (Sale.merge_item sale_item (Sale.items sale)) as [l|] eqn:E.
  - split; [|reflexivity]. cbn. eapply merge_item_priced; eassumption.
  - split; [|reflexivity]. cbn. apply Forall_app. split; [exact Hs|].
    constructor; [exact Hi | constructor].
Qed.

Lemma assemble_totalled (customer_id : option Z) (sale_date payment_method : string)
    (lines : list (Z * Z * float * float)) :
  totalled (assemble customer_id sale_date payment_method lines).
Proof.
  unfold assemble.
  assert (H0 : totalled (Sale.init None customer_id sale_date payment_method 0))
    by (split; [constructor | reflexivity]).
  revert H0. generalize (Sale.init None customer_id sale_date payment_method 0).
  induction lines as [|line lines IH]; intros sale Hs; [exact Hs|].
  cbn [fold_left]. apply IH. apply add_item_totalled; [apply new_item_priced | apply Hs].
Qed.

Lemma priced_subtotals (l : list SaleItem.t) :
  Forall priced l -> map SaleItem.subtotal l = map SaleItem.calculate_subtotal l.
Proof.
  induction 1 as [|x l Hx _ IH]; [reflexivity|]. cbn. now rewrite Hx, IH.
Qed.

Lemma summaries_subtotals (sale_id : Z) (si : list SaleItemRow) (items : list SaleItem.t) :
  map si_summary si = map (item_summary sale_id) items ->
  map si_subtotal si = map SaleItem.subtotal items.
Proof.
  revert items. induction si as [|r si IH]; intros [|item items] H; try discriminate;
    [reflexivity|].
  cbn [map] in H. injection H as _ _ _ _ _ Hs Hrest.
  cbn [map]. now rewrite Hs, (IH _ Hrest).
Qed.

(** C5, as the code has it.  create_sale stores the total_amount and the
    subtotals the Sale object carries.  For a Sale put together by add_item
    from items built without a subtotal, these are the sum over its items of
    quantity * unit_price * (1 - discount_percent / 100) and, item by item,
    that product. *)
Theorem create_sale_stores_carried_amounts :
  forall (c c' : Conn) (sale : Sale.t) (sale_id : Z),
    create_sale sale c = (Return sale_id, c') ->
    exists si,
      rows (sales (working c'))
        = rows (sales (working c))
          ++ [mkSaleRow sale_id (Sale.customer_id sale) (Sale.sale_date sale)
                        (Sale.payment_method sale) (Sale.total_amount sale)]
      /\ rows (sale_items (working c')) = rows (sale_items (working c)) ++ si
      /\ map si_subtotal si = map SaleItem.subtotal (Sale.items sale)
      /\ (forall customer_id sale_date payment_method lines,
            sale = assemble customer_id sale_date payment_method lines ->
            Sale.total_amount sale
              = py_sum (map SaleItem.calculate_subtotal (Sale.items sale))
            /\ map si_subtotal si
               = map SaleItem.calculate_subtotal (Sale.items sale)).
Proof.
  intros c c' sale sid Hrun.
  apply create_sale_return in Hrun. destruct Hrun as (si & tx & Hc).
  pose proof (summaries_subtotals _ _ _ (sc_si_summary Hc)) as Hsub.
  exists si. split; [exact (sc_sales Hc)|]. split; [exact (sc_sale_items Hc)|].
  split; [exact Hsub|].
  intros customer_id sale_date payment_method lines ->.
  destruct (assemble_totalled customer_id sale_date payment_method lines) as [Hp Ht].
  rewrite Hsub, Ht, (priced_subtotals _ Hp). split; reflexivity.
Qed.

Lemma create_sale_stores_carried_amounts_witness :
  exists si,
    rows (sales (working (snd (create_sale Shop.sale_assembled Shop.conn))))
      = rows (sales (working Shop.conn))
        ++ [mkSaleRow 1 None "2024-05-01T10:00:00" "EFECTIVO" 80]
    /\ rows (sale_items (working (snd (create_sale Shop.sale_assembled Shop.conn))))
         = rows (sale_items (working Shop.conn)) ++ si
    /\ map si_subtotal si = [80%float].
Proof.
  destruct (create_sale_stores_carried_amounts Shop.conn
              (snd (create_sale Shop.sale_assembled Shop.conn)) Shop.sale_assembled 1)
    as (si & Hsales & Hitems & Hsub & _).
  - vm_compute; reflexivity.
  - exists si. split; [exact Hsales|]. split; [exact Hitems | exact Hsub].
Defined.

(** C5 as stated fails: a Sale whose items were assigned directly keeps the
    total_amount it was built with, here 0, and create_sale stores that,
    whereas its one line of 4 units at 20 comes to 80. *)
Lemma create_sale_total_as_carried :
  create_sale Shop.sale_untotalled Shop.conn
    = (Return 1, snd (create_sale Shop.sale_untotalled Shop.conn))
  /\ map sales_total_amount
         (rows (sales (working (snd (create_sale Shop.sale_untotalled Shop.conn)))))
       = [0%float]
  /\ py_sum (map SaleItem.calculate_subtotal (Sale.items Shop.sale_untotalled))
       = 80%float.
Proof. split; [|split]; vm_compute; reflexivity. Qed.

(** ** add_variant *)

Lemma shop_ledger_invariant : ledger_invariant Shop.db.
Proof. intros r [<-|[<-|[]]]; reflexivity. Qed.

(** What add_variant has written when it returns: the variant, one
    Inventory row with the quantity the object carries, no transaction. *)
Lemma add_variant_return (variant : ProductVariant.t) (c c' : Conn) (variant_id : Z) :
  add_variant variant c = (Return variant_id, c') ->
  committed c' = working c'
  /\ variant_id = next_rowid pv_id (product_variants (working c))
  /\ rows (inventory (working c'))
       = rows (inventory (working c))
         ++ [mkInventoryRow (next_rowid inv_id (inventory (working c))) variant_id
                            (ProductVariant.inventory_quantity variant)
                            (time_source c (time_reads c))]
  /\ inventory_transactions (working c') = inventory_transactions (working c).
Proof.
  unfold add_variant, try_except, bind, get_current_timestamp, query, execute,
    commit, rollback, raise, ret, INSERT_variant, INSERT_inventory.
  cbn [working committed time_source time_reads].
  destruct (SELECT_variant_id _ _ _ (working c)) eqn:Hnew; [discriminate|].
  cbn [working committed time_source time_reads]. rewrite Hnew.
  destruct (product_exists (working c) (ProductVariant.product_id variant));
    [|discriminate].
  cbn [working committed time_source time_reads].
  match goal with
  | |- context [variant_exists ?db ?v] => destruct (variant_exists db v); [|discriminate]
  end.
  cbn [working committed time_source time_reads].
  intros H. injection H as <- <-. repeat split.
Qed.

(** C1 at the input where the code leaves it: in the shop, whose stock
    matches its ledger, add_variant with an inventory_quantity of 5 returns
    variant 3; its Inventory row holds 5 while no transaction of variant 3
    exists, so the committed state breaks the invariant. *)
Theorem add_variant_breaks_ledger_invariant :
  ledger_invariant (committed Shop.conn)
  /\ add_variant Shop.variant_with_stock Shop.conn
       = (Return 3, snd (add_variant Shop.variant_with_stock Shop.conn))
  /\ stock (committed (snd (add_variant Shop.variant_with_stock Shop.conn))) 3 = Some 5
  /\ ledger_sum (committed (snd (add_variant Shop.variant_with_stock Shop.conn))) 3 = 0
  /\ ~ ledger_invariant (committed (snd (add_variant Shop.variant_with_stock Shop.conn))).
Proof.
  split; [exact shop_ledger_invariant|]. repeat split.
  intros H.
  specialize (H (mkInventoryRow 3 3 5 "2024-05-01T10:00:00")).
  cbn in H. assert (5 = 0) by (apply H; right; right; left; reflexivity).
  discriminate.
Qed.

(** C6 at the input where the code leaves it: add_variant with an
    inventory_quantity of 5 creates the one Inventory row of the new
    variant 3, holding 5, and the InventoryTransaction table is what it was:
    no ADJUSTMENT row records the 5 units. *)
Theorem add_variant_initial_stock_unrecorded :
  add_variant Shop.variant_with_stock Shop.conn
    = (Return 3, snd (add_variant Shop.variant_with_stock Shop.conn))
  /\ filter (fun r => inv_product_variant_id r =? 3)
        (rows (inventory (committed (snd (add_variant Shop.variant_with_stock Shop.conn)))))
     = [mkInventoryRow 3 3 5 "2024-05-01T10:00:00"]
  /\ inventory_transactions
       (committed (snd (add_variant Shop.variant_with_stock Shop.conn)))
     = inventory_transactions (committed Shop.conn)
  /\ filter (fun t => tx_product_variant_id t =? 3)
        (rows (inventory_transactions
                 (committed (snd (add_variant Shop.variant_with_stock Shop.conn)))))
     = [].
Proof. repeat split. Qed.

(** The add-variant dialog then calls adjust_inventory with the same
    stock: the row ends at twice the stock entered, with one ADJUSTMENT of
    the stock itself. *)
Example save_variant_doubles_stock :
  stock (committed (snd (save_variant 1 "S" "Rojo" 5 Shop.conn))) 3 = Some 10
  /\ ledger_sum (committed (snd (save_variant 1 "S" "Rojo" 5 Shop.conn))) 3 = 5.
Proof. split; reflexivity. Qed.

(** add_product, the other call that creates variants, starts every
    Inventory row at 0. *)
Example add_product_starts_at_zero :
  map inv_quantity
      (rows (inventory (committed (snd (add_product
         (Product.mk None "PNT001" "Jean" "Corte recto" 1 50 0 None None)
         [ProductVariant.init None 0 "30" "Azul";
          Shop.variant_with_stock] Shop.conn)))))
  = [3; 10; 0; 0].
Proof. reflexivity. Qed.

(** ** What only [commit] moves *)

Lemma holds_ret {A : Type} (a : A) : holds_committed (ret a).
Proof. intros c. reflexivity. Qed.

Lemma holds_raise {A : Type} (e : exn) : holds_committed (@raise A e).
Proof. intros c. reflexivity. Qed.

Lemma holds_query {A : Type} (q : DB -> A) : holds_committed (query q).
Proof. intros c. reflexivity. Qed.

Lemma holds_execute {A : Type} (s : statement A) : holds_committed (execute s).
Proof. intros c. unfold execute. destruct (s (working c)); reflexivity. Qed.

Lemma holds_timestamp : holds_committed get_current_timestamp.
Proof. intros c. reflexivity. Qed.

Lemma holds_bind {A B : Type} (m : M A) (k : A -> M B) :
  holds_committed m -> (forall a, holds_committed (k a)) ->
  holds_committed (bind m k).
Proof.
  intros Hm Hk c. unfold bind. specialize (Hm c).
  destruct (m c) as [[a|e] c1]; cbn in Hm.
  - rewrite (Hk a c1). exact Hm.
  - exact Hm.
Qed.

Lemma holds_for_each {A : Type} (l : list A) (body : A -> M unit) :
  (forall x, holds_committed (body x)) -> holds_committed (for_each l body).
Proof.
  intros Hbody. induction l as [|x l IH]; [apply holds_ret|].
  cbn [for_each]. apply holds_bind; [apply Hbody | intros _; exact IH].
Qed.

Lemma holds_check_item (item : SaleItem.t) : holds_committed (check_item item).
Proof. intros c. now rewrite check_item_reads_only. Qed.

Lemma holds_sell_item (sale_id : Z) (item : SaleItem.t) :
  holds_committed (sell_item sale_id item).
Proof.
  unfold sell_item.
  apply holds_bind; [apply holds_execute | intros _].
  apply holds_bind; [apply holds_query | intros [q|]; [|apply holds_raise]].
  apply holds_bind; [apply holds_timestamp | intros ts].
  apply holds_bind; [apply holds_execute | intros _].
  apply holds_bind; [apply holds_timestamp | intros ts'].
  apply holds_bind; [apply holds_execute | intros _; apply holds_ret].
Qed.

Lemma holds_return_item (sale_id : Z) (item : SaleItem.t) :
  holds_committed (return_item sale_id item).
Proof.
  unfold return_item.
  apply holds_bind; [apply holds_query | intros [q|]; [|apply holds_raise]].
  apply holds_bind; [apply holds_timestamp | intros ts].
  apply holds_bind; [apply holds_execute | intros _].
  apply holds_bind; [apply holds_timestamp | intros ts'].
  apply holds_bind; [apply holds_execute | intros _; apply holds_ret].
Qed.

Lemma raises_of_holds {A : Type} (m : M A) :
  holds_committed m -> raises_uncommitted m.
Proof. intros H c c1 e E. specialize (H c). now rewrite E in H. Qed.

Lemma raises_bind {A B : Type} (m : M A) (k : A -> M B) :
  holds_committed m -> (forall a, raises_uncommitted (k a)) ->
  raises_uncommitted (bind m k).
Proof.
  intros Hm Hk c c1 e. unfold bind. specialize (Hm c).
  destruct (m c) as [[a|e0] c0]; cbn in Hm; intros E.
  - rewrite (Hk a c0 c1 e E). exact Hm.
  - injection E as _ <-. exact Hm.
Qed.

Lemma raises_commit_ret {A : Type} (a : A) : raises_uncommitted (commit ;; ret a).
Proof. intros c c1 e. unfold bind, commit, ret. discriminate. Qed.

(** A controller body run under [except: rollback; raise]: it returns what
    the body returns, or raises with the committed database on both sides. *)
Lemma transaction_outcome {A : Type} (body : M A) (w : wrapper) (c : Conn) :
  (forall c1 e, body c = (Raise e, c1) -> committed c1 = committed c) ->
  (exists a c', body c = (Return a, c')
                /\ try_except body (fun e => rollback ;; raise (Wrapped w e)) c
                   = (Return a, c'))
  \/ (exists e c', try_except body (fun e => rollback ;; raise (Wrapped w e)) c
                   = (Raise e, c')
                   /\ committed c' = committed c /\ working c' = committed c).
Proof.
  intros Hbody. unfold try_except.
  destruct (body c) as [[a|e] c1] eqn:E.
  - left. exists a, c1. split; reflexivity.
  - right. eexists _, _. split; [reflexivity|]. cbn.
    rewrite (Hbody _ _ eq_refl). split; reflexivity.
Qed.

Lemma holds_get_sale (sale_id : Z) : holds_committed (get_sale sale_id).
Proof.
  intros c.
  destruct (get_sale_reads_only sale_id c)
    as [[_ H]|(_ & n & [(_ & sale & H & _)|(_ & H)])]; now rewrite H.
Qed.

(** ** One line sold, one line given back *)

(** One line sold: the Inventory rows it leaves. *)
Lemma sell_item_rows (sale_id : Z) (item : SaleItem.t) (c c' : Conn) :
  sell_item sale_id item c = (Return tt, c') ->
  exists q ts,
    stock (working c) (SaleItem.product_variant_id item) = Some q
    /\ rows (inventory (working c'))
       = map (restock (q - SaleItem.quantity item) ts (SaleItem.product_variant_id item))
             (rows (inventory (working c))).
Proof.
  unfold sell_item, bind, execute, query, get_current_timestamp, ret.
  cbn [SaleItem.product_variant_id SaleItem.set_sale_id SaleItem.quantity
       SaleItem.unit_price SaleItem.discount_percent SaleItem.subtotal].
  unfold INSERT_sale_item.
  destruct (is_nan (SaleItem.unit_price item) || is_nan (SaleItem.subtotal item));
    [discriminate|].
  destruct (sale_exists (working c) sale_id && variant_exists (working c) _);
    [|discriminate].
  cbn [working committed time_source time_reads].
  change (SELECT_inventory_quantity (SaleItem.product_variant_id item)
            (set_sale_items _ (working c)))
    with (stock (working c) (SaleItem.product_variant_id item)).
  destruct (stock (working c) (SaleItem.product_variant_id item)) as [q|];
    [|discriminate].
  unfold UPDATE_inventory, INSERT_inventory_transaction.
  cbn [working committed time_source time_reads].
  match goal with
  | |- context [variant_exists ?db ?v] => destruct (variant_exists db v); [|discriminate]
  end.
  cbn [working committed time_source time_reads].
  intros H. injection H as <-. eexists _, _. split; reflexivity.
Qed.

(** One line given back, when return_item returns. *)
Lemma return_item_return (sale_id : Z) (item : SaleItem.t) (c c' : Conn) :
  return_item sale_id item c = (Return tt, c') ->
  exists q ts tx,
    stock (working c) (SaleItem.product_variant_id item) = Some q
    /\ rows (inventory (working c'))
       = map (restock (q + SaleItem.quantity item) ts (SaleItem.product_variant_id item))
             (rows (inventory (working c)))
    /\ appended c c' [] [tx].
Proof.
  unfold return_item, bind, execute, query, get_current_timestamp, ret.
  change (SELECT_inventory_quantity (SaleItem.product_variant_id item) (working c))
    with (stock (working c) (SaleItem.product_variant_id item)).
  destruct (stock (working c) (SaleItem.product_variant_id item)) as [q|];
    [|discriminate].
  unfold UPDATE_inventory, INSERT_inventory_transaction.
  cbn [working committed time_source time_reads].
  match goal with
  | |- context [variant_exists ?db ?v] => destruct (variant_exists db v); [|discriminate]
  end.
  cbn [working committed time_source time_reads].
  intros H. injection H as <-. eexists _, _, _. split; [reflexivity|].
  split; [reflexivity|]. constructor; try reflexivity. cbn. now rewrite app_nil_r.
Qed.

Lemma return_item_transaction (sale_id : Z) (item : SaleItem.t) (c c' : Conn) :
  return_item sale_id item c = (Return tt, c') ->
  exists tx,
    appended c c' [] [tx]
    /\ tx_summary tx = return_summary sale_id item
    /\ variant_exists (working c) (SaleItem.product_variant_id item) = true.
Proof.
  intros H.
  destruct (return_item_return _ _ _ _ H) as (q & ts & tx & Hq & _ & _).
  destruct (variant_exists (working c) (SaleItem.product_variant_id item)) eqn:Hv.
  - destruct (return_item_run sale_id item c) as (c1 & tx1 & Hrun & Happ & Hsum & _);
      [congruence | exact Hv |].
    rewrite Hrun in H. injection H as <-. now exists tx1.
  - exfalso. revert H.
    unfold return_item, bind, execute, query, get_current_timestamp, ret.
    change (SELECT_inventory_quantity (SaleItem.product_variant_id item) (working c))
      with (stock (working c) (SaleItem.product_variant_id item)).
    rewrite Hq. unfold UPDATE_inventory, INSERT_inventory_transaction.
    cbn [working committed time_source time_reads].
    change (variant_exists (set_inventory _ (working c)) ?v)
      with (variant_exists (working c) v).
    rewrite Hv. discriminate.
Qed.

Lemma item_of_row_quantity (si : SaleItemRow) (info : string * string * string * string) :
  SaleItem.quantity (item_of_row (si, info)) = si_quantity si.
Proof.
  destruct info as [[[n co] sz] cl]. unfold item_of_row, SaleItem.init.
  destruct (0 <? si_subtotal si)%float; reflexivity.
Qed.

(** ** Properties kept on both sides of the connection *)

Section Keeps.
Variable P : DB -> Prop.

Lemma keeps_ret {A : Type} (a : A) : keeps P (ret a).
Proof. intros c Hc Hw. split; assumption. Qed.

Lemma keeps_raise {A : Type} (e : exn) : keeps P (@raise A e).
Proof. intros c Hc Hw. split; assumption. Qed.

Lemma keeps_query {A : Type} (q : DB -> A) : keeps P (query q).
Proof. intros c Hc Hw. split; assumption. Qed.

Lemma keeps_timestamp : keeps P get_current_timestamp.
Proof. intros c Hc Hw. split; assumption. Qed.

Lemma keeps_commit : keeps P commit.
Proof. intros c Hc Hw. split; assumption. Qed.

Lemma keeps_rollback : keeps P rollback.
Proof. intros c Hc Hw. split; assumption. Qed.

Lemma keeps_execute {A : Type} (s : statement A) :
  statement_keeps P s -> keeps P (execute s).
Proof.
  intros Hs c Hc Hw. unfold execute.
  destruct (s (working c)) as [a db|e] eqn:E; cbn.
  - split; [exact Hc | exact (Hs _ _ _ E Hw)].
  - split; exact Hc.
Qed.

Lemma keeps_bind {A B : Type} (m : M A) (k : A -> M B) :
  keeps P m -> (forall a, keeps P (k a)) -> keeps P (bind m k).
Proof.
  intros Hm Hk c Hc Hw. unfold bind. destruct (Hm c Hc Hw) as [Hc1 Hw1].
  destruct (m c) as [[a|e] c1]; cbn in *.
  - exact (Hk a c1 Hc1 Hw1).
  - split; assumption.
Qed.

Lemma keeps_try {A : Type} (m : M A) (h : exn -> M A) :
  keeps P m -> (forall e, keeps P (h e)) -> keeps P (try_except m h).
Proof.
  intros Hm Hh c Hc Hw. unfold try_except. destruct (Hm c Hc Hw) as [Hc1 Hw1].
  destruct (m c) as [[a|e] c1]; cbn in *.
  - split; assumption.
  - exact (Hh e c1 Hc1 Hw1).
Qed.

Lemma keeps_for_each {A : Type} (l : list A) (body : A -> M unit) :
  (forall x, keeps P (body x)) -> keeps P (for_each l body).
Proof.
  intros Hbody. induction l as [|x l IH]; [apply keeps_ret|].
  cbn [for_each]. apply keeps_bind; [apply Hbody | intros _; exact IH].
Qed.

Lemma keeps_collect {A B : Type} (l : list A) (body : A -> M B) :
  (forall x, keeps P (body x)) -> keeps P (collect l body).
Proof.
  intros Hbody. induction l as [|x l IH]; [apply keeps_ret|].
  cbn [collect]. apply keeps_bind; [apply Hbody | intros y].
  apply keeps_bind; [exact IH | intros ys; apply keeps_ret].
Qed.

Lemma keeps_read_item item_data : keeps P (read_item item_data).
Proof.
  unfold read_item. destruct (si_discount_percent _); [apply keeps_ret|].
  destruct (_ <? _)%float; [apply keeps_ret | apply keeps_raise].
Qed.

Lemma keeps_sale_new id customer_id sale_date payment_method total_amount :
  keeps P (Sale.new id customer_id sale_date payment_method total_amount).
Proof.
  unfold Sale.new, now_isoformat. apply keeps_bind; [|intros date; apply keeps_ret].
  destruct (String.eqb _ _); [apply keeps_timestamp | apply keeps_ret].
Qed.
End Keeps.

Section Transactions.
Variable P : DB -> Prop.

Lemma create_sale_keeps_if (sale : Sale.t) :
  statement_keeps P (INSERT_sale (Sale.customer_id sale) (Sale.sale_date sale)
                                 (Sale.payment_method sale) (Sale.total_amount sale)) ->
  (forall sale_id c c',
      Forall (in_stock (working c)) (Sale.items sale) -> P (working c) ->
      for_each (Sale.items sale) (sell_item sale_id) c = (Return tt, c') ->
      P (working c')) ->
  forall c, both P c -> both P (snd (create_sale sale c)).
Proof.
  intros Hinsert Hloop c [Hc Hw]. unfold create_sale.
  match goal with
  | |- context [try_except ?b _] => set (body := b)
  end.
  destruct (transaction_outcome body Error_creando_la_venta c)
    as [(a & c' & Hbody & Hrun)|(e & c' & Hrun & Hcom & Hwork)].
  - subst body. apply raises_bind; [apply holds_for_each, holds_check_item|].
    intros _. apply raises_bind; [apply holds_execute|].
    intros sid. apply raises_bind; [apply holds_for_each, holds_sell_item|].
    intros _. apply raises_commit_ret.
  - rewrite Hrun. cbn [snd]. subst body. unfold bind at 1 in Hbody.
    destruct (for_each (Sale.items sale) check_item c) as [[[]|e] c0] eqn:Hcheck;
      [|discriminate].
    apply check_all_return in Hcheck. destruct Hcheck as [-> Hstock].
    unfold bind at 1 in Hbody. unfold execute at 1 in Hbody.
    destruct (INSERT_sale _ _ _ _ (working c)) as [sid db1|e] eqn:Hsale; [|discriminate].
    unfold bind at 1 in Hbody.
    match type of Hbody with
    | context [for_each _ _ ?c1] => set (c1' := c1) in Hbody
    end.
    destruct (for_each (Sale.items sale) _ c1') as [[[]|e] c2] eqn:Hsell;
      [|discriminate].
    unfold bind, commit, ret in Hbody. injection Hbody as _ <-.
    assert (G : P (working c2)).
    { apply (Hloop sid c1' c2); [| |exact Hsell]; subst c1'; cbn [working].
      - unfold INSERT_sale in Hsale.
        destruct (is_nan (Sale.total_amount sale)); [discriminate|].
        destruct (match Sale.customer_id sale with
                  | Some c1 => customer_exists (working c) c1
                  | None => true
                  end); [|discriminate].
        injection Hsale as _ <-. exact Hstock.
      - exact (Hinsert _ _ _ Hsale Hw). }
    split; exact G.
  - rewrite Hrun. cbn [snd]. split; [now rewrite Hcom | now rewrite Hwork].
Qed.

Lemma cancel_sale_keeps_if (sale_id : Z) :
  (forall c c',
      P (working c) ->
      for_each (map item_of_row (SELECT_sale_items sale_id (working c)))
               (return_item sale_id) c = (Return tt, c') ->
      P (working c')) ->
  statement_keeps P (DELETE_sale_items sale_id) ->
  statement_keeps P (DELETE_sale sale_id) ->
  forall c, both P c -> both P (snd (cancel_sale sale_id c)).
Proof.
  intros Hloop Hitems Hsale c [Hc Hw]. unfold cancel_sale.
  match goal with
  | |- context [try_except ?b _] => set (body := b)
  end.
  destruct (transaction_outcome body Error_cancelling_sale c)
    as [(a & c' & Hbody & Hrun)|(e & c' & Hrun & Hcom & Hwork)].
  - subst body. apply raises_bind; [apply holds_get_sale|].
    intros [sale|]; [|apply raises_of_holds, holds_raise].
    apply raises_bind; [apply holds_for_each, holds_return_item|].
    intros _. apply raises_bind; [apply holds_execute|].
    intros _. apply raises_bind; [apply holds_execute|].
    intros _. apply raises_commit_ret.
  - rewrite Hrun. cbn [snd]. subst body. unfold bind at 1 in Hbody.
    destruct (get_sale_reads_only sale_id c)
      as [[_ Hget]|(_ & n & [(_ & sale & Hget & Hlines)|(_ & Hget)])];
      rewrite Hget in Hbody; [discriminate| |discriminate].
    unfold bind at 1 in Hbody.
    destruct (for_each (Sale.items sale) _ _) as [[[]|e] c2] eqn:Hret; [|discriminate].
    rewrite Hlines in Hret.
    pose proof (Hloop (mkConn (committed c) (working c) (time_source c) n) c2 Hw Hret)
      as G.
    unfold bind at 1 in Hbody. unfold execute at 1 in Hbody.
    destruct (DELETE_sale_items sale_id (working c2)) as [[] db3|e] eqn:E3; [|discriminate].
    unfold bind at 1 in Hbody. unfold execute at 1 in Hbody.
    cbn [working committed time_source time_reads] in Hbody.
    destruct (DELETE_sale sale_id db3) as [[] db4|e] eqn:E4; [|discriminate].
    unfold bind, commit, ret in Hbody. injection Hbody as _ <-. cbn [working committed].
    pose proof (Hsale _ _ _ E4 (Hitems _ _ _ E3 G)) as G4. split; exact G4.
  - rewrite Hrun. cbn [snd]. split; [now rewrite Hcom | now rewrite Hwork].
Qed.

Lemma adjust_inventory_keeps_if (v d : Z) (notes : option string) (c : Conn) :
  (forall n, 0 <= n ->
             both P c ->
             both P (snd (update_inventory v n InventoryTransaction.ADJUSTMENT None notes c))) ->
  both P c -> both P (snd (adjust_inventory v d notes c)).
Proof.
  intros Hupdate HI.
  unfold adjust_inventory, get_inventory, try_except, bind, query, raise, ret.
  destruct (SELECT_inventory v (working c)) as [r|]; cbn; [|exact HI].
  destruct (inv_quantity r + d <? 0) eqn:E; [exact HI|].
  apply Z.ltb_ge in E. pose proof (Hupdate _ E HI) as H.
  destruct (update_inventory v (inv_quantity r + d) InventoryTransaction.ADJUSTMENT
              None notes c) as [[b|e] c']; exact H.
Qed.

Lemma keeps_both {A : Type} (m : M A) (c : Conn) :
  keeps P m -> both P c -> both P (snd (m c)).
Proof. intros H [Hc Hw]. exact (H c Hc Hw). Qed.
End Transactions.

(** ** Stock that stays non-negative *)

Lemma restock_nonneg (db db' : DB) (q : Z) (ts : string) (v : Z) :
  0 <= q ->
  rows (inventory db') = map (restock q ts v) (rows (inventory db)) ->
  stock_nonneg db -> stock_nonneg db'.
Proof.
  unfold stock_nonneg. intros Hq -> H. rewrite Forall_map.
  eapply Forall_impl; [|exact H]. intros r Hr. unfold restock.
  destruct (_ =? _); [exact Hq | exact Hr].
Qed.

Lemma stock_nonneg_read (db : DB) (v q : Z) :
  stock_nonneg db -> stock db v = Some q -> 0 <= q.
Proof.
  unfold stock_nonneg, stock, SELECT_inventory_quantity, SELECT_inventory.
  intros H Hq. destruct (find _ _) as [r|] eqn:F; [|discriminate].
  injection Hq as <-. apply find_some in F. destruct F as [Hin _].
  rewrite Forall_forall in H. now apply H.
Qed.

Lemma good_same_tables (db db' : DB) :
  inventory db' = inventory db -> sale_items db' = sale_items db ->
  good db -> good db'.
Proof.
  intros Hi Hs [H1 H2]. split.
  - unfold stock_nonneg. now rewrite Hi.
  - unfold items_positive. now rewrite Hs.
Qed.

Lemma sell_items_good (sale_id : Z) (items : list SaleItem.t) :
  forall c c',
    NoDup (map SaleItem.product_variant_id items) ->
    Forall (fun item => 0 < SaleItem.quantity item) items ->
    Forall (in_stock (working c)) items ->
    good (working c) ->
    for_each items (sell_item sale_id) c = (Return tt, c') ->
    good (working c').
Proof.
  induction items as [|item items IH]; intros c c' Hnd Hpos Hin Hgood Hrun.
  - cbn in Hrun. now injection Hrun as <-.
  - cbn [for_each] in Hrun. unfold bind in Hrun.
    destruct (sell_item sale_id item c) as [[[]|e] c1] eqn:E1; [|discriminate].
    cbn [map] in Hnd. inversion Hnd as [|v vs Hnotin Hnd']; subst.
    inversion Hpos as [|x l Hq Hpos']; subst.
    inversion Hin as [|x l Hitem Hin']; subst.
    destruct (sell_item_rows _ _ _ _ E1) as (q & ts & Hstock & Hrows).
    destruct (sell_item_return _ _ _ _ E1) as (si & tx & Happ & Hsi & _ & _ & Hst).
    apply (IH c1 c'); try assumption.
    + rewrite Forall_forall in *. intros it Hit.
      destruct (Hin' it Hit) as (q' & Hq' & Hle). exists q'. split; [|exact Hle].
      rewrite Hst. destruct (_ =? _) eqn:Eq; [|exact Hq'].
      apply Z.eqb_eq in Eq. exfalso. apply Hnotin. rewrite <- Eq.
      now apply in_map.
    + destruct Hgood as [Hs Hi]. split.
      * eapply restock_nonneg; [|exact Hrows|exact Hs].
        destruct Hitem as (q' & Hq' & Hle). rewrite Hstock in Hq'.
        injection Hq' as <-. lia.
      * unfold items_positive. rewrite (app_sale_items Happ).
        apply Forall_app. split; [exact Hi|]. constructor; [|constructor].
        unfold si_summary, item_summary in Hsi. injection Hsi as _ _ Hqty _ _ _.
        now rewrite Hqty.
Qed.

Lemma return_items_good (sale_id : Z) (items : list SaleItem.t) :
  forall c c',
    Forall (fun item => 0 < SaleItem.quantity item) items ->
    good (working c) ->
    for_each items (return_item sale_id) c = (Return tt, c') ->
    good (working c').
Proof.
  induction items as [|item items IH]; intros c c' Hpos Hgood Hrun.
  - cbn in Hrun. now injection Hrun as <-.
  - cbn [for_each] in Hrun. unfold bind in Hrun.
    destruct (return_item sale_id item c) as [[[]|e] c1] eqn:E1; [|discriminate].
    inversion Hpos as [|x l Hq Hpos']; subst.
    destruct (return_item_return _ _ _ _ E1) as (q & ts & tx & Hstock & Hrows & Happ).
    apply (IH c1 c'); try assumption.
    destruct Hgood as [Hs Hi]. split.
    + eapply restock_nonneg; [|exact Hrows|exact Hs].
      pose proof (stock_nonneg_read _ _ _ Hs Hstock). lia.
    + unfold items_positive. rewrite (app_sale_items Happ), app_nil_r. exact Hi.
Qed.

Lemma select_sale_items_positive (sale_id : Z) (db : DB) :
  items_positive db ->
  Forall (fun item => 0 < SaleItem.quantity item)
         (map item_of_row (SELECT_sale_items sale_id db)).
Proof.
  intros H. rewrite Forall_forall. intros item Hin.
  apply in_map_iff in Hin. destruct Hin as ([si info] & <- & Hin).
  unfold SELECT_sale_items in Hin. apply in_flat_map in Hin.
  destruct Hin as (si' & Hsi' & Hin).
  destruct (_ =? _); [|contradiction].
  destruct (find _ _) as [pv|]; [|contradiction].
  destruct (find _ _) as [p|]; [|contradiction].
  destruct Hin as [Heq|[]]. injection Heq as <- <-.
  unfold items_positive in H. rewrite Forall_forall in H. specialize (H _ Hsi').
  rewrite item_of_row_quantity. exact H.
Qed.

Lemma update_inventory_good (v q : Z) (ty : string) (ref : option Z)
    (notes : option string) (c : Conn) :
  0 <= q -> both good c -> both good (snd (update_inventory v q ty ref notes c)).
Proof.
  intros Hq [Hc Hw].
  unfold update_inventory, get_inventory, try_except, bind, query, execute,
    get_current_timestamp, commit, rollback, raise, ret,
    UPDATE_inventory, INSERT_inventory_transaction.
  destruct (SELECT_inventory v (working c)) as [r|]; cbn.
  - match goal with
    | |- context [variant_exists ?db ?x] => destruct (variant_exists db x)
    end; cbn.
    + assert (G : forall t db,
                 rows (inventory db)
                 = map (restock q (time_source c (time_reads c)) v)
                       (rows (inventory (working c))) ->
                 sale_items db = sale_items (working c) ->
                 good (set_inventory_transactions t db)).
      { intros t db Hrows Hitems. destruct Hw as [Hs Hi]. split.
        - eapply restock_nonneg; [exact Hq | exact Hrows | exact Hs].
        - unfold items_positive. cbn. rewrite Hitems. exact Hi. }
      split; apply G; reflexivity.
    + split; exact Hc.
  - split; exact Hc.
Qed.

Lemma INSERT_sale_good customer_id sale_date payment_method total_amount :
  statement_keeps good (INSERT_sale customer_id sale_date payment_method total_amount).
Proof.
  intros db a db'. unfold INSERT_sale.
  destruct (is_nan total_amount); [discriminate|].
  destruct (match customer_id with Some c => customer_exists db c | None => true end);
    [|discriminate].
  intros H. injection H as _ <-. apply good_same_tables; reflexivity.
Qed.

Lemma good_fewer_items (db db' : DB) :
  inventory db' = inventory db ->
  (forall si, In si (rows (sale_items db')) -> In si (rows (sale_items db))) ->
  good db -> good db'.
Proof.
  intros Hinv Hsub [Hs Hi]. split.
  - unfold stock_nonneg. now rewrite Hinv.
  - unfold items_positive in *. rewrite Forall_forall in *.
    intros si Hin. now apply Hi, Hsub.
Qed.

Lemma DELETE_sale_items_good sale : statement_keeps good (DELETE_sale_items sale).
Proof.
  intros db a db' H. injection H as _ <-. apply good_fewer_items; [reflexivity|].
  intros si Hin. cbn in Hin. now apply filter_In in Hin.
Qed.

Lemma DELETE_sale_good id : statement_keeps good (DELETE_sale id).
Proof.
  intros db a db'. unfold DELETE_sale.
  destruct (sale_exists db id); intros H; injection H as _ <-; [|trivial].
  apply good_fewer_items; [reflexivity|].
  intros si Hin. cbn in Hin. now apply filter_In in Hin.
Qed.

Lemma perform_good (k : call) (c : Conn) :
  within_guards k -> both good c -> both good (perform k c).
Proof.
  destruct k as [v q ty ref notes|v d notes|sale|s]; cbn [perform within_guards];
    intros Hguard HI.
  - now apply update_inventory_good.
  - apply adjust_inventory_keeps_if; [|exact HI].
    intros n Hn. now apply update_inventory_good.
  - destruct Hguard as [Hnd Hpos].
    apply create_sale_keeps_if; [apply INSERT_sale_good | | exact HI].
    intros sid c1 c2 Hstock Hgood. now apply sell_items_good.
  - apply cancel_sale_keeps_if;
      [ | apply DELETE_sale_items_good | apply DELETE_sale_good | exact HI].
    intros c1 c2 Hgood. apply return_items_good; [|exact Hgood].
    apply select_sale_items_positive, Hgood.
Qed.

Lemma perform_all_good (calls : list call) :
  forall c, Forall within_guards calls -> both good c -> both good (perform_all calls c).
Proof.
  induction calls as [|k calls IH]; intros c Hg HI; [exact HI|].
  inversion Hg as [|x l Hk Hrest]; subst. cbn [perform_all fold_left].
  apply IH; [exact Hrest | now apply perform_good].
Qed.

(** C4, as the code has it.  From a state whose Inventory quantities are
    not negative and whose sale items have positive quantities, every
    sequence of adjust_inventory, create_sale and cancel_sale calls and of
    update_inventory calls with a new_quantity that is not negative, the
    sales having line items of positive quantity on pairwise distinct
    variants, commits only Inventory quantities that are not negative.
    update_inventory itself puts no bound on new_quantity. *)
Theorem guarded_calls_keep_stock_nonneg :
  forall (calls : list call) (c : Conn),
    Forall within_guards calls ->
    stock_nonneg (committed c) -> stock_nonneg (working c) ->
    items_positive (committed c) -> items_positive (working c) ->
    stock_nonneg (committed (perform_all calls c)).
Proof.
  intros calls c Hg Hsc Hsw Hic Hiw.
  apply (perform_all_good calls c Hg). split; split; assumption.
Qed.

Lemma guarded_calls_keep_stock_nonneg_witness :
  stock_nonneg
    (committed
       (perform_all
          [Create_sale Shop.sale_a;
           Adjust_inventory 1 (-2) None;
           Update_inventory 2 0 InventoryTransaction.ADJUSTMENT None None;
           Cancel_sale 1]
          Shop.conn)).
Proof.
  apply guarded_calls_keep_stock_nonneg.
  - repeat constructor; cbn; try lia.
  - repeat constructor; cbn; lia.
  - repeat constructor; cbn; lia.
  - constructor.
  - constructor.
Defined.

(** C4 as stated fails: update_inventory with a new_quantity of -5 returns
    True and commits -5 for variant 1. *)
Lemma update_inventory_commits_negative :
  stock_nonneg (committed Shop.conn)
  /\ update_inventory 1 (-5) InventoryTransaction.ADJUSTMENT None None Shop.conn
       = (Return true,
          snd (update_inventory 1 (-5) InventoryTransaction.ADJUSTMENT None None Shop.conn))
  /\ stock (committed (snd (update_inventory 1 (-5) InventoryTransaction.ADJUSTMENT
                             None None Shop.conn))) 1 = Some (-5)
  /\ ~ stock_nonneg (committed (snd (update_inventory 1 (-5)
                                       InventoryTransaction.ADJUSTMENT None None
                                       Shop.conn))).
Proof.
  split; [repeat constructor; cbn; lia|]. repeat split.
  intros H. inversion H as [|r l Hr _]; subst. cbn in Hr. lia.
Qed.

(** Two lines on one variant are each checked against the stock the sale
    starts from: 2 and 2 pass against 3, and the sale commits -1. *)
Example create_sale_twice_same_variant :
  create_sale Shop.sale_twice Shop.conn
    = (Return 1, snd (create_sale Shop.sale_twice Shop.conn))
  /\ stock (committed (snd (create_sale Shop.sale_twice Shop.conn))) 1 = Some (-1).
Proof. split; vm_compute; reflexivity. Qed.

(** ** The foreign keys stay in place *)

Lemma has_id_filter_other {R : Type} (key : R -> Z) (l : list R) (k k' : Z) :
  k <> k' ->
  has_id key (filter (fun r => negb (key r =? k')) l) k = has_id key l k.
Proof.
  intros Hne. unfold has_id. induction l as [|r l IH]; [reflexivity|].
  cbn [filter]. destruct (key r =? k') eqn:E; cbn [negb existsb].
  - rewrite IH. apply Z.eqb_eq in E.
    destruct (key r =? k) eqn:E2; [|reflexivity].
    apply Z.eqb_eq in E2. congruence.
  - now rewrite IH.
Qed.

Lemma has_id_map {R : Type} (key : R -> Z) (f : R -> R) (l : list R) (k : Z) :
  (forall r, key (f r) = key r) -> has_id key (map f l) k = has_id key l k.
Proof.
  intros Hf. unfold has_id. induction l as [|r l IH]; [reflexivity|].
  cbn. now rewrite Hf, IH.
Qed.

Lemma has_id_app_l {R : Type} (key : R -> Z) (l l' : list R) (k : Z) :
  has_id key l k = true -> has_id key (l ++ l') k = true.
Proof. intros H. now rewrite has_id_app, H. Qed.

(** [references_ok] looks at four tables only. *)
Lemma references_ok_same (db db' : DB) :
  products db' = products db -> product_variants db' = product_variants db ->
  sales db' = sales db -> sale_items db' = sale_items db ->
  references_ok db -> references_ok db'.
Proof.
  intros Hp Hv Hs Hi [H1 H2]. unfold references_ok, product_exists, sale_exists.
  rewrite Hp, Hv, Hs, Hi. split; assumption.
Qed.

Lemma INSERT_sale_references customer_id sale_date payment_method total_amount :
  statement_keeps references_ok
    (INSERT_sale customer_id sale_date payment_method total_amount).
Proof.
  intros db a db'. unfold INSERT_sale.
  destruct (is_nan total_amount); [discriminate|].
  destruct (match customer_id with Some c => customer_exists db c | None => true end);
    [|discriminate].
  intros H [H1 H2]. injection H as _ <-. split; [exact H1|].
  intros si Hin. unfold sale_exists. cbn -[has_id]. apply has_id_app_l. now apply H2.
Qed.

Lemma INSERT_sale_item_references sale variant quantity unit_price discount_percent subtotal :
  statement_keeps references_ok
    (INSERT_sale_item sale variant quantity unit_price discount_percent subtotal).
Proof.
  intros db a db'. unfold INSERT_sale_item.
  destruct (is_nan unit_price || is_nan subtotal); [discriminate|].
  destruct (sale_exists db sale && variant_exists db variant) eqn:E; [|discriminate].
  apply andb_prop in E. destruct E as [Es _].
  intros H [H1 H2]. injection H as _ <-. split; [exact H1|].
  intros si Hin. cbn in Hin. apply in_app_or in Hin.
  destruct Hin as [Hin|[<-|[]]]; [now apply H2 | exact Es].
Qed.

Lemma UPDATE_inventory_references quantity last_updated v :
  statement_keeps references_ok (UPDATE_inventory quantity last_updated v).
Proof.
  intros db a db' H. injection H as _ <-.
  apply references_ok_same; reflexivity.
Qed.

Lemma INSERT_inventory_transaction_references v change ty ref date notes :
  statement_keeps references_ok
    (INSERT_inventory_transaction v change ty ref date notes).
Proof.
  intros db a db'. unfold INSERT_inventory_transaction.
  destruct (variant_exists db v); [|discriminate].
  intros H. injection H as _ <-. apply references_ok_same; reflexivity.
Qed.

Lemma DELETE_sale_items_references sale :
  statement_keeps references_ok (DELETE_sale_items sale).
Proof.
  intros db a db' H [H1 H2]. injection H as _ <-. split; [exact H1|].
  intros si Hin. cbn in Hin. apply filter_In in Hin. now apply H2.
Qed.

Lemma DELETE_sale_references id : statement_keeps references_ok (DELETE_sale id).
Proof.
  intros db a db'. unfold DELETE_sale.
  destruct (sale_exists db id); intros H HR; injection H as _ <-; [|exact HR].
  destruct HR as [H1 H2]. split; [exact H1|].
  intros si Hin. cbn in Hin. apply filter_In in Hin. destruct Hin as [Hin Hne].
  unfold sale_exists. cbn -[has_id]. rewrite has_id_filter_other; [now apply H2|].
  apply negb_true_iff, Z.eqb_neq in Hne. exact Hne.
Qed.

Lemma INSERT_product_references code name description category_id price discount_percent
    discount_start_date discount_end_date created_at updated_at :
  statement_keeps references_ok
    (INSERT_product code name description category_id price discount_percent
                    discount_start_date discount_end_date created_at updated_at).
Proof.
  intros db a db'. unfold INSERT_product.
  destruct (is_nan price); [discriminate|].
  destruct (existsb _ _); [discriminate|].
  destruct (category_exists db category_id); [|discriminate].
  intros H [H1 H2]. injection H as _ <-. split; [|exact H2].
  intros pv Hin. unfold product_exists. cbn -[has_id]. apply has_id_app_l. now apply H1.
Qed.

Lemma INSERT_variant_references product_id size color :
  statement_keeps references_ok (INSERT_variant product_id size color).
Proof.
  intros db a db'. unfold INSERT_variant.
  destruct (SELECT_variant_id product_id size color db); [discriminate|].
  destruct (product_exists db product_id) eqn:E; [|discriminate].
  intros H [H1 H2]. injection H as _ <-. split; [|exact H2].
  intros pv Hin. cbn in Hin. apply in_app_or in Hin.
  destruct Hin as [Hin|[<-|[]]]; [now apply H1 | exact E].
Qed.

Lemma INSERT_inventory_references v quantity last_updated :
  statement_keeps references_ok (INSERT_inventory v quantity last_updated).
Proof.
  intros db a db'. unfold INSERT_inventory.
  destruct (variant_exists db v); [|discriminate].
  intros H. injection H as _ <-. apply references_ok_same; reflexivity.
Qed.

Lemma DELETE_inventory_references v : statement_keeps references_ok (DELETE_inventory v).
Proof.
  intros db a db' H. injection H as _ <-. apply references_ok_same; reflexivity.
Qed.

Lemma DELETE_variant_references v : statement_keeps references_ok (DELETE_variant v).
Proof.
  intros db a db'. unfold DELETE_variant.
  destruct (variant_exists db v); [|intros H HR; injection H as _ <-; exact HR].
  destruct (_ || _); [discriminate|].
  intros H [H1 H2]. injection H as _ <-. split; [|exact H2].
  intros pv Hin. cbn in Hin. apply filter_In in Hin. now apply H1.
Qed.

Lemma clear_customer_id (c : Z) (s : SaleRow) : sales_id (clear_customer c s) = sales_id s.
Proof.
  unfold clear_customer. destruct (sales_customer_id s) as [c'|]; [|reflexivity].
  destruct (c' =? c); reflexivity.
Qed.

Lemma UPDATE_sales_clear_customer_references c :
  statement_keeps references_ok (UPDATE_sales_clear_customer c).
Proof.
  intros db a db' H [H1 H2]. injection H as _ <-. split; [exact H1|].
  intros si Hin. unfold sale_exists. cbn -[has_id].
  rewrite has_id_map by apply clear_customer_id. now apply H2.
Qed.

Lemma DELETE_customer_references c : statement_keeps references_ok (DELETE_customer c).
Proof.
  intros db a db' H [H1 H2]. injection H as _ <-. split; [exact H1|].
  intros si Hin. unfold sale_exists. cbn -[has_id].
  destruct (customer_exists db c); [|now apply H2].
  rewrite has_id_map by apply clear_customer_id. now apply H2.
Qed.

Create HintDb keeps_db.

#[local] Hint Resolve keeps_ret keeps_raise keeps_query keeps_timestamp keeps_commit
  keeps_rollback keeps_read_item keeps_sale_new INSERT_sale_references INSERT_sale_item_references UPDATE_inventory_references
  INSERT_inventory_transaction_references DELETE_sale_items_references DELETE_sale_references
  INSERT_product_references INSERT_variant_references INSERT_inventory_references
  DELETE_inventory_references DELETE_variant_references UPDATE_sales_clear_customer_references
  DELETE_customer_references : keeps_db.

Ltac keeps_step :=
  first
    [ apply keeps_bind; [|intros ?]
    | apply keeps_try; [|intros ?]
    | apply keeps_for_each; intros ?
    | apply keeps_collect; intros ?
    | apply keeps_execute; solve [auto with keeps_db]
    | solve [auto with keeps_db]
    | match goal with
      | |- keeps _ (match ?x with _ => _ end) => destruct x
      | |- keeps _ (let _ := _ in _) => cbv zeta
      end ].

Lemma get_inventory_references v : keeps references_ok (get_inventory v).
Proof. unfold get_inventory. repeat keeps_step. Qed.

Lemma update_inventory_references v q ty ref notes :
  keeps references_ok (update_inventory v q ty ref notes).
Proof.
  unfold update_inventory. repeat keeps_step.
Qed.

Lemma adjust_inventory_references v d notes :
  keeps references_ok (adjust_inventory v d notes).
Proof.
  unfold adjust_inventory. repeat keeps_step.
Qed.

Lemma create_sale_references sale : keeps references_ok (create_sale sale).
Proof. unfold create_sale, check_item, sell_item. repeat keeps_step. Qed.

Lemma get_sale_references sale_id : keeps references_ok (get_sale sale_id).
Proof. unfold get_sale. repeat keeps_step. Qed.

Lemma cancel_sale_references sale_id : keeps references_ok (cancel_sale sale_id).
Proof.
  unfold cancel_sale, return_item. repeat keeps_step.
Qed.

Lemma add_product_references product variants :
  keeps references_ok (add_product product variants).
Proof. unfold add_product. repeat keeps_step. Qed.

Lemma add_variant_references variant : keeps references_ok (add_variant variant).
Proof. unfold add_variant. repeat keeps_step. Qed.

Lemma delete_variant_references variant_id :
  keeps references_ok (delete_variant variant_id).
Proof. unfold delete_variant. repeat keeps_step. Qed.

Lemma delete_customer_references customer_id :
  keeps references_ok (delete_customer customer_id).
Proof. unfold delete_customer. repeat keeps_step. Qed.

Lemma empty_db_references_ok : references_ok empty_db.
Proof. split; intros x []. Qed.

(** Whatever the controllers are called with, in whatever order, the
    foreign keys that [references_ok] names hold on both sides of the
    connection: they hold in every state reached from the empty database. *)
Lemma operations_keep_references (ops : list operation) :
  forall c,
    references_ok (committed c) -> references_ok (working c) ->
    references_ok (committed (run_all ops c)) /\ references_ok (working (run_all ops c)).
Proof.
  induction ops as [|op ops IH]; intros c Hc Hw; [split; assumption|].
  cbn [run_all fold_left].
  assert (H : references_ok (committed (run op c)) /\ references_ok (working (run op c))).
  { destruct op as [[v q ty ref notes|v d notes|sale|s]|p vs|v|v|cu]; cbn [run perform].
    - now apply update_inventory_references.
    - now apply adjust_inventory_references.
    - now apply create_sale_references.
    - now apply cancel_sale_references.
    - now apply add_product_references.
    - now apply add_variant_references.
    - now apply delete_variant_references.
    - now apply delete_customer_references. }
  destruct H as [H1 H2]. now apply IH.
Qed.

(** ** The ledger *)

Lemma ledger_of_app (v : Z) (l l' : list TransactionRow) :
  ledger_of v (l ++ l') = ledger_of v l + ledger_of v l'.
Proof.
  unfold ledger_of. rewrite filter_app, map_app.
  induction (map tx_quantity_change (filter _ l)) as [|x xs IH]; cbn; [reflexivity|].
  rewrite IH. lia.
Qed.

Lemma ledger_sum_appended (db db' : DB) (v : Z) (new : list TransactionRow) :
  rows (inventory_transactions db') = rows (inventory_transactions db) ++ new ->
  ledger_sum db' v = ledger_sum db v + ledger_of v new.
Proof.
  intros H. unfold ledger_sum. rewrite H. apply ledger_of_app.
Qed.

Lemma ledger_invariant_read (db : DB) (v q : Z) :
  ledger_invariant db -> stock db v = Some q -> q = ledger_sum db v.
Proof.
  unfold stock, SELECT_inventory_quantity, SELECT_inventory. intros H Hq.
  destruct (find _ _) as [r|] eqn:F; [|discriminate]. injection Hq as <-.
  apply find_some_key in F. destruct F as [Hin <-]. now apply H.
Qed.

(** A stock change written together with the transaction that accounts
    for it keeps the ledger. *)
Lemma ledger_step (db db' : DB) (v q n : Z) (ts : string) (t : TransactionRow) :
  ledger_ok db ->
  stock db v = Some q ->
  variant_exists db v = true ->
  rows (inventory db') = map (restock n ts v) (rows (inventory db)) ->
  rows (inventory_transactions db') = rows (inventory_transactions db) ++ [t] ->
  tx_product_variant_id t = v ->
  tx_quantity_change t = n - q ->
  product_variants db' = product_variants db ->
  ledger_ok db'.
Proof.
  intros [Hl Ht] Hq Hv Hinv Htx Htv Htc Hpv. split.
  - intros r' Hin. rewrite Hinv in Hin. apply in_map_iff in Hin.
    destruct Hin as (r & <- & Hin).
    rewrite restock_key, (ledger_sum_appended db db' _ [t] Htx).
    unfold ledger_of. cbn [filter]. rewrite Htv. unfold restock.
    destruct (inv_product_variant_id r =? v) eqn:E.
    + apply Z.eqb_eq in E. rewrite E, Z.eqb_refl. cbn. rewrite Htc.
      rewrite <- (ledger_invariant_read db v q Hl Hq). lia.
    + rewrite Z.eqb_sym, E. cbn. rewrite (Hl r Hin). lia.
  - intros t' Hin. rewrite Htx in Hin. unfold variant_exists. rewrite Hpv.
    apply in_app_or in Hin. destruct Hin as [Hin|[<-|[]]].
    + now apply Ht.
    + now rewrite Htv.
Qed.

(** [ledger_ok] looks at three tables only. *)
Lemma ledger_ok_same (db db' : DB) :
  inventory db' = inventory db ->
  inventory_transactions db' = inventory_transactions db ->
  product_variants db' = product_variants db ->
  ledger_ok db -> ledger_ok db'.
Proof.
  intros Hi Ht Hv [H1 H2]. split.
  - intros r Hin. rewrite Hi in Hin. unfold ledger_sum. rewrite Ht. now apply H1.
  - intros t Hin. rewrite Ht in Hin. unfold variant_exists. rewrite Hv. now apply H2.
Qed.

Lemma sell_items_ledger (sale_id : Z) (items : list SaleItem.t) :
  forall c c',
    ledger_ok (working c) ->
    for_each items (sell_item sale_id) c = (Return tt, c') ->
    ledger_ok (working c').
Proof.
  induction items as [|item items IH]; intros c c' Hok Hrun.
  - cbn in Hrun. now injection Hrun as <-.
  - cbn [for_each] in Hrun. unfold bind in Hrun.
    destruct (sell_item sale_id item c) as [[[]|e] c1] eqn:E1; [|discriminate].
    destruct (sell_item_rows _ _ _ _ E1) as (q & ts & Hstock & Hrows).
    destruct (sell_item_return _ _ _ _ E1) as (si & tx & Happ & _ & Htx & Hv & _).
    apply (IH c1 c'); [|exact Hrun].
    unfold tx_summary, sale_summary in Htx. injection Htx as Htv Htc _ _.
    eapply ledger_step; [exact Hok | exact Hstock | exact Hv | exact Hrows
                        | exact (app_transactions Happ) | exact Htv | | exact (app_variants Happ)].
    rewrite Htc. lia.
Qed.

Lemma return_items_ledger (sale_id : Z) (items : list SaleItem.t) :
  forall c c',
    ledger_ok (working c) ->
    for_each items (return_item sale_id) c = (Return tt, c') ->
    ledger_ok (working c').
Proof.
  induction items as [|item items IH]; intros c c' Hok Hrun.
  - cbn in Hrun. now injection Hrun as <-.
  - cbn [for_each] in Hrun. unfold bind in Hrun.
    destruct (return_item sale_id item c) as [[[]|e] c1] eqn:E1; [|discriminate].
    destruct (return_item_return _ _ _ _ E1) as (q & ts & tx0 & Hstock & Hrows & _).
    destruct (return_item_transaction _ _ _ _ E1) as (tx & Happ & Htx & Hv).
    apply (IH c1 c'); [|exact Hrun].
    unfold tx_summary, return_summary in Htx. injection Htx as Htv Htc _ _.
    eapply ledger_step; [exact Hok | exact Hstock | exact Hv | exact Hrows
                        | exact (app_transactions Happ) | exact Htv | | exact (app_variants Happ)].
    rewrite Htc. lia.
Qed.

Lemma update_inventory_ledger (v n : Z) (ty : string) (ref : option Z)
    (notes : option string) (c : Conn) :
  both ledger_ok c -> both ledger_ok (snd (update_inventory v n ty ref notes c)).
Proof.
  intros [Hc Hw].
  unfold update_inventory, get_inventory, try_except, bind, query, execute,
    get_current_timestamp, commit, rollback, raise, ret,
    UPDATE_inventory, INSERT_inventory_transaction.
  destruct (SELECT_inventory v (working c)) as [r|] eqn:Hr; cbn;
    [|split; exact Hc].
  change (variant_exists (set_inventory _ (working c)) v)
    with (variant_exists (working c) v).
  destruct (variant_exists (working c) v) eqn:Hv; cbn; [|split; exact Hc].
  match goal with
  | |- both _ {| committed := ?db |} => assert (G : ledger_ok db)
  end.
  { eapply (ledger_step (working c) _ v (inv_quantity r) n); try reflexivity.
    - exact Hw.
    - unfold stock, SELECT_inventory_quantity. now rewrite Hr.
    - exact Hv. }
  split; exact G.
Qed.

Lemma INSERT_sale_ledger customer_id sale_date payment_method total_amount :
  statement_keeps ledger_ok
    (INSERT_sale customer_id sale_date payment_method total_amount).
Proof.
  intros db a db'. unfold INSERT_sale.
  destruct (is_nan total_amount); [discriminate|].
  destruct (match customer_id with Some c => customer_exists db c | None => true end);
    [|discriminate].
  intros H. injection H as _ <-. apply ledger_ok_same; reflexivity.
Qed.

Lemma DELETE_sale_items_ledger sale : statement_keeps ledger_ok (DELETE_sale_items sale).
Proof.
  intros db a db' H. injection H as _ <-. apply ledger_ok_same; reflexivity.
Qed.

Lemma DELETE_sale_ledger id : statement_keeps ledger_ok (DELETE_sale id).
Proof.
  intros db a db'. unfold DELETE_sale.
  destruct (sale_exists db id); intros H; injection H as _ <-; [|trivial].
  apply ledger_ok_same; reflexivity.
Qed.

Lemma UPDATE_sales_clear_customer_ledger c :
  statement_keeps ledger_ok (UPDATE_sales_clear_customer c).
Proof.
  intros db a db' H. injection H as _ <-. apply ledger_ok_same; reflexivity.
Qed.

Lemma DELETE_customer_ledger c : statement_keeps ledger_ok (DELETE_customer c).
Proof.
  intros db a db' H. injection H as _ <-. apply ledger_ok_same; reflexivity.
Qed.

Lemma DELETE_inventory_ledger v : statement_keeps ledger_ok (DELETE_inventory v).
Proof.
  intros db a db' H [H1 H2]. injection H as _ <-. split.
  - intros r Hin. cbn in Hin. apply filter_In in Hin. now apply H1.
  - exact H2.
Qed.

Lemma DELETE_variant_ledger v : statement_keeps ledger_ok (DELETE_variant v).
Proof.
  intros db a db'. unfold DELETE_variant.
  destruct (variant_exists db v); [|intros H HR; injection H as _ <-; exact HR].
  destruct (existsb _ (rows (sale_items db))); [discriminate|].
  destruct (existsb _ (rows (inventory_transactions db))) eqn:E; [discriminate|].
  cbn [orb]. intros H [H1 H2]. injection H as _ <-. split.
  - intros r Hin. cbn in Hin. apply filter_In in Hin. now apply H1.
  - intros t Hin. cbn in Hin. unfold variant_exists. cbn -[has_id].
    rewrite has_id_filter_other; [now apply H2|].
    intros Heq.
    assert (Hc : existsb (fun t0 => tx_product_variant_id t0 =? v)
                         (rows (inventory_transactions db)) = true).
    { apply existsb_exists. exists t. split; [exact Hin|]. now apply Z.eqb_eq. }
    congruence.
Qed.

(** A variant that does not exist has no transaction. *)
Lemma ledger_sum_unknown_variant (db : DB) (v : Z) :
  transactions_ok db -> variant_exists db v = false -> ledger_sum db v = 0.
Proof.
  intros Ht Hv. unfold ledger_sum. rewrite filter_none; [reflexivity|].
  intros t Hin. apply Z.eqb_neq. intros Heq.
  specialize (Ht t Hin). congruence.
Qed.

(** A new variant with an Inventory row of 0. *)
Lemma new_variant_ledger (db : DB) (product_id : Z) (size color current_time : string)
    (variant_id : Z) (db1 db2 : DB) (a : Z) :
  INSERT_variant product_id size color db = SqlOk variant_id db1 ->
  INSERT_inventory variant_id 0 current_time db1 = SqlOk a db2 ->
  ledger_ok db -> ledger_ok db2.
Proof.
  unfold INSERT_variant, INSERT_inventory.
  destruct (SELECT_variant_id product_id size color db); [discriminate|].
  destruct (product_exists db product_id); [|discriminate].
  intros H1. injection H1 as <- <-.
  match goal with
  | |- context [variant_exists ?d ?x] => destruct (variant_exists d x); [|discriminate]
  end.
  intros H2 [Hl Ht]. injection H2 as _ <-. split.
  - intros r Hin. cbn in Hin. apply in_app_or in Hin.
    change (ledger_sum (set_inventory _ (set_product_variants _ db)) ?x)
      with (ledger_sum db x).
    destruct Hin as [Hin|[<-|[]]]; [now apply Hl|]. cbn [inv_quantity inv_product_variant_id].
    symmetry. apply ledger_sum_unknown_variant; [exact Ht|].
    apply has_id_next_rowid.
  - intros t Hin. cbn in Hin. unfold variant_exists. cbn -[has_id].
    apply has_id_app_l. now apply Ht.
Qed.

Lemma add_variant_ledger (variant : ProductVariant.t) (c : Conn) :
  ProductVariant.inventory_quantity variant = 0 ->
  both ledger_ok c -> both ledger_ok (snd (add_variant variant c)).
Proof.
  intros Hzero [Hc Hw].
  unfold add_variant, try_except, bind, get_current_timestamp, query, execute,
    commit, rollback, raise, ret.
  cbn [working committed time_source time_reads].
  destruct (SELECT_variant_id _ _ _ (working c)) eqn:Hnew; cbn; [split; exact Hc|].
  destruct (INSERT_variant _ _ _ (working c)) as [vid db1|e] eqn:E1; cbn;
    [|split; exact Hc].
  rewrite Hzero.
  destruct (INSERT_inventory vid 0 _ db1) as [a db2|e] eqn:E2; cbn; [|split; exact Hc].
  pose proof (new_variant_ledger _ _ _ _ _ _ _ _ _ E1 E2 Hw) as G.
  split; exact G.
Qed.

Lemma add_product_ledger (product : Product.t) (variants : list ProductVariant.t)
    (c : Conn) :
  both ledger_ok c -> both ledger_ok (snd (add_product product variants c)).
Proof.
  intros [Hc Hw]. unfold add_product.
  match goal with
  | |- context [try_except ?b _] => set (body := b)
  end.
  destruct (transaction_outcome body Error_adding_product c)
    as [(a & c' & Hbody & Hrun)|(e & c' & Hrun & Hcom & Hwork)].
  - subst body. apply raises_bind; [apply holds_timestamp|].
    intros ts. apply raises_bind; [apply holds_execute|].
    intros pid. apply raises_bind.
    + apply holds_for_each. intros variant.
      apply holds_bind; [apply holds_execute | intros vid].
      apply holds_bind; [apply holds_execute | intros _; apply holds_ret].
    + intros _. apply raises_commit_ret.
  - rewrite Hrun. cbn [snd]. subst body.
    unfold bind at 1 in Hbody. unfold get_current_timestamp at 1 in Hbody.
    unfold bind at 1 in Hbody. unfold execute at 1 in Hbody.
    cbn [working committed time_source time_reads] in Hbody.
    destruct (INSERT_product _ _ _ _ _ _ _ _ _ _ (working c)) as [pid db1|e] eqn:E1;
      [|discriminate].
    unfold bind at 1 in Hbody.
    match type of Hbody with
    | context [for_each variants ?b ?c1] => set (step := b) in Hbody; set (c1' := c1) in Hbody
    end.
    destruct (for_each variants step c1') as [[[]|e] c2] eqn:Hloop; [|discriminate].
    unfold bind, commit, ret in Hbody. injection Hbody as _ <-.
    assert (G1 : ledger_ok (working c1')).
    { subst c1'. cbn [working]. revert E1. unfold INSERT_product.
      destruct (is_nan _); [discriminate|].
      destruct (existsb _ _); [discriminate|].
      destruct (category_exists _ _); [|discriminate].
      intros H. injection H as _ <-. eapply ledger_ok_same; [| | |exact Hw]; reflexivity. }
    assert (G : ledger_ok (working c2)).
    { clear E1 Hrun. revert Hloop G1. generalize c1'. clear c1'.
      induction variants as [|variant variants IH]; intros c1 Hloop G1.
      - cbn in Hloop. now injection Hloop as <-.
      - cbn [for_each] in Hloop. unfold bind at 1 in Hloop.
        destruct (step variant c1) as [[[]|e] c3] eqn:E3; [|discriminate].
        apply (IH c3 Hloop). revert E3. subst step. cbv beta.
        unfold bind, execute, ret.
        destruct (INSERT_variant _ _ _ (working c1)) as [vid dba|e] eqn:Ea;
          [|discriminate].
        cbn [working committed time_source time_reads].
        destruct (INSERT_inventory vid 0 _ dba) as [x dbb|e] eqn:Eb; [|discriminate].
        intros H. injection H as <-. cbn [working].
        exact (new_variant_ledger _ _ _ _ _ _ _ _ _ Ea Eb G1). }
    split; exact G.
  - rewrite Hrun. cbn [snd]. split; [now rewrite Hcom | now rewrite Hwork].
Qed.

Create HintDb ledger_db.

#[local] Hint Resolve keeps_ret keeps_raise keeps_query keeps_timestamp keeps_commit
  keeps_rollback DELETE_inventory_ledger DELETE_variant_ledger
  UPDATE_sales_clear_customer_ledger DELETE_customer_ledger : ledger_db.

Ltac ledger_step_tac :=
  first
    [ apply keeps_bind; [|intros ?]
    | apply keeps_try; [|intros ?]
    | apply keeps_execute; solve [auto with ledger_db]
    | solve [auto with ledger_db]
    | match goal with
      | |- keeps _ (match ?x with _ => _ end) => destruct x
      end ].

Lemma delete_variant_ledger variant_id : keeps ledger_ok (delete_variant variant_id).
Proof. unfold delete_variant. repeat ledger_step_tac. Qed.

Lemma delete_customer_ledger customer_id : keeps ledger_ok (delete_customer customer_id).
Proof. unfold delete_customer. repeat ledger_step_tac. Qed.

Lemma run_ledger (op : operation) (c : Conn) :
  records_stock op -> both ledger_ok c -> both ledger_ok (run op c).
Proof.
  destruct op as [[v q ty ref notes|v d notes|sale|s]|p vs|v|v|cu];
    cbn [run perform records_stock]; intros Hrec HI.
  - now apply update_inventory_ledger.
  - apply adjust_inventory_keeps_if; [|exact HI].
    intros n _. apply update_inventory_ledger.
  - apply create_sale_keeps_if; [apply INSERT_sale_ledger | | exact HI].
    intros sid c1 c2 _. apply sell_items_ledger.
  - apply cancel_sale_keeps_if;
      [ | apply DELETE_sale_items_ledger | apply DELETE_sale_ledger | exact HI].
    intros c1 c2. apply return_items_ledger.
  - now apply add_product_ledger.
  - now apply add_variant_ledger.
  - apply keeps_both; [apply delete_variant_ledger | exact HI].
  - apply keeps_both; [apply delete_customer_ledger | exact HI].
Qed.

Lemma empty_db_ledger_ok : ledger_ok empty_db.
Proof. split; intros x []. Qed.

(** The ledger invariant under every controller but one.  From a state
    where every Inventory row holds the ledger sum of its variant, any
    sequence of update_inventory, adjust_inventory, create_sale,
    cancel_sale, add_product, delete_variant and delete_customer calls, and
    of add_variant calls with an inventory_quantity of 0, whether they
    return or raise, commits only states where this is so. *)
Lemma operations_keep_ledger (ops : list operation) :
  forall c,
    Forall records_stock ops ->
    both ledger_ok c -> both ledger_ok (run_all ops c).
Proof.
  induction ops as [|op ops IH]; intros c Hrec HI; [exact HI|].
  inversion Hrec as [|x l Hop Hrest]; subst. cbn [run_all fold_left].
  apply IH; [exact Hrest | now apply run_ledger].
Qed.

(** ** No write is left pending *)

Lemma returns_settled_bind {A B : Type} (m : M A) (k : A -> M B) :
  (forall a, returns_settled (k a)) -> returns_settled (bind m k).
Proof.
  intros Hk c b c'. unfold bind. destruct (m c) as [[a|e] c1]; [|discriminate].
  apply Hk.
Qed.

Lemma returns_settled_raise {A : Type} (e : exn) : returns_settled (@raise A e).
Proof. intros c a c'. discriminate. Qed.

Lemma returns_settled_commit {A : Type} (a : A) : returns_settled (commit ;; ret a).
Proof.
  intros c x c'. unfold bind, commit, ret. intros H. injection H as _ <-. reflexivity.
Qed.

(** A controller body under [except: rollback; raise] that only returns
    after its commit leaves no write pending, whatever the outcome. *)
Lemma transaction_settled {A : Type} (body : M A) (w : wrapper) (c : Conn) :
  returns_settled body ->
  settled (snd (try_except body (fun e => rollback ;; raise (Wrapped w e)) c)).
Proof.
  intros Hbody. unfold try_except. destruct (body c) as [[a|e] c1] eqn:E.
  - exact (Hbody _ _ _ E).
  - reflexivity.
Qed.

Ltac settle :=
  repeat first
    [ apply returns_settled_commit
    | apply returns_settled_raise
    | apply returns_settled_bind; intros ?
    | match goal with
      | |- returns_settled (match ?x with _ => _ end) => destruct x
      end ].

Lemma update_inventory_settled v q ty ref notes c :
  settled (snd (update_inventory v q ty ref notes c)).
Proof. apply transaction_settled. settle. Qed.

Lemma adjust_inventory_settled v d notes c :
  settled c -> settled (snd (adjust_inventory v d notes c)).
Proof.
  intros Hc.
  unfold adjust_inventory, get_inventory, try_except, bind, query, raise, ret.
  destruct (SELECT_inventory v (working c)) as [r|]; cbn; [|exact Hc].
  destruct (inv_quantity r + d <? 0); [exact Hc|].
  pose proof (update_inventory_settled v (inv_quantity r + d)
                InventoryTransaction.ADJUSTMENT None notes c) as H.
  destruct (update_inventory v (inv_quantity r + d) InventoryTransaction.ADJUSTMENT
              None notes c) as [[b|e] c']; exact H.
Qed.

Lemma create_sale_settled sale c : settled (snd (create_sale sale c)).
Proof. apply transaction_settled. settle. Qed.

Lemma cancel_sale_settled sale_id c : settled (snd (cancel_sale sale_id c)).
Proof. apply transaction_settled. settle. Qed.

Lemma add_product_settled product variants c :
  settled (snd (add_product product variants c)).
Proof. apply transaction_settled. settle. Qed.

Lemma add_variant_settled variant c : settled (snd (add_variant variant c)).
Proof. apply transaction_settled. settle. Qed.

Lemma delete_variant_settled variant_id c : settled (snd (delete_variant variant_id c)).
Proof. apply transaction_settled. settle. Qed.

Lemma delete_customer_settled customer_id c :
  settled (snd (delete_customer customer_id c)).
Proof. apply transaction_settled. settle. Qed.

(** Between two calls into the controllers the connection has no write
    pending: what is read is what is committed. *)
Lemma operations_leave_settled (ops : list operation) :
  forall c, settled c -> settled (run_all ops c).
Proof.
  induction ops as [|op ops IH]; intros c Hc; [exact Hc|].
  cbn [run_all fold_left]. apply IH.
  destruct op as [[v q ty ref notes|v d notes|sale|s]|p vs|v|v|cu]; cbn [run perform].
  - apply update_inventory_settled.
  - now apply adjust_inventory_settled.
  - apply create_sale_settled.
  - apply cancel_sale_settled.
  - apply add_product_settled.
  - apply add_variant_settled.
  - apply delete_variant_settled.
  - apply delete_customer_settled.
Qed.

(** ** update_inventory and adjust_inventory, when they go through *)

Lemma update_inventory_run (c : Conn) (v n : Z) (ty : string) (ref : option Z)
    (notes : option string) (q : Z) :
  stock (working c) v = Some q ->
  variant_exists (working c) v = true ->
  exists c' t,
    update_inventory v n ty ref notes c = (Return true, c')
    /\ committed c' = working c'
    /\ rows (inventory (working c'))
       = map (restock n (time_source c (time_reads c)) v) (rows (inventory (working c)))
    /\ rows (inventory_transactions (working c'))
       = rows (inventory_transactions (working c)) ++ [t]
    /\ t = mkTransactionRow (next_rowid tx_id (inventory_transactions (working c)))
                            v (n - q) ty ref (time_source c (time_reads c)) notes
    /\ categories (working c') = categories (working c)
    /\ products (working c') = products (working c)
    /\ product_variants (working c') = product_variants (working c)
    /\ customers (working c') = customers (working c)
    /\ sales (working c') = sales (working c)
    /\ sale_items (working c') = sale_items (working c).
Proof.
  intros Hq Hv.
  unfold stock, SELECT_inventory_quantity in Hq.
  destruct (SELECT_inventory v (working c)) as [r|] eqn:Hr; [|discriminate].
  cbn in Hq. injection Hq as Hq.
  unfold update_inventory, get_inventory, try_except, bind, query, execute,
    get_current_timestamp, commit, rollback, raise, ret,
    UPDATE_inventory, INSERT_inventory_transaction.
  rewrite Hr. cbn [working committed time_source time_reads Inventory.quantity].
  change (variant_exists (set_inventory _ (working c)) v)
    with (variant_exists (working c) v).
  rewrite Hv, Hq. cbn [working committed time_source time_reads].
  eexists _, _. repeat split.
Qed.

Lemma get_inventory_reads (c : Conn) (v : Z) :
  get_inventory v c
  = (Return (option_map (fun r => Inventory.mk (inv_id r) (inv_product_variant_id r)
                                               (inv_quantity r) (inv_last_updated r))
                        (SELECT_inventory v (working c))), c).
Proof.
  unfold get_inventory, try_except, bind, query, ret.
  destruct (SELECT_inventory v (working c)); reflexivity.
Qed.

(** X1.  update_inventory on a variant that has an Inventory row, with a
    new_quantity, a difference to the quantity read and a reference_id that
    fit SQLite's INTEGER, returns True and commits: the variant then reads
    new_quantity, through get_inventory as well, every other variant reads
    what it read before, and exactly one transaction was appended, of the
    type, reference and notes given, whose quantity_change is new_quantity
    minus the quantity read before. *)
Theorem update_inventory_sets_quantity :
  forall (c : Conn) (v n : Z) (ty : string) (ref : option Z) (notes : option string)
         (q : Z),
    stock (working c) v = Some q ->
    variant_exists (working c) v = true ->
    sqlite_integer n ->
    sqlite_integer (n - q) ->
    sqlite_integer_or_null ref ->
    exists c' t inv,
      update_inventory v n ty ref notes c = (Return true, c')
      /\ committed c' = working c'
      /\ (forall v', stock (working c') v'
                     = if v' =? v then Some n else stock (working c) v')
      /\ get_inventory v c' = (Return (Some inv), c')
      /\ Inventory.product_variant_id inv = v
      /\ Inventory.quantity inv = n
      /\ rows (inventory_transactions (working c'))
         = rows (inventory_transactions (working c)) ++ [t]
      /\ tx_summary t = (v, n - q, ty, ref)
      /\ tx_notes t = notes.
Proof.
  intros c v n ty ref notes q Hq Hv _ _ _.
  destruct (update_inventory_run c v n ty ref notes q Hq Hv)
    as (c' & t & Hrun & Hcom & Hinv & Htx & Ht & _).
  assert (Hstock : forall v', stock (working c') v'
                              = if v' =? v then Some n else stock (working c) v').
  { intros v'. rewrite (stock_restock (working c) (working c') n _ v v' Hinv).
    destruct (v' =? v); [now rewrite Hq | reflexivity]. }
  pose proof (Hstock v) as Hsv. rewrite Z.eqb_refl in Hsv.
  unfold stock, SELECT_inventory_quantity in Hsv.
  destruct (SELECT_inventory v (working c')) as [r|] eqn:Hr; [|discriminate].
  cbn in Hsv. injection Hsv as Hsv.
  exists c', t, (Inventory.mk (inv_id r) (inv_product_variant_id r)
                             (inv_quantity r) (inv_last_updated r)).
  split; [exact Hrun|]. split; [exact Hcom|]. split; [exact Hstock|].
  split; [rewrite get_inventory_reads, Hr; reflexivity|].
  split; [apply find_some_key in Hr; apply Hr|].
  split; [exact Hsv|]. split; [exact Htx|]. subst t. split; reflexivity.
Qed.

Lemma update_inventory_sets_quantity_witness :
  exists c' t inv,
    update_inventory 1 8 InventoryTransaction.PURCHASE None (Some "Compra") Shop.conn
      = (Return true, c')
    /\ committed c' = working c'
    /\ (forall v', stock (working c') v'
                   = if v' =? 1 then Some 8 else stock (working Shop.conn) v')
    /\ get_inventory 1 c' = (Return (Some inv), c')
    /\ Inventory.product_variant_id inv = 1
    /\ Inventory.quantity inv = 8
    /\ rows (inventory_transactions (working c'))
       = rows (inventory_transactions (working Shop.conn)) ++ [t]
    /\ tx_summary t = (1, 8 - 3, InventoryTransaction.PURCHASE, None)
    /\ tx_notes t = Some "Compra".
Proof.
  apply (update_inventory_sets_quantity Shop.conn 1 8 InventoryTransaction.PURCHASE
           None (Some "Compra") 3);
    try reflexivity; try exact I; unfold sqlite_integer; cbn; lia.
Defined.

(** X2.  A variant without Inventory row is reported, not created.  For
    a variant id that fits SQLite's INTEGER, get_inventory returns None;
    update_inventory and adjust_inventory raise the inventory-not-found
    error, each under its own wrapper, before they bind anything else, and
    with no write pending before the call they leave the connection as it
    was: no Inventory row and no transaction appears. *)
Theorem unknown_variant_is_reported :
  forall (c : Conn) (v : Z),
    settled c ->
    sqlite_integer v ->
    stock (working c) v = None ->
    get_inventory v c = (Return None, c)
    /\ (forall n ty ref notes,
           update_inventory v n ty ref notes c
           = (Raise (Wrapped Error_updating_inventory Inventario_no_encontrado), c))
    /\ (forall d notes,
           adjust_inventory v d notes c
           = (Raise (Wrapped Error_adjusting_inventory Inventario_no_encontrado), c)).
Proof.
  intros c v Hc _ Hq.
  unfold stock, SELECT_inventory_quantity in Hq.
  destruct (SELECT_inventory v (working c)) as [r|] eqn:Hr; [discriminate|].
  split; [|split].
  - rewrite get_inventory_reads, Hr. reflexivity.
  - intros n ty ref notes.
    unfold update_inventory, get_inventory, try_except, bind, query, rollback, raise, ret.
    rewrite Hr. cbn. now rewrite (rollback_clean c Hc).
  - intros d notes. unfold adjust_inventory. unfold try_except at 1. unfold bind at 1.
    rewrite get_inventory_reads, Hr. reflexivity.
Qed.

Lemma unknown_variant_is_reported_witness :
  get_inventory 7 Shop.conn = (Return None, Shop.conn)
  /\ (forall n ty ref notes,
         update_inventory 7 n ty ref notes Shop.conn
         = (Raise (Wrapped Error_updating_inventory Inventario_no_encontrado), Shop.conn))
  /\ (forall d notes,
         adjust_inventory 7 d notes Shop.conn
         = (Raise (Wrapped Error_adjusting_inventory Inventario_no_encontrado), Shop.conn)).
Proof.
  apply (unknown_variant_is_reported Shop.conn 7);
    try reflexivity; unfold sqlite_integer; cbn; lia.
Defined.

(** X3.  adjust_inventory with a change that keeps the quantity at 0 or
    above is update_inventory to the sum: when the change and the sum fit
    SQLite's INTEGER it returns True, the variant then reads its former
    quantity plus the change, and the one transaction appended is an
    ADJUSTMENT of exactly the change, without reference, with the notes
    given. *)
Theorem adjust_inventory_applies_change :
  forall (c : Conn) (v d : Z) (notes : option string) (q : Z),
    stock (working c) v = Some q ->
    variant_exists (working c) v = true ->
    0 <= q + d ->
    sqlite_integer d ->
    sqlite_integer (q + d) ->
    exists c' t,
      adjust_inventory v d notes c = (Return true, c')
      /\ adjust_inventory v d notes c
         = update_inventory v (q + d) InventoryTransaction.ADJUSTMENT None notes c
      /\ committed c' = working c'
      /\ (forall v', stock (working c') v'
                     = if v' =? v then Some (q + d) else stock (working c) v')
      /\ rows (inventory_transactions (working c'))
         = rows (inventory_transactions (working c)) ++ [t]
      /\ tx_summary t = (v, d, InventoryTransaction.ADJUSTMENT, None)
      /\ tx_notes t = notes.
Proof.
  intros c v d notes q Hq Hv Hpos _ _.
  destruct (update_inventory_run c v (q + d) InventoryTransaction.ADJUSTMENT None notes
              q Hq Hv) as (c' & t & Hrun & Hcom & Hinv & Htx & Ht & _).
  assert (Hadj : adjust_inventory v d notes c
                 = update_inventory v (q + d) InventoryTransaction.ADJUSTMENT None notes c).
  { unfold adjust_inventory. unfold try_except at 1. unfold bind at 1.
    rewrite get_inventory_reads.
    unfold stock, SELECT_inventory_quantity in Hq.
    destruct (SELECT_inventory v (working c)) as [r|]; [|discriminate].
    cbn in Hq. injection Hq as Hq. cbn [option_map Inventory.quantity]. rewrite Hq.
    destruct (q + d <? 0) eqn:E; [apply Z.ltb_lt in E; lia|].
    rewrite Hrun. reflexivity. }
  exists c', t. split; [now rewrite Hadj|]. split; [exact Hadj|].
  split; [exact Hcom|]. split.
  - intros v'. rewrite (stock_restock (working c) (working c') (q + d) _ v v' Hinv).
    destruct (v' =? v); [now rewrite Hq | reflexivity].
  - split; [exact Htx|]. subst t. split; [|reflexivity].
    unfold tx_summary. cbn. repeat f_equal. lia.
Qed.

Lemma adjust_inventory_applies_change_witness :
  exists c' t,
    adjust_inventory 1 (-3) (Some "Merma") Shop.conn = (Return true, c')
    /\ adjust_inventory 1 (-3) (Some "Merma") Shop.conn
       = update_inventory 1 (3 + -3) InventoryTransaction.ADJUSTMENT None (Some "Merma")
                          Shop.conn
    /\ committed c' = working c'
    /\ (forall v', stock (working c') v'
                   = if v' =? 1 then Some (3 + -3) else stock (working Shop.conn) v')
    /\ rows (inventory_transactions (working c'))
       = rows (inventory_transactions (working Shop.conn)) ++ [t]
    /\ tx_summary t = (1, -3, InventoryTransaction.ADJUSTMENT, None)
    /\ tx_notes t = Some "Merma".
Proof.
  apply (adjust_inventory_applies_change Shop.conn 1 (-3) (Some "Merma") 3);
    [reflexivity | reflexivity | lia | unfold sqlite_integer; cbn; lia
    | unfold sqlite_integer; cbn; lia].
Defined.

(** ** get_sale after create_sale *)

Lemma item_of_row_terms (item_data : SaleItemRow * (string * string * string * string))
    (discount_percent : float) :
  si_discount_percent (fst item_data) = Some discount_percent ->
  item_terms (item_of_row item_data)
  = (si_product_variant_id (fst item_data), si_quantity (fst item_data),
     si_unit_price (fst item_data), discount_percent)
  /\ SaleItem.sale_id (item_of_row item_data) = Some (si_sale_id (fst item_data))
  /\ SaleItem.id (item_of_row item_data) = Some (si_id (fst item_data))
  /\ SaleItem.subtotal (item_of_row item_data)
     = if (0 <? si_subtotal (fst item_data))%float then si_subtotal (fst item_data)
       else (float_of_int (si_quantity (fst item_data)) * si_unit_price (fst item_data)
             * (1 - discount_percent / 100))%float.
Proof.
  destruct item_data as [si [[[n co] sz] cl]]. unfold item_of_row, SaleItem.init, item_terms.
  cbn [fst]. intros ->. destruct (0 <? si_subtotal si)%float; repeat split; reflexivity.
Qed.

Lemma rows_read_back (sale_id : Z) (l : list (SaleItemRow * (string * string * string * string)))
    (items : list SaleItem.t) :
  map si_summary (map fst l) = map (item_summary sale_id) items ->
  Forall (fun item => is_nan (SaleItem.discount_percent item) = false) items ->
  map item_terms (map item_of_row l) = map item_terms items
  /\ map SaleItem.subtotal (map item_of_row l) = map kept_subtotal items
  /\ Forall (fun item => SaleItem.sale_id item = Some sale_id) (map item_of_row l)
  /\ forallb (fun item_data => row_reads_back (fst item_data)) l = true.
Proof.
  revert items. induction l as [|d l IH]; intros [|item items] H Hall; try discriminate.
  - repeat split; constructor.
  - cbn [map] in H. injection H as Hs Hv Hq Hp Hd Hsub Hrest.
    inversion Hall as [|x xs Hx Hxs]; subst x xs.
    destruct (IH _ Hrest Hxs) as (H1 & H2 & H3 & H4).
    unfold bind_real in Hd. rewrite Hx in Hd.
    destruct (item_of_row_terms d _ Hd) as (T1 & T2 & T3 & T4).
    cbn [map forallb]. split; [|split; [|split]].
    + rewrite H1, T1. unfold item_terms at 2. now rewrite Hv, Hq, Hp.
    + rewrite H2, T4. unfold kept_subtotal at 2, SaleItem.calculate_subtotal.
      now rewrite Hsub, Hq, Hp.
    + constructor; [now rewrite T2, Hs | exact H3].
    + rewrite H4, andb_true_r. unfold row_reads_back. now rewrite Hd.
Qed.

(** X4.  What create_sale stored, get_sale reads back.  In a state that
    keeps the foreign keys of the schema, when create_sale returns sale id
    s for a Sale none of whose line items has a NaN discount_percent,
    get_sale s writes nothing and finds a Sale with id s and the
    customer_id, payment_method and total_amount of the Sale passed in.  Its
    sale_date is the one passed in when that is not empty, and get_sale then
    leaves the connection as it was; for an empty sale_date Sale.__init__
    reads the clock once and the date found is that reading.  The items
    are, in order, the line items passed in with their variant, quantity,
    unit_price and discount_percent, each with sale_id s; an item's
    subtotal is the one stored when that is above 0, and
    quantity * unit_price * (1 - discount_percent / 100) otherwise. *)
Theorem create_sale_then_get_sale :
  forall (c c1 : Conn) (sale : Sale.t) (sale_id : Z),
    references_ok (working c) ->
    Forall (fun item => is_nan (SaleItem.discount_percent item) = false)
           (Sale.items sale) ->
    create_sale sale c = (Return sale_id, c1) ->
    exists found c2,
      get_sale sale_id c1 = (Return (Some found), c2)
      /\ committed c2 = committed c1
      /\ working c2 = working c1
      /\ (Sale.sale_date sale <> "" ->
          c2 = c1 /\ Sale.sale_date found = Sale.sale_date sale)
      /\ (Sale.sale_date sale = "" ->
          time_reads c2 = S (time_reads c1)
          /\ Sale.sale_date found = time_source c1 (time_reads c1))
      /\ Sale.id found = Some sale_id
      /\ Sale.customer_id found = Sale.customer_id sale
      /\ Sale.payment_method found = Sale.payment_method sale
      /\ Sale.total_amount found = Sale.total_amount sale
      /\ map item_terms (Sale.items found) = map item_terms (Sale.items sale)
      /\ map SaleItem.subtotal (Sale.items found) = map kept_subtotal (Sale.items sale)
      /\ Forall (fun item => SaleItem.sale_id item = Some sale_id) (Sale.items found).
Proof.
  intros c c1 sale sid [Hprod Hsale] Hnum Hcreate.
  apply create_sale_return in Hcreate. destruct Hcreate as (si & tx & Hc).
  destruct (summaries_lines _ _ _ (sc_si_summary Hc)) as [Hlines Hsid].
  pose proof (sc_sale_id Hc) as Hid.
  pose proof (sc_sales Hc) as Hsales.
  assert (Hold : forall r, In r (rows (sale_items (working c))) -> si_sale_id r <> sid).
  { intros r Hin. apply Hsale in Hin. apply has_id_true in Hin.
    destruct Hin as (s & Hs & Hk). apply (next_rowid_fresh sales_id) in Hs. lia. }
  assert (Hold_sales : forall s, In s (rows (sales (working c))) -> sales_id s <> sid).
  { intros s Hs. apply (next_rowid_fresh sales_id) in Hs. lia. }
  assert (Hrows : map fst (SELECT_sale_items sid (working c1)) = si).
  { apply select_sale_items_rows with (old := rows (sale_items (working c))).
    - exact (sc_sale_items Hc).
    - exact Hold.
    - intros r Hin. split; [now apply Hsid|].
      unfold variant_exists. rewrite (sc_variants Hc).
      eapply lines_variants_exist; [exact Hlines | exact (sc_variants_exist Hc) | exact Hin].
    - intros pv Hin. unfold product_exists. rewrite (sc_products Hc).
      apply Hprod. now rewrite <- (sc_variants Hc). }
  assert (Hfind : find (fun s => sales_id s =? sid) (rows (sales (working c1)))
                  = Some (mkSaleRow sid (Sale.customer_id sale) (Sale.sale_date sale)
                            (Sale.payment_method sale) (Sale.total_amount sale))).
  { rewrite Hsales, find_app_new.
    - cbn. now rewrite Z.eqb_refl.
    - intros s Hs. apply Z.eqb_neq. now apply Hold_sales. }
  destruct (rows_read_back sid (SELECT_sale_items sid (working c1)) (Sale.items sale))
    as (H1 & H2 & H3 & H4).
  { rewrite Hrows. exact (sc_si_summary Hc). }
  { exact Hnum. }
  destruct (sale_new_run (Some sid) (Sale.customer_id sale) (Sale.sale_date sale)
              (Sale.payment_method sale) (Sale.total_amount sale) c1)
    as (n & date & Hnew & Hgiven & Hempty).
  eexists _, (mkConn (committed c1) (working c1) (time_source c1) n). split.
  { unfold get_sale, try_except, bind, query, SELECT_sale. rewrite Hfind.
    cbv beta iota.
    cbn [sales_id sales_customer_id sales_sale_date sales_payment_method
         sales_total_amount].
    rewrite Hnew. cbv beta iota. rewrite collect_read_item. cbn [working].
    rewrite H4. reflexivity. }
  cbn [Sale.id Sale.customer_id Sale.sale_date Sale.payment_method Sale.total_amount
       Sale.items Sale.set_items Sale.set_customer_name Sale.init working committed
       time_reads].
  split; [reflexivity|]. split; [reflexivity|]. split.
  { intros Hd. destruct (Hgiven Hd) as [-> ->]. split; [apply conn_eta | reflexivity]. }
  split.
  { intros Hd. destruct (Hempty Hd) as [-> ->]. split; reflexivity. }
  repeat split; assumption.
Qed.

Lemma create_sale_then_get_sale_witness :
  create_sale Shop.sale_a Shop.conn_sold
    = (Return 2, snd (create_sale Shop.sale_a Shop.conn_sold))
  /\ exists found c2,
      get_sale 2 (snd (create_sale Shop.sale_a Shop.conn_sold))
        = (Return (Some found), c2)
      /\ committed c2 = committed (snd (create_sale Shop.sale_a Shop.conn_sold))
      /\ working c2 = working (snd (create_sale Shop.sale_a Shop.conn_sold))
      /\ (Sale.sale_date Shop.sale_a <> "" ->
          c2 = snd (create_sale Shop.sale_a Shop.conn_sold)
          /\ Sale.sale_date found = Sale.sale_date Shop.sale_a)
      /\ (Sale.sale_date Shop.sale_a = "" ->
          time_reads c2 = S (time_reads (snd (create_sale Shop.sale_a Shop.conn_sold)))
          /\ Sale.sale_date found
             = time_source (snd (create_sale Shop.sale_a Shop.conn_sold))
                           (time_reads (snd (create_sale Shop.sale_a Shop.conn_sold))))
      /\ Sale.id found = Some 2
      /\ Sale.customer_id found = Sale.customer_id Shop.sale_a
      /\ Sale.payment_method found = Sale.payment_method Shop.sale_a
      /\ Sale.total_amount found = Sale.total_amount Shop.sale_a
      /\ map item_terms (Sale.items found) = map item_terms (Sale.items Shop.sale_a)
      /\ map SaleItem.subtotal (Sale.items found)
         = map kept_subtotal (Sale.items Shop.sale_a)
      /\ Forall (fun item => SaleItem.sale_id item = Some 2) (Sale.items found).
Proof.
  split; [vm_compute; reflexivity|].
  apply (create_sale_then_get_sale Shop.conn_sold _ Shop.sale_a 2).
  - split.
    + intros pv [<-|[<-|[]]]; reflexivity.
    + intros si [<-|[]]; reflexivity.
  - constructor; [vm_compute; reflexivity | constructor].
  - vm_compute; reflexivity.
Defined.

(** ** cancel_sale, when it returns and when the sale is not there *)

Lemma return_items_return (sale_id : Z) (items : list SaleItem.t) :
  forall c c',
    for_each items (return_item sale_id) c = (Return tt, c') ->
    exists tx,
      appended c c' [] tx
      /\ map tx_summary tx = map (return_summary sale_id) items
      /\ (forall v, stock (working c') v
                    = option_map (fun q => q + moved v items) (stock (working c) v)).
Proof.
  induction items as [|item items IH]; intros c c' H.
  - cbn in H. injection H as <-. exists []. split; [apply appended_refl|].
    split; [reflexivity|]. intros v. unfold moved. cbn.
    destruct (stock (working c) v); cbn; [f_equal; lia | reflexivity].
  - cbn [for_each] in H. unfold bind in H.
    destruct (return_item sale_id item c) as [[[]|e] c1] eqn:E1; [|discriminate].
    destruct (return_item_return _ _ _ _ E1) as (q & ts & tx0 & Hq & _ & _).
    destruct (return_item_transaction _ _ _ _ E1) as (tx0' & _ & _ & Hv).
    destruct (return_item_run sale_id item c) as (c1' & tx1 & Hrun & Happ1 & Htx1 & Hst1);
      [congruence | exact Hv |].
    rewrite E1 in Hrun. injection Hrun as <-.
    destruct (IH _ _ H) as (tx & Happ & Htx & Hst).
    exists (tx1 :: tx). split; [|split].
    + change (appended c c' ([] ++ []) ([tx1] ++ tx)).
      eapply appended_trans; eassumption.
    + cbn. now rewrite Htx1, Htx.
    + intros v. rewrite Hst, Hst1, moved_cons.
      destruct (v =? SaleItem.product_variant_id item) eqn:E.
      * apply Z.eqb_eq in E. subst v. rewrite Z.eqb_refl. apply option_map_add_add.
      * rewrite Z.eqb_sym, E.
        destruct (stock (working c) v); cbn; [f_equal; lia | reflexivity].
Qed.

Lemma has_id_filter_same {R : Type} (key : R -> Z) (l : list R) (k : Z) :
  has_id key (filter (fun r => negb (key r =? k)) l) k = false.
Proof.
  unfold has_id. induction l as [|r l IH]; [reflexivity|].
  cbn [filter]. destruct (key r =? k) eqn:E; cbn [negb existsb]; [exact IH|].
  now rewrite E, IH.
Qed.

(** What cancel_sale has done when it returns. *)
Lemma cancel_sale_return (sale_id : Z) (c c' : Conn) (b : bool) :
  cancel_sale sale_id c = (Return b, c') ->
  exists returned,
    b = true
    /\ sale_exists (working c) sale_id = true
    /\ committed c' = working c'
    /\ (forall v, stock (working c') v
                  = option_map
                      (fun q => q + moved v (map item_of_row
                                               (SELECT_sale_items sale_id (working c))))
                      (stock (working c) v))
    /\ rows (inventory_transactions (working c'))
       = rows (inventory_transactions (working c)) ++ returned
    /\ map tx_summary returned
       = map (return_summary sale_id)
             (map item_of_row (SELECT_sale_items sale_id (working c)))
    /\ rows (sales (working c'))
       = filter (fun s => negb (sales_id s =? sale_id)) (rows (sales (working c)))
    /\ rows (sale_items (working c'))
       = filter (fun si => negb (si_sale_id si =? sale_id)) (rows (sale_items (working c)))
    /\ product_variants (working c') = product_variants (working c)
    /\ customers (working c') = customers (working c).
Proof.
  unfold cancel_sale, try_except. unfold bind at 1.
  destruct (get_sale_reads_only sale_id c)
    as [[_ Hget]|(Hex & n & [(_ & sale & Hget & Hlines)|(_ & Hget)])];
    rewrite Hget;
    [unfold bind, rollback, raise; discriminate| |unfold bind, rollback, raise; discriminate].
  unfold bind at 1.
  destruct (for_each (Sale.items sale) _ _) as [[[]|e] c2] eqn:Hret;
    [|unfold bind, rollback, raise; discriminate].
  rewrite Hlines in Hret.
  destruct (return_items_return _ _ _ _ Hret) as (tx & Happ & Htx & Hst).
  destruct Happ as [Hcom2 Hcat2 Hprod2 Hpv2 Hcus2 Hsal2 Hsit2 Htxs2].
  cbn [working committed] in Hcom2, Hcat2, Hprod2, Hpv2, Hcus2, Hsal2, Hsit2, Htxs2, Hst.
  unfold bind, execute, DELETE_sale_items, DELETE_sale, commit, ret.
  cbn [working committed time_source time_reads].
  change (sale_exists (set_sale_items _ (working c2)) sale_id)
    with (sale_exists (working c2) sale_id).
  unfold sale_exists at 1. rewrite Hsal2. fold (sale_exists (working c) sale_id).
  rewrite Hex. cbn [working committed time_source time_reads].
  intros H. injection H as <- <-. exists tx. cbn [working committed].
  split; [reflexivity|]. split; [reflexivity|]. split; [reflexivity|]. split.
  { intros v.
    match goal with
    | |- stock ?db v = _ => rewrite (stock_same_inventory (working c2) db v) by reflexivity
    end.
    apply Hst. }
  split; [exact Htxs2|]. split; [exact Htx|]. split; [cbn; now rewrite Hsal2|].
  split; [|split; [exact Hpv2 | exact Hcus2]].
  cbn. rewrite Hsit2, app_nil_r.
  apply filter_all. intros r Hin. apply filter_In in Hin. apply Hin.
Qed.

Lemma cancel_sale_absent (sale_id : Z) (c : Conn) :
  sale_exists (working c) sale_id = false ->
  cancel_sale sale_id c
  = (Raise (Wrapped Error_cancelling_sale Venta_no_encontrada),
     mkConn (committed c) (committed c) (time_source c) (time_reads c)).
Proof.
  intros H.
  unfold cancel_sale, get_sale, try_except, bind, query, ret, rollback, raise, SELECT_sale.
  destruct (find _ (rows (sales (working c)))) as [s|] eqn:E; [|reflexivity].
  apply find_some_key in E. assert (sale_exists (working c) sale_id = true)
    by (apply has_id_true; now exists s). congruence.
Qed.

(** X5.  When cancel_sale returns, it returns True with everything
    committed: every variant holds its former quantity plus the quantities
    of the sale's items on it, as get_sale reads the items; one RETURN
    transaction per item was appended, in order, of plus the item's
    quantity and with the sale id as reference; the sale's row and its
    sale item rows are gone and no other sale or sale item row is. *)
Theorem cancel_sale_gives_back :
  forall (sale_id : Z) (c c' : Conn) (b : bool),
    cancel_sale sale_id c = (Return b, c') ->
    exists returned,
      b = true
      /\ committed c' = working c'
      /\ (forall v, stock (working c') v
                    = option_map
                        (fun q => q + moved v (map item_of_row
                                                 (SELECT_sale_items sale_id (working c))))
                        (stock (working c) v))
      /\ rows (inventory_transactions (working c'))
         = rows (inventory_transactions (working c)) ++ returned
      /\ map tx_summary returned
         = map (return_summary sale_id)
               (map item_of_row (SELECT_sale_items sale_id (working c)))
      /\ rows (sales (working c'))
         = filter (fun s => negb (sales_id s =? sale_id)) (rows (sales (working c)))
      /\ rows (sale_items (working c'))
         = filter (fun si => negb (si_sale_id si =? sale_id))
                  (rows (sale_items (working c))).
Proof.
  intros sale_id c c' b H.
  destruct (cancel_sale_return _ _ _ _ H)
    as (tx & Hb & _ & Hcom & Hst & Htx & Hsum & Hsales & Hitems & _).
  exists tx. repeat split; assumption.
Qed.

Lemma cancel_sale_gives_back_witness :
  exists returned,
    true = true
    /\ committed (snd (cancel_sale 1 Shop.conn_sold))
       = working (snd (cancel_sale 1 Shop.conn_sold))
    /\ (forall v, stock (working (snd (cancel_sale 1 Shop.conn_sold))) v
                  = option_map
                      (fun q => q + moved v (map item_of_row
                                               (SELECT_sale_items 1 (working Shop.conn_sold))))
                      (stock (working Shop.conn_sold) v))
    /\ rows (inventory_transactions (working (snd (cancel_sale 1 Shop.conn_sold))))
       = rows (inventory_transactions (working Shop.conn_sold)) ++ returned
    /\ map tx_summary returned
       = map (return_summary 1)
             (map item_of_row (SELECT_sale_items 1 (working Shop.conn_sold)))
    /\ rows (sales (working (snd (cancel_sale 1 Shop.conn_sold))))
       = filter (fun s => negb (sales_id s =? 1)) (rows (sales (working Shop.conn_sold)))
    /\ rows (sale_items (working (snd (cancel_sale 1 Shop.conn_sold))))
       = filter (fun si => negb (si_sale_id si =? 1))
                (rows (sale_items (working Shop.conn_sold))).
Proof.
  apply (cancel_sale_gives_back 1 Shop.conn_sold _ true). vm_compute; reflexivity.
Defined.

(** X6.  A sale is cancelled once.  After a cancel_sale that returned, a
    second cancel_sale of the same id raises the sale-not-found error and
    changes nothing: no stock is given back twice. *)
Theorem cancel_sale_only_once :
  forall (sale_id : Z) (c c' : Conn) (b : bool),
    cancel_sale sale_id c = (Return b, c') ->
    get_sale sale_id c' = (Return None, c')
    /\ cancel_sale sale_id c'
       = (Raise (Wrapped Error_cancelling_sale Venta_no_encontrada), c').
Proof.
  intros sale_id c c' b H.
  destruct (cancel_sale_return _ _ _ _ H)
    as (tx & _ & _ & Hcom & _ & _ & _ & Hsales & _).
  assert (Hgone : sale_exists (working c') sale_id = false).
  { unfold sale_exists. rewrite Hsales. apply has_id_filter_same. }
  split.
  - unfold get_sale, try_except, bind, query, ret, SELECT_sale.
    destruct (find _ (rows (sales (working c')))) as [s|] eqn:E; [|reflexivity].
    apply find_some_key in E. assert (sale_exists (working c') sale_id = true)
      by (apply has_id_true; now exists s). congruence.
  - rewrite (cancel_sale_absent _ _ Hgone). now rewrite (rollback_clean c' Hcom).
Qed.

Lemma cancel_sale_only_once_witness :
  get_sale 1 (snd (cancel_sale 1 Shop.conn_sold))
    = (Return None, snd (cancel_sale 1 Shop.conn_sold))
  /\ cancel_sale 1 (snd (cancel_sale 1 Shop.conn_sold))
     = (Raise (Wrapped Error_cancelling_sale Venta_no_encontrada),
        snd (cancel_sale 1 Shop.conn_sold)).
Proof.
  apply (cancel_sale_only_once 1 Shop.conn_sold _ true). vm_compute; reflexivity.
Defined.

(** ** A call that raises *)

Lemma holds_get_inventory (v : Z) : holds_committed (get_inventory v).
Proof.
  intros c. unfold get_inventory, try_except, bind, query, ret.
  destruct (SELECT_inventory v (working c)); reflexivity.
Qed.

Ltac holds_tac :=
  repeat first
    [ apply holds_ret | apply holds_raise | apply holds_query | apply holds_execute
    | apply holds_timestamp | apply holds_get_sale | apply holds_get_inventory
    | apply holds_check_item | apply holds_sell_item | apply holds_return_item
    | apply holds_for_each; intros ?
    | apply holds_bind; [|intros ?]
    | match goal with
      | |- holds_committed (match ?x with _ => _ end) => destruct x
      | |- holds_committed (let _ := _ in _) => cbv zeta
      end ].

Ltac raises_tac :=
  repeat first
    [ apply raises_commit_ret
    | apply raises_bind; [solve [holds_tac] | intros ?]
    | match goal with
      | |- raises_uncommitted (match ?x with _ => _ end) => destruct x
      | |- raises_uncommitted (let _ := _ in _) => cbv zeta
      end
    | apply raises_of_holds; solve [holds_tac] ].

(** A controller body run under [except: rollback; raise], when it raises. *)
Lemma transaction_raises {A : Type} (body : M A) (w : wrapper) (c c' : Conn) (e : exn) :
  raises_uncommitted body ->
  try_except body (fun e => rollback ;; raise (Wrapped w e)) c = (Raise e, c') ->
  (exists cause, e = Wrapped w cause)
  /\ committed c' = committed c /\ working c' = committed c.
Proof.
  intros Hbody. unfold try_except.
  destruct (body c) as [[a|e0] c1] eqn:E; [discriminate|].
  unfold bind, rollback, raise. intros H. injection H as <- <-. cbn.
  rewrite (Hbody _ _ _ E). split; [now exists e0|]. split; reflexivity.
Qed.

Lemma adjust_inventory_raises (v d : Z) (notes : option string) (c c' : Conn) (e : exn) :
  adjust_inventory v d notes c = (Raise e, c') ->
  (exists cause, e = Wrapped Error_adjusting_inventory cause)
  /\ committed c' = committed c
  /\ (working c' = working c \/ working c' = committed c).
Proof.
  unfold adjust_inventory. unfold try_except at 1. unfold bind at 1.
  rewrite get_inventory_reads.
  destruct (SELECT_inventory v (working c)) as [r|]; cbn [option_map Inventory.quantity].
  - destruct (inv_quantity r + d <? 0).
    + unfold raise. intros H. injection H as <- <-.
      split; [eexists; reflexivity|]. split; [reflexivity | now left].
    + destruct (update_inventory v (inv_quantity r + d) InventoryTransaction.ADJUSTMENT
                  None notes c) as [[b|e0] c1] eqn:E; [discriminate|].
      unfold raise. intros H. injection H as <- <-.
      unfold update_inventory in E. apply transaction_raises in E; [|raises_tac].
      destruct E as (_ & E1 & E2).
      split; [eexists; reflexivity|]. split; [exact E1 | now right].
  - unfold raise. intros H. injection H as <- <-.
    split; [eexists; reflexivity|]. split; [reflexivity | now left].
Qed.

(** X7.  The calls that move stock are all or nothing.  When
    update_inventory, adjust_inventory, create_sale or cancel_sale raises, on
    a connection with no write pending, the exception carries the call's own
    wrapper and no row of the database differs from before the call, on the
    committed side and on the side the next call reads. *)
Theorem raising_stock_call_changes_nothing :
  forall (c c' : Conn) (e : exn),
    settled c ->
    (forall v n ty ref notes,
        update_inventory v n ty ref notes c = (Raise e, c') ->
        (exists cause, e = Wrapped Error_updating_inventory cause)
        /\ committed c' = committed c /\ working c' = working c)
    /\ (forall v d notes,
           adjust_inventory v d notes c = (Raise e, c') ->
           (exists cause, e = Wrapped Error_adjusting_inventory cause)
           /\ committed c' = committed c /\ working c' = working c)
    /\ (forall sale,
           create_sale sale c = (Raise e, c') ->
           (exists cause, e = Wrapped Error_creando_la_venta cause)
           /\ committed c' = committed c /\ working c' = working c)
    /\ (forall sale_id,
           cancel_sale sale_id c = (Raise e, c') ->
           (exists cause, e = Wrapped Error_cancelling_sale cause)
           /\ committed c' = committed c /\ working c' = working c).
Proof.
  intros c c' e Hc. unfold settled in Hc. rewrite <- Hc.
  split; [|split; [|split]].
  - intros v n ty ref notes H. unfold update_inventory in H.
    apply transaction_raises in H; [exact H | raises_tac].
  - intros v d notes H. apply adjust_inventory_raises in H.
    destruct H as (H1 & H2 & H3). split; [exact H1|]. split; [exact H2|].
    destruct H3 as [H3|H3]; rewrite H3; [now rewrite Hc | reflexivity].
  - intros sale H. unfold create_sale in H.
    apply transaction_raises in H; [exact H | raises_tac].
  - intros sale_id H. unfold cancel_sale in H.
    apply transaction_raises in H; [exact H | raises_tac].
Qed.

Lemma raising_stock_call_changes_nothing_witness :
  create_sale Shop.sale_c Shop.conn
    = (Raise (Wrapped Error_creando_la_venta
                (Stock_insuficiente "Camiseta" "Negro" "M" 3 5)),
       Shop.conn)
  /\ (exists cause,
         Wrapped Error_creando_la_venta (Stock_insuficiente "Camiseta" "Negro" "M" 3 5)
         = Wrapped Error_creando_la_venta cause)
  /\ committed Shop.conn = committed Shop.conn
  /\ working Shop.conn = working Shop.conn.
Proof.
  split; [vm_compute; reflexivity|].
  apply (proj1 (proj2 (proj2
           (raising_stock_call_changes_nothing Shop.conn Shop.conn
              (Wrapped Error_creando_la_venta
                 (Stock_insuficiente "Camiseta" "Negro" "M" 3 5))
              eq_refl))) Shop.sale_c).
  vm_compute; reflexivity.
Defined.

(** X8.  The calls that write the catalogue and the customers are all or
    nothing.  When add_product, add_variant, delete_variant or
    delete_customer raises, on a connection with no write pending, the
    exception carries the call's own wrapper and no row of the database
    differs from before the call: a product whose second variant cannot be
    inserted leaves neither the product nor its first variant behind. *)
Theorem raising_catalogue_call_changes_nothing :
  forall (c c' : Conn) (e : exn),
    settled c ->
    (forall product variants,
        add_product product variants c = (Raise e, c') ->
        (exists cause, e = Wrapped Error_adding_product cause)
        /\ committed c' = committed c /\ working c' = working c)
    /\ (forall variant,
           add_variant variant c = (Raise e, c') ->
           (exists cause, e = Wrapped Error_adding_variant cause)
           /\ committed c' = committed c /\ working c' = working c)
    /\ (forall variant_id,
           delete_variant variant_id c = (Raise e, c') ->
           (exists cause, e = Wrapped Error_deleting_variant cause)
           /\ committed c' = committed c /\ working c' = working c)
    /\ (forall customer_id,
           delete_customer customer_id c = (Raise e, c') ->
           (exists cause, e = Wrapped Error_deleting_customer cause)
           /\ committed c' = committed c /\ working c' = working c).
Proof.
  intros c c' e Hc. unfold settled in Hc. rewrite <- Hc.
  split; [|split; [|split]].
  - intros product variants H. unfold add_product in H.
    apply transaction_raises in H; [exact H | raises_tac].
  - intros variant H. unfold add_variant in H.
    apply transaction_raises in H; [exact H | raises_tac].
  - intros variant_id H. unfold delete_variant in H.
    apply transaction_raises in H; [exact H | raises_tac].
  - intros customer_id H. unfold delete_customer in H.
    apply transaction_raises in H; [exact H | raises_tac].
Qed.

Lemma raising_catalogue_call_changes_nothing_witness :
  fst (add_variant (ProductVariant.init None 1 "M" "Negro") Shop.conn)
    = Raise (Wrapped Error_adding_variant Ya_existe_una_variante)
  /\ (exists cause,
         Wrapped Error_adding_variant Ya_existe_una_variante
         = Wrapped Error_adding_variant cause)
  /\ committed (snd (add_variant (ProductVariant.init None 1 "M" "Negro") Shop.conn))
     = committed Shop.conn
  /\ working (snd (add_variant (ProductVariant.init None 1 "M" "Negro") Shop.conn))
     = working Shop.conn.
Proof.
  split; [vm_compute; reflexivity|].
  apply (proj1 (proj2
           (raising_catalogue_call_changes_nothing Shop.conn _
              (Wrapped Error_adding_variant Ya_existe_una_variante) eq_refl))
           (ProductVariant.init None 1 "M" "Negro")).
  vm_compute; reflexivity.
Defined.

(** ** add_product *)

Lemma find_app_split {R : Type} (f : R -> bool) (l l' : list R) :
  find f (l ++ l') = match find f l with Some x => Some x | None => find f l' end.
Proof.
  induction l as [|x l IH]; [reflexivity|]. cbn. destruct (f x); [reflexivity | exact IH].
Qed.

Lemma select_variant_id_new (db : DB) (product_id : Z) (size color size' color' : string)
    (id : Z) :
  SELECT_variant_id product_id size' color'
    (set_product_variants
       (append_row (product_variants db) id (mkVariantRow id product_id size color)) db)
  = match SELECT_variant_id product_id size' color' db with
    | Some x => Some x
    | None => if String.eqb size size' && String.eqb color color' then Some id else None
    end.
Proof.
  unfold SELECT_variant_id. cbn [product_variants set_product_variants append_row rows].
  rewrite find_app_split.
  destruct (find _ (rows (product_variants db))); [reflexivity|].
  cbn. rewrite Z.eqb_refl. cbn. destruct (_ && _); reflexivity.
Qed.

Lemma add_product_variant_return (product_id : Z) (ts : string)
    (variant : ProductVariant.t) (c c' : Conn) :
  add_product_variant product_id ts variant c = (Return tt, c') ->
  SELECT_variant_id product_id (ProductVariant.size variant) (ProductVariant.color variant)
                    (working c) = None
  /\ product_exists (working c) product_id = true
  /\ c' = mkConn (committed c)
            (set_inventory
               (append_row (inventory (working c))
                  (next_rowid inv_id (inventory (working c)))
                  (mkInventoryRow (next_rowid inv_id (inventory (working c)))
                     (next_rowid pv_id (product_variants (working c))) 0 ts))
               (set_product_variants
                  (append_row (product_variants (working c))
                     (next_rowid pv_id (product_variants (working c)))
                     (mkVariantRow (next_rowid pv_id (product_variants (working c)))
                        product_id (ProductVariant.size variant)
                        (ProductVariant.color variant)))
                  (working c)))
            (time_source c) (time_reads c).
Proof.
  unfold add_product_variant, bind, execute, ret, INSERT_variant, INSERT_inventory.
  destruct (SELECT_variant_id _ _ _ (working c)); [discriminate|].
  destruct (product_exists (working c) product_id); [|discriminate].
  cbn [working committed time_source time_reads].
  match goal with
  | |- context [variant_exists ?db ?v] => destruct (variant_exists db v); [|discriminate]
  end.
  cbn [working committed time_source time_reads].
  intros H. injection H as <-. repeat split.
Qed.

Lemma add_product_variant_run (product_id : Z) (ts : string)
    (variant : ProductVariant.t) (c : Conn) :
  SELECT_variant_id product_id (ProductVariant.size variant) (ProductVariant.color variant)
                    (working c) = None ->
  product_exists (working c) product_id = true ->
  exists c', add_product_variant product_id ts variant c = (Return tt, c').
Proof.
  intros Hnew Hprod.
  unfold add_product_variant, bind, execute, ret, INSERT_variant, INSERT_inventory.
  rewrite Hnew, Hprod. cbn [working committed time_source time_reads].
  match goal with
  | |- context [variant_exists ?db ?v] => assert (Hv : variant_exists db v = true)
  end.
  { unfold variant_exists. cbn -[has_id]. rewrite has_id_app. cbn.
    rewrite Z.eqb_refl. now rewrite orb_true_r. }
  rewrite Hv. eexists. reflexivity.
Qed.

(** The loop of add_product, when it returns. *)
Lemma add_product_variants_return (product_id : Z) (ts : string)
    (variants : list ProductVariant.t) :
  forall c c',
    for_each variants (add_product_variant product_id ts) c = (Return tt, c') ->
    NoDup (map variant_key variants)
    /\ (forall v, In v variants ->
          SELECT_variant_id product_id (ProductVariant.size v) (ProductVariant.color v)
                            (working c) = None)
    /\ exists pvs invs, variants_added product_id variants c c' pvs invs.
Proof.
  induction variants as [|variant variants IH]; intros c c' H.
  - cbn in H. injection H as <-. split; [constructor|]. split; [intros v []|].
    exists [], []. constructor; try reflexivity; now rewrite app_nil_r.
  - cbn [for_each] in H. unfold bind in H.
    destruct (add_product_variant product_id ts variant c) as [[[]|e] c1] eqn:E1;
      [|discriminate].
    destruct (add_product_variant_return _ _ _ _ _ E1) as (Hnew & Hprod & ->).
    destruct (IH _ _ H) as (Hnodup & Hfresh & pvs & invs & Hadd).
    cbn [working] in Hfresh.
    assert (Hkeys : forall v, In v variants ->
              SELECT_variant_id product_id (ProductVariant.size v) (ProductVariant.color v)
                                (working c) = None
              /\ (String.eqb (ProductVariant.size variant) (ProductVariant.size v)
                  && String.eqb (ProductVariant.color variant) (ProductVariant.color v))
                 = false).
    { intros v Hin. specialize (Hfresh v Hin).
      change (SELECT_variant_id ?p ?s ?k (set_inventory _ ?db))
        with (SELECT_variant_id p s k db) in Hfresh.
      rewrite select_variant_id_new in Hfresh.
      revert Hfresh.
      destruct (SELECT_variant_id product_id (ProductVariant.size v)
                  (ProductVariant.color v) (working c)); [intros [=]|].
      destruct (String.eqb _ _ && String.eqb _ _); [intros [=] | split; reflexivity]. }
    split; [|split].
    + cbn [map]. constructor; [|exact Hnodup].
      intros Hin. apply in_map_iff in Hin. destruct Hin as (v & Hk & Hin).
      destruct (Hkeys v Hin) as [_ Hne]. unfold variant_key in Hk.
      injection Hk as Hs Hc. rewrite Hs, Hc, !String.eqb_refl in Hne. discriminate.
    + intros v [<-|Hin]; [exact Hnew | apply (Hkeys v Hin)].
    + destruct Hadd as [A1 A2 A3 A4 A5 A6 A7 A8 A9 A10 A11]. cbn [working committed] in *.
      eexists (_ :: pvs), (_ :: invs). constructor; cbn [working committed]; try assumption.
      * rewrite A8. cbn. rewrite <- app_assoc. reflexivity.
      * cbn [map]. rewrite A9. reflexivity.
      * rewrite A10. cbn. rewrite <- app_assoc. reflexivity.
      * cbn [map]. rewrite A11. reflexivity.
Qed.

(** The loop of add_product returns on variants that differ in size or
    colour from one another and from the rows of the product. *)
Lemma add_product_variants_run (product_id : Z) (ts : string)
    (variants : list ProductVariant.t) :
  forall c,
    product_exists (working c) product_id = true ->
    NoDup (map variant_key variants) ->
    (forall v, In v variants ->
       SELECT_variant_id product_id (ProductVariant.size v) (ProductVariant.color v)
                         (working c) = None) ->
    exists c', for_each variants (add_product_variant product_id ts) c = (Return tt, c').
Proof.
  induction variants as [|variant variants IH]; intros c Hprod Hnodup Hfresh.
  - exists c. reflexivity.
  - cbn [map] in Hnodup. inversion Hnodup as [|k l Hnotin Hrest]; subst k l.
    destruct (add_product_variant_run product_id ts variant c) as [c1 E1];
      [apply Hfresh; now left | exact Hprod |].
    destruct (add_product_variant_return _ _ _ _ _ E1) as (_ & _ & Hc1).
    destruct (IH c1) as [c' Hrun].
    + subst c1. exact Hprod.
    + exact Hrest.
    + intros v Hin. subst c1. cbn [working].
      change (SELECT_variant_id ?p ?s ?k (set_inventory _ ?db))
        with (SELECT_variant_id p s k db).
      rewrite select_variant_id_new.
      rewrite (Hfresh v (or_intror Hin)).
      destruct (String.eqb _ _ && String.eqb _ _) eqn:E; [|reflexivity].
      apply andb_true_iff in E. destruct E as [Es Ec].
      apply String.eqb_eq in Es, Ec. exfalso. apply Hnotin.
      apply in_map_iff. exists v. split; [|exact Hin].
      unfold variant_key. now rewrite Es, Ec.
    + exists c'. cbn [for_each]. unfold bind. rewrite E1. exact Hrun.
Qed.

Lemma add_product_unfold (product : Product.t) (variants : list ProductVariant.t) :
  add_product product variants
  = try_except
      (current_time <- get_current_timestamp ;;
       product_id <- execute (INSERT_product (Product.code product) (Product.name product)
                                (Product.description product) (Product.category_id product)
                                (Product.price product) (Product.discount_percent product)
                                (Product.discount_start_date product)
                                (Product.discount_end_date product)
                                current_time current_time) ;;
       for_each variants (add_product_variant product_id current_time) ;;
       commit ;;
       ret product_id)
      (fun e => rollback ;; raise (Wrapped Error_adding_product e)).
Proof. reflexivity. Qed.

(** What add_product has done when it returns. *)
Lemma add_product_return (product : Product.t) (variants : list ProductVariant.t)
    (c c' : Conn) (product_id : Z) :
  add_product product variants c = (Return product_id, c') ->
  existsb (fun p => String.eqb (prod_code p) (Product.code product))
          (rows (products (working c))) = false
  /\ category_exists (working c) (Product.category_id product) = true
  /\ NoDup (map variant_key variants)
  /\ product_id = next_rowid prod_id (products (working c))
  /\ committed c' = working c'
  /\ rows (products (working c'))
     = rows (products (working c))
       ++ [mkProductRow product_id (Product.code product) (Product.name product)
             (Product.description product) (Product.category_id product)
             (Product.price product) (bind_real (Product.discount_percent product))
             (Product.discount_start_date product) (Product.discount_end_date product)
             (time_source c (time_reads c)) (time_source c (time_reads c))]
  /\ exists pvs invs,
       rows (product_variants (working c')) = rows (product_variants (working c)) ++ pvs
       /\ map pv_summary pvs
          = map (fun v => (product_id, ProductVariant.size v, ProductVariant.color v))
                variants
       /\ rows (inventory (working c')) = rows (inventory (working c)) ++ invs
       /\ map inv_summary invs = map (fun r => (pv_id r, 0)) pvs
       /\ inventory_transactions (working c') = inventory_transactions (working c).
Proof.
  rewrite add_product_unfold. unfold try_except.
  unfold bind at 1. unfold get_current_timestamp at 1.
  unfold bind at 1. unfold execute at 1, INSERT_product.
  cbn [working committed time_source time_reads].
  destruct (is_nan (Product.price product));
    [unfold bind, rollback, raise; discriminate|].
  destruct (existsb _ (rows (products (working c)))); [unfold bind, rollback, raise; discriminate|].
  destruct (category_exists (working c) (Product.category_id product));
    [|unfold bind, rollback, raise; discriminate].
  unfold bind at 1.
  match goal with
  | |- context [for_each variants ?b ?c1] => set (step := b); set (c1' := c1)
  end.
  destruct (for_each variants step c1') as [[[]|e] c2] eqn:Hloop;
    [|unfold bind, rollback, raise; discriminate].
  destruct (add_product_variants_return _ _ _ _ _ Hloop) as (Hnodup & _ & pvs & invs & Hadd).
  destruct Hadd as [A1 A2 A3 A4 A5 A6 A7 A8 A9 A10 A11]. subst c1'.
  cbn [working committed] in *.
  unfold bind, commit, ret. intros H. injection H as <- <-. cbn [working committed].
  split; [reflexivity|]. split; [reflexivity|]. split; [exact Hnodup|].
  split; [reflexivity|]. split; [reflexivity|]. split; [now rewrite A3|].
  exists pvs, invs. repeat split; assumption.
Qed.

(** X9.  add_product returns only for a product whose code no product
    has yet and whose category exists, with variants that differ from one
    another in size or colour.  It then has committed one product row, one
    variant row per variant passed, in order, and for each of them one
    Inventory row of quantity 0, whatever inventory_quantity the variant
    objects carry; it writes no transaction. *)
Theorem add_product_returns_only_if :
  forall (product : Product.t) (variants : list ProductVariant.t) (c c' : Conn)
         (product_id : Z),
    add_product product variants c = (Return product_id, c') ->
    existsb (fun p => String.eqb (prod_code p) (Product.code product))
            (rows (products (working c))) = false
    /\ category_exists (working c) (Product.category_id product) = true
    /\ NoDup (map variant_key variants)
    /\ committed c' = working c'
    /\ exists pvs invs,
         rows (product_variants (working c')) = rows (product_variants (working c)) ++ pvs
         /\ map pv_summary pvs
            = map (fun v => (product_id, ProductVariant.size v, ProductVariant.color v))
                  variants
         /\ rows (inventory (working c')) = rows (inventory (working c)) ++ invs
         /\ map inv_summary invs = map (fun r => (pv_id r, 0)) pvs
         /\ inventory_transactions (working c') = inventory_transactions (working c).
Proof.
  intros product variants c c' product_id H.
  destruct (add_product_return _ _ _ _ _ H) as (H1 & H2 & H3 & _ & H5 & _ & H7).
  repeat split; assumption.
Qed.

(** X10.  In a state that keeps the foreign key of the variants,
    add_product returns for every product whose price is not NaN, whose
    code is not in use and whose category exists, given variants that
    differ from one another in size or colour; the id it returns is the
    next rowid of products. *)
Theorem add_product_creates :
  forall (product : Product.t) (variants : list ProductVariant.t) (c : Conn),
    references_ok (working c) ->
    is_nan (Product.price product) = false ->
    existsb (fun p => String.eqb (prod_code p) (Product.code product))
            (rows (products (working c))) = false ->
    category_exists (working c) (Product.category_id product) = true ->
    NoDup (map variant_key variants) ->
    exists c',
      add_product product variants c
        = (Return (next_rowid prod_id (products (working c))), c')
      /\ product_exists (working c') (next_rowid prod_id (products (working c))) = true
      /\ List.length (rows (product_variants (working c')))
         = (List.length (rows (product_variants (working c))) + List.length variants)%nat.
Proof.
  intros product variants c [Href _] Hprice Hcode Hcat Hnodup.
  set (pid := next_rowid prod_id (products (working c))).
  set (ts := time_source c (time_reads c)).
  set (db1 := set_products (append_row (products (working c)) pid
                (mkProductRow pid (Product.code product) (Product.name product)
                   (Product.description product) (Product.category_id product)
                   (Product.price product) (bind_real (Product.discount_percent product))
                   (Product.discount_start_date product) (Product.discount_end_date product)
                   ts ts)) (working c)).
  set (c1 := mkConn (committed c) db1 (time_source c) (S (time_reads c))).
  destruct (add_product_variants_run pid ts variants c1) as [c2 Hloop].
  - subst c1 db1. unfold product_exists. cbn -[has_id]. rewrite has_id_app. cbn.
    rewrite Z.eqb_refl. now rewrite orb_true_r.
  - exact Hnodup.
  - intros v _. subst c1 db1. cbn [working].
    change (SELECT_variant_id ?p ?s ?k (set_products _ ?db))
      with (SELECT_variant_id p s k db).
    unfold SELECT_variant_id.
    destruct (find _ (rows (product_variants (working c)))) as [r|] eqn:E; [|reflexivity].
    apply find_some in E. destruct E as [Hin Hk].
    apply andb_true_iff in Hk. destruct Hk as [Hk _].
    apply andb_true_iff in Hk. destruct Hk as [Hk _]. apply Z.eqb_eq in Hk.
    specialize (Href r Hin). rewrite Hk in Href.
    unfold product_exists in Href. subst pid. now rewrite has_id_next_rowid in Href.
  - assert (Hrun : add_product product variants c = (Return pid, mkConn (working c2) (working c2) (time_source c2) (time_reads c2))).
    { rewrite add_product_unfold. unfold try_except.
      unfold bind at 1. unfold get_current_timestamp at 1.
      unfold bind at 1. unfold execute at 1, INSERT_product.
      cbn [working committed time_source time_reads].
      rewrite Hprice, Hcode, Hcat. fold pid ts db1 c1.
      unfold bind at 1. rewrite Hloop. reflexivity. }
    eexists. split; [exact Hrun|].
    destruct (add_product_return _ _ _ _ _ Hrun) as (_ & _ & _ & _ & _ & Hp & pvs & invs & Hv & Hs & _).
    cbn [working] in *. split.
    + unfold product_exists. rewrite Hp, has_id_app. cbn.
      rewrite Z.eqb_refl. now rewrite orb_true_r.
    + rewrite Hv, length_app. f_equal.
      rewrite <- (length_map pv_summary pvs), Hs. apply length_map.
Qed.

(** ** add_variant *)

Lemma select_variant_id_found (db : DB) (r : VariantRow) :
  In r (rows (product_variants db)) ->
  SELECT_variant_id (pv_product_id r) (pv_size r) (pv_color r) db <> None.
Proof.
  intros Hin. unfold SELECT_variant_id.
  destruct (find _ (rows (product_variants db))) as [x|] eqn:E; [discriminate|].
  apply (find_none _ _ E) in Hin.
  now rewrite Z.eqb_refl, !String.eqb_refl in Hin.
Qed.

Lemma select_variant_id_orphan (db : DB) (product_id : Z) (size color : string) :
  references_ok db -> product_exists db product_id = false ->
  SELECT_variant_id product_id size color db = None.
Proof.
  intros [Href _] Hp. unfold SELECT_variant_id.
  destruct (find _ (rows (product_variants db))) as [r|] eqn:E; [|reflexivity].
  apply find_some in E. destruct E as [Hin Hk].
  apply andb_true_iff in Hk. destruct Hk as [Hk _].
  apply andb_true_iff in Hk. destruct Hk as [Hk _]. apply Z.eqb_eq in Hk.
  specialize (Href r Hin). congruence.
Qed.

(** X11.  add_variant refuses a second variant of the same size and
    colour and a variant of no product.  In a state that keeps the foreign
    key of the variants, for a product_id that fits SQLite's INTEGER, when
    the product does not exist or already has a variant of that size and
    colour, add_variant raises under its own wrapper, the duplicate-variant
    message for an existing product and the foreign-key error of the INSERT
    for a missing one, and writes nothing. *)
Theorem add_variant_rejects :
  forall (variant : ProductVariant.t) (c : Conn),
    settled c ->
    references_ok (working c) ->
    sqlite_integer (ProductVariant.product_id variant) ->
    product_exists (working c) (ProductVariant.product_id variant) = false
    \/ (exists r, In r (rows (product_variants (working c)))
                  /\ pv_product_id r = ProductVariant.product_id variant
                  /\ pv_size r = ProductVariant.size variant
                  /\ pv_color r = ProductVariant.color variant) ->
    fst (add_variant variant c)
    = Raise (Wrapped Error_adding_variant
               (if product_exists (working c) (ProductVariant.product_id variant)
                then Ya_existe_una_variante
                else Error_executing_query FOREIGN_KEY_constraint_failed))
    /\ committed (snd (add_variant variant c)) = committed c
    /\ working (snd (add_variant variant c)) = working c.
Proof.
  intros variant c Hc Href _ Hcase.
  unfold add_variant, try_except, bind, get_current_timestamp, query, execute, rollback,
    raise, INSERT_variant.
  cbn [working committed time_source time_reads].
  destruct (product_exists (working c) (ProductVariant.product_id variant)) eqn:Hp.
  - destruct Hcase as [Hcase|(r & Hin & Hr & Hs & Hk)]; [discriminate|].
    pose proof (select_variant_id_found (working c) r Hin) as Hfound.
    rewrite Hr, Hs, Hk in Hfound.
    destruct (SELECT_variant_id _ _ _ (working c)); [|congruence].
    cbn. repeat split. exact Hc.
  - rewrite (select_variant_id_orphan (working c) _ (ProductVariant.size variant)
               (ProductVariant.color variant) Href Hp).
    cbn [working committed time_source time_reads].
    rewrite (select_variant_id_orphan (working c) _ (ProductVariant.size variant)
               (ProductVariant.color variant) Href Hp), Hp.
    cbn. repeat split. exact Hc.
Qed.

Lemma add_variant_rejects_witness :
  fst (add_variant (ProductVariant.init None 1 "M" "Negro") Shop.conn)
    = Raise (Wrapped Error_adding_variant
               (if product_exists (working Shop.conn) 1
                then Ya_existe_una_variante
                else Error_executing_query FOREIGN_KEY_constraint_failed))
  /\ committed (snd (add_variant (ProductVariant.init None 1 "M" "Negro") Shop.conn))
     = committed Shop.conn
  /\ working (snd (add_variant (ProductVariant.init None 1 "M" "Negro") Shop.conn))
     = working Shop.conn.
Proof.
  apply (add_variant_rejects (ProductVariant.init None 1 "M" "Negro") Shop.conn).
  - reflexivity.
  - exact shop_references_ok.
  - unfold sqlite_integer. cbn. lia.
  - right. exists (mkVariantRow 1 1 "M" "Negro"). repeat split. left; reflexivity.
Defined.

(** X12.  add_variant returns for every existing product that has no
    variant of that size and colour yet, given an inventory_quantity that
    fits SQLite's INTEGER: the id it returns is the next rowid of
    product_variants, the variant row and one Inventory row for it are
    appended and committed, the Inventory row holding the
    inventory_quantity the object carries, and no transaction is written. *)
Theorem add_variant_creates :
  forall (variant : ProductVariant.t) (c : Conn),
    SELECT_variant_id (ProductVariant.product_id variant) (ProductVariant.size variant)
                      (ProductVariant.color variant) (working c) = None ->
    product_exists (working c) (ProductVariant.product_id variant) = true ->
    sqlite_integer (ProductVariant.inventory_quantity variant) ->
    exists c',
      add_variant variant c
        = (Return (next_rowid pv_id (product_variants (working c))), c')
      /\ committed c' = working c'
      /\ rows (product_variants (working c'))
         = rows (product_variants (working c))
           ++ [mkVariantRow (next_rowid pv_id (product_variants (working c)))
                 (ProductVariant.product_id variant) (ProductVariant.size variant)
                 (ProductVariant.color variant)]
      /\ rows (inventory (working c'))
         = rows (inventory (working c))
           ++ [mkInventoryRow (next_rowid inv_id (inventory (working c)))
                 (next_rowid pv_id (product_variants (working c)))
                 (ProductVariant.inventory_quantity variant)
                 (time_source c (time_reads c))]
      /\ inventory_transactions (working c') = inventory_transactions (working c).
Proof.
  intros variant c Hnone Hp _.
  unfold add_variant, try_except, bind, get_current_timestamp, query, execute, commit,
    ret, INSERT_variant, INSERT_inventory.
  cbn [working committed time_source time_reads].
  rewrite Hnone. cbn [working committed time_source time_reads].
  rewrite Hnone, Hp. cbn [working committed time_source time_reads].
  match goal with
  | |- context [variant_exists ?db ?v] => assert (Hv : variant_exists db v = true)
  end.
  { unfold variant_exists. cbn -[has_id]. rewrite has_id_app. cbn.
    rewrite Z.eqb_refl. now rewrite orb_true_r. }
  rewrite Hv. cbn [working committed time_source time_reads].
  eexists. repeat split.
Qed.

Lemma add_variant_creates_witness :
  exists c',
    add_variant Shop.variant_with_stock Shop.conn
      = (Return (next_rowid pv_id (product_variants (working Shop.conn))), c')
    /\ committed c' = working c'
    /\ rows (product_variants (working c'))
       = rows (product_variants (working Shop.conn))
         ++ [mkVariantRow (next_rowid pv_id (product_variants (working Shop.conn)))
               (ProductVariant.product_id Shop.variant_with_stock)
               (ProductVariant.size Shop.variant_with_stock)
               (ProductVariant.color Shop.variant_with_stock)]
    /\ rows (inventory (working c'))
       = rows (inventory (working Shop.conn))
         ++ [mkInventoryRow (next_rowid inv_id (inventory (working Shop.conn)))
               (next_rowid pv_id (product_variants (working Shop.conn)))
               (ProductVariant.inventory_quantity Shop.variant_with_stock)
               (time_source Shop.conn (time_reads Shop.conn))]
    /\ inventory_transactions (working c') = inventory_transactions (working Shop.conn).
Proof.
  apply (add_variant_creates Shop.variant_with_stock Shop.conn);
    try reflexivity; unfold sqlite_integer; cbn; lia.
Defined.

(** ** delete_variant *)

Lemma existsb_none {A : Type} (f : A -> bool) (l : list A) :
  (forall x, In x l -> f x = false) -> existsb f l = false.
Proof.
  induction l as [|x l IH]; intros H; [reflexivity|].
  cbn. rewrite (H x (or_introl eq_refl)). apply IH. intros; apply H; now right.
Qed.

Lemma count_sale_items_positive (db : DB) (v : Z) (si : SaleItemRow) :
  In si (rows (sale_items db)) -> si_product_variant_id si = v ->
  (0 <? COUNT_sale_items_of_variant v db) = true.
Proof.
  intros Hin Hv. apply Z.ltb_lt. unfold COUNT_sale_items_of_variant.
  assert (Hf : In si (filter (fun s => si_product_variant_id s =? v) (rows (sale_items db)))).
  { apply filter_In. split; [exact Hin | now apply Z.eqb_eq]. }
  destruct (filter _ _); [contradiction|]. cbn [List.length]. lia.
Qed.

Lemma count_sale_items_zero (db : DB) (v : Z) :
  (forall si, In si (rows (sale_items db)) -> si_product_variant_id si <> v) ->
  (0 <? COUNT_sale_items_of_variant v db) = false
  /\ existsb (fun si => si_product_variant_id si =? v) (rows (sale_items db)) = false.
Proof.
  intros H. split.
  - unfold COUNT_sale_items_of_variant. rewrite filter_none; [reflexivity|].
    intros si Hin. apply Z.eqb_neq. now apply H.
  - apply existsb_none. intros si Hin. apply Z.eqb_neq. now apply H.
Qed.

(** X13.  A variant with sales or stock history is never deleted.
    delete_variant of an existing variant that a sale item or an inventory
    transaction refers to raises under its own wrapper: the
    variant-in-sales message when a sale item names it, and otherwise the
    foreign-key error of the DELETE, in which case the Inventory row
    deleted one statement earlier is back.  With no write pending before
    the call, the connection is left as it was. *)
Theorem delete_variant_blocked :
  forall (variant_id : Z) (c : Conn),
    settled c ->
    variant_exists (working c) variant_id = true ->
    (exists si, In si (rows (sale_items (working c)))
                /\ si_product_variant_id si = variant_id)
    \/ (exists t, In t (rows (inventory_transactions (working c)))
                  /\ tx_product_variant_id t = variant_id) ->
    delete_variant variant_id c
    = (Raise (Wrapped Error_deleting_variant
                (if existsb (fun si => si_product_variant_id si =? variant_id)
                            (rows (sale_items (working c)))
                 then Variante_asociada_a_ventas
                 else Error_executing_query FOREIGN_KEY_constraint_failed)), c).
Proof.
  intros v c Hc Hv Href.
  destruct (existsb (fun si => si_product_variant_id si =? v)
                    (rows (sale_items (working c)))) eqn:Hsold.
  - apply existsb_exists in Hsold. destruct Hsold as (si & Hin & Hk).
    apply Z.eqb_eq in Hk.
    unfold delete_variant, try_except, bind, query, rollback, raise.
    rewrite (count_sale_items_positive _ _ _ Hin Hk). cbn.
    now rewrite (rollback_clean c Hc).
  - assert (Hsi : forall si, In si (rows (sale_items (working c))) ->
                             si_product_variant_id si <> v).
    { intros si Hin Hk.
      assert (E : existsb (fun s => si_product_variant_id s =? v)
                          (rows (sale_items (working c))) = true).
      { apply existsb_exists. exists si. split; [exact Hin | now apply Z.eqb_eq]. }
      congruence. }
    destruct Href as [(si & Hin & Hk)|(t & Hin & Ht)]; [now apply Hsi in Hin|].
    destruct (count_sale_items_zero (working c) v Hsi) as [Hcount Hnone].
    unfold delete_variant, try_except, bind, query, execute, rollback, raise,
      DELETE_inventory, DELETE_variant.
    rewrite Hcount. cbn [working committed time_source time_reads].
    change (variant_exists (set_inventory _ (working c)) v)
      with (variant_exists (working c) v).
    rewrite Hv. cbn [sale_items inventory_transactions set_inventory].
    rewrite Hnone.
    assert (Htx : existsb (fun t0 => tx_product_variant_id t0 =? v)
                          (rows (inventory_transactions (working c))) = true).
    { apply existsb_exists. exists t. split; [exact Hin | now apply Z.eqb_eq]. }
    rewrite Htx. cbn. now rewrite (rollback_clean c Hc).
Qed.

Lemma delete_variant_blocked_witness :
  delete_variant 1 Shop.conn
    = (Raise (Wrapped Error_deleting_variant
                (if existsb (fun si => si_product_variant_id si =? 1)
                            (rows (sale_items (working Shop.conn)))
                 then Variante_asociada_a_ventas
                 else Error_executing_query FOREIGN_KEY_constraint_failed)), Shop.conn)
  /\ delete_variant 2 Shop.conn_sold
     = (Raise (Wrapped Error_deleting_variant
                 (if existsb (fun si => si_product_variant_id si =? 2)
                             (rows (sale_items (working Shop.conn_sold)))
                  then Variante_asociada_a_ventas
                  else Error_executing_query FOREIGN_KEY_constraint_failed)),
        Shop.conn_sold).
Proof.
  split.
  - apply (delete_variant_blocked 1 Shop.conn); try reflexivity.
    right. exists (mkTransactionRow 1 1 3 "PURCHASE" None "2024-04-02T09:00:00" None).
    split; [left; reflexivity | reflexivity].
  - apply (delete_variant_blocked 2 Shop.conn_sold); try reflexivity.
    left. exists (mkSaleItemRow 1 1 2 4 20 (Some 0%float) 80).
    split; [left; vm_compute; reflexivity | reflexivity].
Defined.

(** X14.  delete_variant of a variant that no sale item and no inventory
    transaction refers to, under an id that fits SQLite's INTEGER, returns
    True with everything committed: the variant row and the Inventory rows
    of the variant are gone, every other variant and Inventory row is kept
    in order, and the products, sales, sale_items and
    inventory_transactions tables are untouched.  An id that names no
    variant is answered the same way. *)
Theorem delete_variant_removes :
  forall (variant_id : Z) (c : Conn),
    sqlite_integer variant_id ->
    (forall si, In si (rows (sale_items (working c))) ->
                si_product_variant_id si <> variant_id) ->
    (forall t, In t (rows (inventory_transactions (working c))) ->
               tx_product_variant_id t <> variant_id) ->
    exists c',
      delete_variant variant_id c = (Return true, c')
      /\ committed c' = working c'
      /\ variant_exists (working c') variant_id = false
      /\ stock (working c') variant_id = None
      /\ rows (product_variants (working c'))
         = filter (fun r => negb (pv_id r =? variant_id))
                  (rows (product_variants (working c)))
      /\ rows (inventory (working c'))
         = filter (fun r => negb (inv_product_variant_id r =? variant_id))
                  (rows (inventory (working c)))
      /\ products (working c') = products (working c)
      /\ sales (working c') = sales (working c)
      /\ sale_items (working c') = sale_items (working c)
      /\ inventory_transactions (working c') = inventory_transactions (working c).
Proof.
  intros v c _ Hsi Htx.
  destruct (count_sale_items_zero (working c) v Hsi) as [Hcount Hnone].
  assert (Hnotx : existsb (fun t0 => tx_product_variant_id t0 =? v)
                          (rows (inventory_transactions (working c))) = false).
  { apply existsb_none. intros t Hin. apply Z.eqb_neq. now apply Htx. }
  assert (Hfilter : forall l,
            filter (fun r => negb (inv_product_variant_id r =? v))
                   (filter (fun r => negb (inv_product_variant_id r =? v)) l)
            = filter (fun r => negb (inv_product_variant_id r =? v)) l).
  { intros l. apply filter_all. intros r Hin. apply filter_In in Hin. apply Hin. }
  assert (Hstock : forall l,
            find (fun r => inv_product_variant_id r =? v)
                 (filter (fun r => negb (inv_product_variant_id r =? v)) l) = None).
  { intros l. destruct (find _ _) as [r|] eqn:E; [|reflexivity].
    apply find_some in E. destruct E as [Hin Hk]. apply filter_In in Hin.
    destruct Hin as [_ Hin]. rewrite Hk in Hin. discriminate. }
  unfold delete_variant, try_except, bind, query, execute, commit, ret,
    DELETE_inventory, DELETE_variant.
  rewrite Hcount. cbn [working committed time_source time_reads].
  change (variant_exists (set_inventory _ (working c)) v)
    with (variant_exists (working c) v).
  cbn [sale_items inventory_transactions set_inventory].
  rewrite Hnone, Hnotx. cbn [orb].
  destruct (variant_exists (working c) v) eqn:Hv;
    cbn [working committed time_source time_reads]; eexists; (split; [reflexivity|]);
    cbn [working committed]; (split; [reflexivity|]).
  - split; [unfold variant_exists; cbn -[has_id]; apply has_id_filter_same|].
    split; [unfold stock, SELECT_inventory_quantity, SELECT_inventory; cbn;
            now rewrite Hfilter, Hstock|].
    split; [reflexivity|]. split; [cbn; apply Hfilter|]. repeat split.
  - split; [exact Hv|].
    split; [unfold stock, SELECT_inventory_quantity, SELECT_inventory; cbn;
            now rewrite Hstock|].
    split.
    { cbn. symmetry. apply filter_all. intros r Hin. apply negb_true_iff, Z.eqb_neq.
      intros Hk. assert (variant_exists (working c) v = true)
        by (apply has_id_true; now exists r). congruence. }
    repeat split.
Qed.

Lemma add_product_returns_only_if_witness :
  existsb (fun p => String.eqb (prod_code p) "PNT001") (rows (products (working Shop.conn)))
    = false
  /\ category_exists (working Shop.conn) 1 = true
  /\ NoDup (map variant_key [ProductVariant.init None 0 "30" "Azul";
                             Shop.variant_with_stock])
  /\ committed (snd (add_product (Product.mk None "PNT001" "Jean" "Corte recto" 1 50 0
                                    None None)
                       [ProductVariant.init None 0 "30" "Azul"; Shop.variant_with_stock]
                       Shop.conn))
     = working (snd (add_product (Product.mk None "PNT001" "Jean" "Corte recto" 1 50 0
                                    None None)
                       [ProductVariant.init None 0 "30" "Azul"; Shop.variant_with_stock]
                       Shop.conn))
  /\ exists pvs invs,
       rows (product_variants
               (working (snd (add_product (Product.mk None "PNT001" "Jean" "Corte recto"
                                             1 50 0 None None)
                                [ProductVariant.init None 0 "30" "Azul";
                                 Shop.variant_with_stock] Shop.conn))))
       = rows (product_variants (working Shop.conn)) ++ pvs
       /\ map pv_summary pvs
          = map (fun v => (2, ProductVariant.size v, ProductVariant.color v))
                [ProductVariant.init None 0 "30" "Azul"; Shop.variant_with_stock]
       /\ rows (inventory
                  (working (snd (add_product (Product.mk None "PNT001" "Jean" "Corte recto"
                                                1 50 0 None None)
                                   [ProductVariant.init None 0 "30" "Azul";
                                    Shop.variant_with_stock] Shop.conn))))
          = rows (inventory (working Shop.conn)) ++ invs
       /\ map inv_summary invs = map (fun r => (pv_id r, 0)) pvs
       /\ inventory_transactions
            (working (snd (add_product (Product.mk None "PNT001" "Jean" "Corte recto"
                                          1 50 0 None None)
                             [ProductVariant.init None 0 "30" "Azul";
                              Shop.variant_with_stock] Shop.conn)))
          = inventory_transactions (working Shop.conn).
Proof.
  apply (add_product_returns_only_if
           (Product.mk None "PNT001" "Jean" "Corte recto" 1 50 0 None None)
           [ProductVariant.init None 0 "30" "Azul"; Shop.variant_with_stock]
           Shop.conn _ 2).
  vm_compute; reflexivity.
Defined.

Lemma add_product_creates_witness :
  exists c',
    add_product (Product.mk None "PNT001" "Jean" "Corte recto" 1 50 0 None None)
                [ProductVariant.init None 0 "30" "Azul"; Shop.variant_with_stock] Shop.conn
      = (Return (next_rowid prod_id (products (working Shop.conn))), c')
    /\ product_exists (working c') (next_rowid prod_id (products (working Shop.conn))) = true
    /\ List.length (rows (product_variants (working c')))
       = (List.length (rows (product_variants (working Shop.conn)))
          + List.length [ProductVariant.init None 0 "30" "Azul"; Shop.variant_with_stock])%nat.
Proof.
  apply (add_product_creates
           (Product.mk None "PNT001" "Jean" "Corte recto" 1 50 0 None None)
           [ProductVariant.init None 0 "30" "Azul"; Shop.variant_with_stock] Shop.conn).
  - split.
    + intros pv [<-|[<-|[]]]; reflexivity.
    + intros si [].
  - vm_compute; reflexivity.
  - reflexivity.
  - reflexivity.
  - constructor; [cbn; intros [H|[]]; discriminate|].
    constructor; [intros [] | constructor].
Defined.

Lemma delete_variant_removes_witness :
  exists c',
    delete_variant 3 (snd (add_variant Shop.variant_with_stock Shop.conn)) = (Return true, c')
    /\ committed c' = working c'
    /\ variant_exists (working c') 3 = false
    /\ stock (working c') 3 = None
    /\ rows (product_variants (working c'))
       = filter (fun r => negb (pv_id r =? 3))
                (rows (product_variants
                         (working (snd (add_variant Shop.variant_with_stock Shop.conn)))))
    /\ rows (inventory (working c'))
       = filter (fun r => negb (inv_product_variant_id r =? 3))
                (rows (inventory
                         (working (snd (add_variant Shop.variant_with_stock Shop.conn)))))
    /\ products (working c')
       = products (working (snd (add_variant Shop.variant_with_stock Shop.conn)))
    /\ sales (working c')
       = sales (working (snd (add_variant Shop.variant_with_stock Shop.conn)))
    /\ sale_items (working c')
       = sale_items (working (snd (add_variant Shop.variant_with_stock Shop.conn)))
    /\ inventory_transactions (working c')
       = inventory_transactions
           (working (snd (add_variant Shop.variant_with_stock Shop.conn))).
Proof.
  apply (delete_variant_removes 3 (snd (add_variant Shop.variant_with_stock Shop.conn))).
  - unfold sqlite_integer. cbn. lia.
  - intros si [].
  - intros t [<-|[<-|[]]]; discriminate.
Defined.

(** ** delete_customer, whatever the customer *)

Lemma clear_customer_other (c : Z) (s : SaleRow) :
  sales_customer_id s <> Some c -> clear_customer c s = s.
Proof.
  intros H. unfold clear_customer. destruct (sales_customer_id s) as [c'|]; [|reflexivity].
  destruct (c' =? c) eqn:E; [|reflexivity]. apply Z.eqb_eq in E. subst. now elim H.
Qed.

Lemma clear_customer_gone (c : Z) (s : SaleRow) :
  sales_customer_id (clear_customer c s) <> Some c.
Proof.
  unfold clear_customer. destruct (sales_customer_id s) as [c'|] eqn:E.
  - destruct (c' =? c) eqn:E2; cbn; [discriminate|].
    rewrite E. intros H. injection H as ->. now rewrite Z.eqb_refl in E2.
  - now rewrite E.
Qed.

(** X15.  delete_customer returns whatever the customer.  For every id
    that fits SQLite's INTEGER, that of a customer with sales, of a customer
    without, or of no customer at all, it returns True with everything
    committed: no customer has the id afterwards, every other customer row
    is kept, the sales table has the rows it had, in order, with
    customer_id cleared on those that named the id, so no sale names the id
    any more, and no sale item, stock or transaction row is touched. *)
Theorem delete_customer_always_returns :
  forall (customer_id : Z) (c : Conn),
    sqlite_integer customer_id ->
    exists c',
      delete_customer customer_id c = (Return true, c')
      /\ committed c' = working c'
      /\ customer_exists (working c') customer_id = false
      /\ rows (customers (working c'))
         = filter (fun r => negb (cust_id r =? customer_id)) (rows (customers (working c)))
      /\ rows (sales (working c'))
         = map (clear_customer customer_id) (rows (sales (working c)))
      /\ (forall s, In s (rows (sales (working c'))) ->
                    sales_customer_id s <> Some customer_id)
      /\ sale_items (working c') = sale_items (working c)
      /\ inventory (working c') = inventory (working c)
      /\ inventory_transactions (working c') = inventory_transactions (working c).
Proof.
  intros cid c _.
  assert (Hsales : forall l,
            (0 <? Z.of_nat (List.length
                    (filter (fun s => match sales_customer_id s with
                                      | Some c' => c' =? cid
                                      | None => false
                                      end) l))) = false ->
            map (clear_customer cid) l = l).
  { intros l H. apply Z.ltb_ge in H.
    rewrite <- (map_id l) at 2. apply map_ext_in. intros s Hin.
    apply clear_customer_other. intros Hs.
    assert (Hf : In s (filter (fun s => match sales_customer_id s with
                                        | Some c' => c' =? cid
                                        | None => false
                                        end) l)).
    { apply filter_In. split; [exact Hin|]. rewrite Hs. apply Z.eqb_refl. }
    destruct (filter _ l); [contradiction|]. cbn [List.length] in H. lia. }
  assert (Hrows : exists c',
            delete_customer cid c = (Return true, c')
            /\ committed c' = working c'
            /\ rows (customers (working c'))
               = filter (fun r => negb (cust_id r =? cid)) (rows (customers (working c)))
            /\ rows (sales (working c')) = map (clear_customer cid) (rows (sales (working c)))
            /\ sale_items (working c') = sale_items (working c)
            /\ inventory (working c') = inventory (working c)
            /\ inventory_transactions (working c') = inventory_transactions (working c)).
  { unfold delete_customer, try_except, bind, query, execute, commit, ret,
      COUNT_sales_of_customer, UPDATE_sales_clear_customer, DELETE_customer.
    destruct (0 <? _) eqn:Hcount; cbn [working committed time_source time_reads].
    - eexists. split; [reflexivity|]. cbn [working committed]. split; [reflexivity|].
      split; [reflexivity|]. split; [|repeat split].
      cbn. destruct (customer_exists _ cid); [|reflexivity].
      rewrite map_map. apply map_ext. intros; apply clear_customer_idempotent.
    - eexists. split; [reflexivity|]. cbn [working committed]. split; [reflexivity|].
      split; [reflexivity|]. split; [|repeat split].
      cbn. rewrite (Hsales _ Hcount). now destruct (customer_exists _ cid). }
  destruct Hrows as (c' & Hrun & Hcom & Hcust & Hsal & Hsi & Hinv & Htx).
  exists c'. split; [exact Hrun|]. split; [exact Hcom|]. split.
  { unfold customer_exists. rewrite Hcust. apply has_id_filter_same. }
  split; [exact Hcust|]. split; [exact Hsal|]. split.
  { intros s Hin. rewrite Hsal in Hin. apply in_map_iff in Hin.
    destruct Hin as (s0 & <- & _). apply clear_customer_gone. }
  repeat split; assumption.
Qed.

(** Customer 42 does not exist in the shop. *)
Lemma delete_customer_always_returns_witness :
  exists c',
    delete_customer 42 Shop.conn_sold = (Return true, c')
    /\ committed c' = working c'
    /\ customer_exists (working c') 42 = false
    /\ rows (customers (working c'))
       = filter (fun r => negb (cust_id r =? 42)) (rows (customers (working Shop.conn_sold)))
    /\ rows (sales (working c'))
       = map (clear_customer 42) (rows (sales (working Shop.conn_sold)))
    /\ (forall s, In s (rows (sales (working c'))) -> sales_customer_id s <> Some 42)
    /\ sale_items (working c') = sale_items (working Shop.conn_sold)
    /\ inventory (working c') = inventory (working Shop.conn_sold)
    /\ inventory_transactions (working c') = inventory_transactions (working Shop.conn_sold).
Proof.
  apply (delete_customer_always_returns 42 Shop.conn_sold).
  unfold sqlite_integer. cbn. lia.
Defined.

(** ** Sale.add_item and Sale.remove_item *)

Lemma merge_item_some (sale_item : SaleItem.t) (l l' : list SaleItem.t) :
  Sale.merge_item sale_item l = Some l' ->
  map SaleItem.product_variant_id l' = map SaleItem.product_variant_id l
  /\ (forall v, moved v l'
                = moved v l + (if SaleItem.product_variant_id sale_item =? v
                               then SaleItem.quantity sale_item else 0))
  /\ (Forall (fun item => 0 < SaleItem.quantity item) l ->
      0 < SaleItem.quantity sale_item ->
      Forall (fun item => 0 < SaleItem.quantity item) l').
Proof.
  revert l'. induction l as [|item l IH]; intros l' H; [discriminate|].
  cbn [Sale.merge_item] in H.
  destruct (SaleItem.product_variant_id item =? SaleItem.product_variant_id sale_item)
    eqn:E.
  - injection H as <-. apply Z.eqb_eq in E. split; [reflexivity|]. split.
    + intros v. rewrite !moved_cons. cbn [SaleItem.product_variant_id SaleItem.quantity
        SaleItem.recalculate_subtotal SaleItem.set_subtotal SaleItem.set_quantity].
      rewrite E. destruct (_ =? v); lia.
    + intros Hall Hq. inversion Hall as [|x k Hx Hk]; subst. constructor; [|exact Hk].
      cbn. lia.
  - destruct (Sale.merge_item sale_item l) as [k|]; [|discriminate].
    injection H as <-. destruct (IH k eq_refl) as (H1 & H2 & H3). split; [|split].
    + cbn [map]. now rewrite H1.
    + intros v. rewrite !moved_cons, H2. lia.
    + intros Hall Hq. inversion Hall as [|x k' Hx Hk]; subst.
      constructor; [exact Hx | now apply H3].
Qed.

Lemma merge_item_none (sale_item : SaleItem.t) (l : list SaleItem.t) :
  Sale.merge_item sale_item l = None ->
  ~ In (SaleItem.product_variant_id sale_item) (map SaleItem.product_variant_id l).
Proof.
  induction l as [|item l IH]; intros H; [intros []|].
  cbn [Sale.merge_item] in H.
  destruct (SaleItem.product_variant_id item =? SaleItem.product_variant_id sale_item)
    eqn:E; [discriminate|].
  destruct (Sale.merge_item sale_item l); [discriminate|].
  apply Z.eqb_neq in E. intros [Hin|Hin]; [congruence | now apply IH].
Qed.

Lemma merge_item_absent (sale_item : SaleItem.t) (l : list SaleItem.t) :
  ~ In (SaleItem.product_variant_id sale_item) (map SaleItem.product_variant_id l) ->
  Sale.merge_item sale_item l = None.
Proof.
  intros H. destruct (Sale.merge_item sale_item l) as [l'|] eqn:E; [|reflexivity].
  exfalso. apply H. clear H. revert l' E.
  induction l as [|item l IH]; intros l' E; [discriminate|].
  cbn [Sale.merge_item] in E.
  destruct (SaleItem.product_variant_id item =? SaleItem.product_variant_id sale_item)
    eqn:E1.
  - left. now apply Z.eqb_eq.
  - destruct (Sale.merge_item sale_item l) as [k|]; [|discriminate].
    right. now apply (IH k).
Qed.

Lemma moved_app (v : Z) (l l' : list SaleItem.t) :
  moved v (l ++ l') = moved v l + moved v l'.
Proof.
  induction l as [|x l IH]; [reflexivity|].
  cbn [app]. rewrite !moved_cons, IH. lia.
Qed.

(** What add_item does to the lines of a sale. *)
Lemma add_item_lines (sale_item : SaleItem.t) (sale : Sale.t) :
  (NoDup (map SaleItem.product_variant_id (Sale.items sale)) ->
   NoDup (map SaleItem.product_variant_id (Sale.items (Sale.add_item sale_item sale))))
  /\ (forall v, moved v (Sale.items (Sale.add_item sale_item sale))
                = moved v (Sale.items sale)
                  + (if SaleItem.product_variant_id sale_item =? v
                     then SaleItem.quantity sale_item else 0))
  /\ (Forall (fun item => 0 < SaleItem.quantity item) (Sale.items sale) ->
      0 < SaleItem.quantity sale_item ->
      Forall (fun item => 0 < SaleItem.quantity item)
             (Sale.items (Sale.add_item sale_item sale))).
Proof.
  unfold Sale.add_item.
  destruct (Sale.merge_item sale_item (Sale.items sale)) as [l|] eqn:E;
    cbn [Sale.items Sale.recalculate_total Sale.set_total_amount Sale.set_items].
  - destruct (merge_item_some _ _ _ E) as (H1 & H2 & H3).
    split; [now rewrite H1|]. split; assumption.
  - apply merge_item_none in E. split; [|split].
    + intros Hnodup. rewrite map_app. cbn [map].
      apply NoDup_app; [exact Hnodup | repeat constructor; intros [] |].
      intros x Hin [<-|[]]. now apply E.
    + intros v. rewrite moved_app, moved_cons. change (moved v []) with 0.
      destruct (_ =? v); lia.
    + intros Hall Hq. apply Forall_app. split; [exact Hall | now constructor].
Qed.

(** X16.  Sale.add_item never opens a second line for a variant: a sale
    whose lines are on pairwise distinct variants stays so.  Whatever the
    sale, the quantity it carries on each variant grows by the quantity of
    the item added on the item's variant and by nothing on the others, and
    the total is the sum of the subtotals of the lines. *)
Theorem add_item_merges_lines :
  forall (sale_item : SaleItem.t) (sale : Sale.t),
    (NoDup (map SaleItem.product_variant_id (Sale.items sale)) ->
     NoDup (map SaleItem.product_variant_id (Sale.items (Sale.add_item sale_item sale))))
    /\ (forall v, moved v (Sale.items (Sale.add_item sale_item sale))
                  = moved v (Sale.items sale)
                    + (if SaleItem.product_variant_id sale_item =? v
                       then SaleItem.quantity sale_item else 0))
    /\ Sale.total_amount (Sale.add_item sale_item sale)
       = py_sum (map SaleItem.subtotal (Sale.items (Sale.add_item sale_item sale))).
Proof.
  intros sale_item sale.
  destruct (add_item_lines sale_item sale) as (H1 & H2 & _).
  split; [exact H1|]. split; [exact H2|].
  unfold Sale.add_item. destruct (Sale.merge_item _ _); reflexivity.
Qed.

Lemma add_item_merges_lines_witness :
  NoDup (map SaleItem.product_variant_id
             (Sale.items (Sale.add_item (Shop.line 2 3) Shop.sale_c)))
  /\ (forall v, moved v (Sale.items (Sale.add_item (Shop.line 2 3) Shop.sale_c))
                = moved v (Sale.items Shop.sale_c)
                  + (if SaleItem.product_variant_id (Shop.line 2 3) =? v
                     then SaleItem.quantity (Shop.line 2 3) else 0))
  /\ Sale.total_amount (Sale.add_item (Shop.line 2 3) Shop.sale_c)
     = py_sum (map SaleItem.subtotal
                   (Sale.items (Sale.add_item (Shop.line 2 3) Shop.sale_c))).
Proof.
  destruct (add_item_merges_lines (Shop.line 2 3) Shop.sale_c) as (H1 & H2 & H3).
  split; [|split; [exact H2 | exact H3]].
  apply H1.
  constructor; [cbn; intros [H|[]]; discriminate|].
  constructor; [intros [] | constructor].
Defined.

Lemma assemble_lines (customer_id : option Z) (sale_date payment_method : string)
    (lines : list (Z * Z * float * float)) :
  Forall (fun line => 0 < snd (fst (fst line))) lines ->
  NoDup (map SaleItem.product_variant_id
             (Sale.items (assemble customer_id sale_date payment_method lines)))
  /\ Forall (fun item => 0 < SaleItem.quantity item)
            (Sale.items (assemble customer_id sale_date payment_method lines)).
Proof.
  unfold assemble.
  assert (G : forall sale,
             NoDup (map SaleItem.product_variant_id (Sale.items sale)) ->
             Forall (fun item => 0 < SaleItem.quantity item) (Sale.items sale) ->
             Forall (fun line => 0 < snd (fst (fst line))) lines ->
             NoDup (map SaleItem.product_variant_id
                        (Sale.items (fold_left
                           (fun sale line => Sale.add_item (new_item line) sale)
                           lines sale)))
             /\ Forall (fun item => 0 < SaleItem.quantity item)
                       (Sale.items (fold_left
                          (fun sale line => Sale.add_item (new_item line) sale)
                          lines sale))).
  { induction lines as [|line lines IH]; intros sale Hn Hq Hall; [now split|].
    inversion Hall as [|x l Hx Hl]; subst. cbn [fold_left].
    destruct (add_item_lines (new_item line) sale) as (H1 & _ & H3).
    apply IH; [now apply H1 | | exact Hl].
    apply H3; [exact Hq|].
    destruct line as [[[v q] p] d]. cbn in Hx. unfold new_item, SaleItem.init.
    destruct (0 <? 0)%float; exact Hx. }
  intros Hall. apply G; [constructor | constructor | exact Hall].
Qed.

(** X17.  A sale put together with Sale.add_item from lines of positive
    quantity has its lines on pairwise distinct variants, each of positive
    quantity, however often a variant was added: it is a sale whose
    quantities create_sale checks against the stock variant by variant. *)
Theorem assembled_sale_within_guards :
  forall (customer_id : option Z) (sale_date payment_method : string)
         (lines : list (Z * Z * float * float)),
    Forall (fun line => 0 < snd (fst (fst line))) lines ->
    within_guards (Create_sale (assemble customer_id sale_date payment_method lines)).
Proof.
  intros customer_id sale_date payment_method lines Hall.
  exact (assemble_lines customer_id sale_date payment_method lines Hall).
Qed.

Lemma assembled_sale_within_guards_witness :
  within_guards
    (Create_sale (assemble None "2024-05-01T10:00:00" Sale.CASH
                    [(1, 2, 20%float, 0%float); (2, 4, 20%float, 0%float);
                     (1, 1, 20%float, 0%float)]))
  /\ map item_line
         (Sale.items (assemble None "2024-05-01T10:00:00" Sale.CASH
                        [(1, 2, 20%float, 0%float); (2, 4, 20%float, 0%float);
                         (1, 1, 20%float, 0%float)]))
     = [(1, 3); (2, 4)].
Proof.
  split; [|reflexivity].
  apply (assembled_sale_within_guards None "2024-05-01T10:00:00" Sale.CASH
           [(1, 2, 20%float, 0%float); (2, 4, 20%float, 0%float);
            (1, 1, 20%float, 0%float)]).
  repeat constructor.
Defined.

(** X18.  Adding a line on a variant the sale does not have yet and then
    removing the last line gives the lines back: remove_item at the index
    of the new line returns True, the items are the ones from before
    add_item, and the total is the sum of their subtotals.  An index below 0
    or past the last line returns False and leaves the sale as it is. *)
Theorem add_item_then_remove_item :
  forall (sale_item : SaleItem.t) (sale : Sale.t),
    ~ In (SaleItem.product_variant_id sale_item)
         (map SaleItem.product_variant_id (Sale.items sale)) ->
    snd (Sale.remove_item (Z.of_nat (List.length (Sale.items sale)))
                          (Sale.add_item sale_item sale)) = true
    /\ Sale.items (fst (Sale.remove_item (Z.of_nat (List.length (Sale.items sale)))
                                         (Sale.add_item sale_item sale)))
       = Sale.items sale
    /\ Sale.total_amount (fst (Sale.remove_item (Z.of_nat (List.length (Sale.items sale)))
                                                (Sale.add_item sale_item sale)))
       = py_sum (map SaleItem.subtotal (Sale.items sale))
    /\ (forall i, i < 0 \/ Z.of_nat (List.length (Sale.items sale)) <= i ->
                  Sale.remove_item i sale = (sale, false)).
Proof.
  intros sale_item sale Habsent.
  assert (Hitems : Sale.items (Sale.add_item sale_item sale)
                   = Sale.items sale ++ [sale_item]).
  { unfold Sale.add_item. now rewrite (merge_item_absent _ _ Habsent). }
  assert (Hcut : firstn (Z.to_nat (Z.of_nat (List.length (Sale.items sale))))
                        (Sale.items sale ++ [sale_item])
                 ++ skipn (S (Z.to_nat (Z.of_nat (List.length (Sale.items sale)))))
                          (Sale.items sale ++ [sale_item])
                 = Sale.items sale).
  { rewrite Nat2Z.id, firstn_app, firstn_all, Nat.sub_diag. cbn [firstn].
    rewrite skipn_all2 by (rewrite length_app; cbn; lia).
    now rewrite !app_nil_r. }
  unfold Sale.remove_item at 1 2 3. rewrite Hitems.
  assert (Hin : (0 <=? Z.of_nat (List.length (Sale.items sale)))
                && (Z.of_nat (List.length (Sale.items sale))
                    <? Z.of_nat (List.length (Sale.items sale ++ [sale_item]))) = true).
  { apply andb_true_iff. split; [apply Z.leb_le; lia|].
    apply Z.ltb_lt. rewrite length_app. cbn. lia. }
  rewrite Hin. cbn [fst snd Sale.items Sale.recalculate_total Sale.set_items
                    Sale.set_total_amount Sale.total_amount].
  rewrite Hcut. split; [reflexivity|]. split; [reflexivity|]. split; [reflexivity|].
  intros i Hi. unfold Sale.remove_item.
  destruct ((0 <=? i) && (i <? Z.of_nat (List.length (Sale.items sale)))) eqn:E;
    [|reflexivity].
  apply andb_true_iff in E. destruct E as [E1 E2].
  apply Z.leb_le in E1. apply Z.ltb_lt in E2. lia.
Qed.

Lemma add_item_then_remove_item_witness :
  snd (Sale.remove_item (Z.of_nat (List.length (Sale.items Shop.sale_a)))
                        (Sale.add_item (Shop.line 1 2) Shop.sale_a)) = true
  /\ Sale.items (fst (Sale.remove_item (Z.of_nat (List.length (Sale.items Shop.sale_a)))
                                       (Sale.add_item (Shop.line 1 2) Shop.sale_a)))
     = Sale.items Shop.sale_a
  /\ Sale.total_amount
       (fst (Sale.remove_item (Z.of_nat (List.length (Sale.items Shop.sale_a)))
                              (Sale.add_item (Shop.line 1 2) Shop.sale_a)))
     = py_sum (map SaleItem.subtotal (Sale.items Shop.sale_a))
  /\ (forall i, i < 0 \/ Z.of_nat (List.length (Sale.items Shop.sale_a)) <= i ->
                Sale.remove_item i Shop.sale_a = (Shop.sale_a, false)).
Proof.
  apply (add_item_then_remove_item (Shop.line 1 2) Shop.sale_a).
  cbn. intros [H|[]]. discriminate.
Defined.

(** ** The invariants along a run of the shop *)

Lemma shop_transactions_ok : transactions_ok Shop.db.
Proof. intros t [<-|[<-|[]]]; reflexivity. Qed.

Lemma operations_keep_ledger_witness :
  both ledger_ok
    (run_all [Stock_call (Create_sale Shop.sale_a);
              Stock_call (Cancel_sale 1);
              Add_product (Product.mk None "PNT001" "Jean" "Corte recto" 1 50 0 None None)
                          [ProductVariant.init None 0 "30" "Azul"];
              Stock_call (Adjust_inventory 3 6 (Some "Compra"));
              Delete_customer 1;
              Delete_variant 2]
             Shop.conn).
Proof.
  apply (operations_keep_ledger
           [Stock_call (Create_sale Shop.sale_a);
            Stock_call (Cancel_sale 1);
            Add_product (Product.mk None "PNT001" "Jean" "Corte recto" 1 50 0 None None)
                        [ProductVariant.init None 0 "30" "Azul"];
            Stock_call (Adjust_inventory 3 6 (Some "Compra"));
            Delete_customer 1;
            Delete_variant 2]
           Shop.conn).
  - repeat constructor.
  - split; (split; [exact shop_ledger_invariant | exact shop_transactions_ok]).
Defined.

Lemma operations_keep_references_witness :
  references_ok
    (committed (run_all [Stock_call (Create_sale Shop.sale_a);
                         Delete_variant 1;
                         Add_variant Shop.variant_with_stock;
                         Stock_call (Cancel_sale 1)]
                        Shop.conn))
  /\ references_ok
       (working (run_all [Stock_call (Create_sale Shop.sale_a);
                          Delete_variant 1;
                          Add_variant Shop.variant_with_stock;
                          Stock_call (Cancel_sale 1)]
                         Shop.conn)).
Proof.
  apply (operations_keep_references
           [Stock_call (Create_sale Shop.sale_a);
            Delete_variant 1;
            Add_variant Shop.variant_with_stock;
            Stock_call (Cancel_sale 1)]
           Shop.conn); exact shop_references_ok.
Defined.

Lemma operations_leave_settled_witness :
  settled (run_all [Stock_call (Create_sale Shop.sale_c);
                    Stock_call (Update_inventory 1 8 InventoryTransaction.PURCHASE None None);
                    Stock_call (Create_sale Shop.sale_c);
                    Delete_variant 2]
                   Shop.conn).
Proof.
  apply (operations_leave_settled
           [Stock_call (Create_sale Shop.sale_c);
            Stock_call (Update_inventory 1 8 InventoryTransaction.PURCHASE None None);
            Stock_call (Create_sale Shop.sale_c);
            Delete_variant 2]
           Shop.conn).
  reflexivity.
Defined.

(** ** delete_product *)

Ltac txt_run :=
  unfold Txt.try_except, Txt.bind, Txt.lift, Txt.raise, Txt.ret,
    query, execute, commit, rollback, get_current_timestamp.

Lemma variant_of_find (p : Z) (db : DB) (v : Z) (pv : VariantRow) :
  find (fun r => pv_id r =? v) (rows (product_variants db)) = Some pv ->
  pv_product_id pv = p ->
  variant_of p db v = true.
Proof.
  intros Hf Hp. apply find_some_key in Hf. destruct Hf as [Hin Hk].
  unfold variant_of. apply existsb_exists. exists pv. split; [exact Hin|].
  apply andb_true_iff. split; now apply Z.eqb_eq.
Qed.

Lemma count_sale_items_of_product_zero (p : Z) (db : DB) :
  (forall si, In si (rows (sale_items db)) ->
              variant_of p db (si_product_variant_id si) = false) ->
  COUNT_sale_items_of_product p db = 0.
Proof.
  intros H. unfold COUNT_sale_items_of_product. rewrite filter_none; [reflexivity|].
  intros si Hin. specialize (H si Hin).
  destruct (find _ (rows (product_variants db))) as [pv|] eqn:E; [|reflexivity].
  destruct (pv_product_id pv =? p) eqn:Ep; [|reflexivity].
  apply Z.eqb_eq in Ep. rewrite (variant_of_find _ _ _ _ E Ep) in H. discriminate.
Qed.

(** X22.  A product with sales or stock history is never deleted.
    delete_product on an existing product one of whose variants a sale item
    or an inventory transaction refers to raises under its own wrapper: the
    product-in-sales message when its count of sale items is above 0, and
    otherwise the foreign-key error of the DELETE, whose cascade to the
    variants meets the restriction of the transactions.  With no write
    pending before the call, the connection is left as it was. *)
Theorem delete_product_blocked :
  forall (product_id : Z) (c : Conn) (v : Z),
    settled c ->
    product_exists (working c) product_id = true ->
    variant_of product_id (working c) v = true ->
    (exists si, In si (rows (sale_items (working c))) /\ si_product_variant_id si = v)
    \/ (exists t, In t (rows (inventory_transactions (working c)))
                  /\ tx_product_variant_id t = v) ->
    delete_product product_id c
    = (Failed (Reraised "Error deleting product"
                 (if 0 <? COUNT_sale_items_of_product product_id (working c)
                  then Exception
                         "No se puede eliminar el producto porque está asociado a ventas existentes"
                  else Below (Error_executing_query FOREIGN_KEY_constraint_failed))),
       c).
Proof.
  intros p c v Hc Hp Hv Href.
  unfold delete_product. txt_run.
  destruct (0 <? COUNT_sale_items_of_product p (working c)).
  - cbn. now rewrite (rollback_clean c Hc).
  - unfold DELETE_product. rewrite Hp.
    assert (Hor : existsb (fun si => variant_of p (working c) (si_product_variant_id si))
                          (rows (sale_items (working c)))
                  || existsb (fun t => variant_of p (working c) (tx_product_variant_id t))
                             (rows (inventory_transactions (working c))) = true).
    { apply orb_true_iff. destruct Href as [(si & Hin & Hk)|(t & Hin & Hk)].
      - left. apply existsb_exists. exists si. split; [exact Hin | now rewrite Hk].
      - right. apply existsb_exists. exists t. split; [exact Hin | now rewrite Hk]. }
    rewrite Hor. cbn. now rewrite (rollback_clean c Hc).
Qed.

(** X23.  delete_product on a product none of whose variants a sale item
    or an inventory transaction refers to, under an id that fits SQLite's
    INTEGER, returns True with everything committed: the product row, the
    rows of its variants and the Inventory rows of those variants are gone,
    every other row of these three tables is kept in order, the categories,
    customers, sales, sale_items and inventory_transactions tables are
    untouched, and a database in which every variant had its product still
    is one.  An id that names no product is answered True and none of these
    tables is written.  (The rows of supplier_products that name the
    product go with it; the supplier tables are outside the embedding.) *)
Theorem delete_product_removes :
  forall (product_id : Z) (c : Conn),
    sqlite_integer product_id ->
    (forall si, In si (rows (sale_items (working c))) ->
                variant_of product_id (working c) (si_product_variant_id si) = false) ->
    (forall t, In t (rows (inventory_transactions (working c))) ->
               variant_of product_id (working c) (tx_product_variant_id t) = false) ->
    exists c',
      delete_product product_id c = (Done true, c')
      /\ committed c' = working c'
      /\ product_exists (working c') product_id = false
      /\ rows (products (working c'))
         = filter (fun r => negb (prod_id r =? product_id)) (rows (products (working c)))
      /\ (product_exists (working c) product_id = true ->
          rows (product_variants (working c'))
          = filter (fun r => negb (pv_product_id r =? product_id))
                   (rows (product_variants (working c)))
          /\ rows (inventory (working c'))
             = filter (fun r => negb (variant_of product_id (working c)
                                                 (inv_product_variant_id r)))
                      (rows (inventory (working c))))
      /\ (product_exists (working c) product_id = false -> working c' = working c)
      /\ categories (working c') = categories (working c)
      /\ customers (working c') = customers (working c)
      /\ sales (working c') = sales (working c)
      /\ sale_items (working c') = sale_items (working c)
      /\ inventory_transactions (working c') = inventory_transactions (working c)
      /\ ((forall pv, In pv (rows (product_variants (working c))) ->
                      product_exists (working c) (pv_product_id pv) = true) ->
          forall pv, In pv (rows (product_variants (working c'))) ->
                     product_exists (working c') (pv_product_id pv) = true).
Proof.
  intros p c _ Hsi Htx.
  unfold delete_product. txt_run.
  rewrite (count_sale_items_of_product_zero p (working c) Hsi). cbn [Z.ltb Z.compare].
  unfold DELETE_product.
  rewrite (existsb_none _ _ Hsi), (existsb_none _ _ Htx). cbn [orb].
  destruct (product_exists (working c) p) eqn:Hp;
    cbn [working committed time_source time_reads]; eexists; (split; [reflexivity|]);
    cbn [working committed]; (split; [reflexivity|]).
  - split; [unfold product_exists; cbn -[has_id]; apply has_id_filter_same|].
    split; [reflexivity|]. split; [intros _; split; reflexivity|].
    split; [discriminate|]. repeat (split; [reflexivity|]).
    intros Href pv Hin. cbn in Hin. apply filter_In in Hin. destruct Hin as [Hin Hne].
    unfold product_exists. cbn -[has_id].
    rewrite has_id_filter_other; [now apply Href|].
    apply negb_true_iff, Z.eqb_neq in Hne. exact Hne.
  - split; [exact Hp|]. split.
    { symmetry. apply filter_all. intros r Hin. apply negb_true_iff, Z.eqb_neq.
      intros Hk. assert (product_exists (working c) p = true)
        by (apply has_id_true; now exists r). congruence. }
    split; [discriminate|]. split; [reflexivity|]. repeat (split; [reflexivity|]).
    intros Href. exact Href.
Qed.

Lemma delete_product_blocked_witness :
  delete_product 1 Shop.conn
    = (Failed (Reraised "Error deleting product"
                 (if 0 <? COUNT_sale_items_of_product 1 (working Shop.conn)
                  then Exception
                         "No se puede eliminar el producto porque está asociado a ventas existentes"
                  else Below (Error_executing_query FOREIGN_KEY_constraint_failed))),
       Shop.conn)
  /\ delete_product 1 Shop.conn_sold
     = (Failed (Reraised "Error deleting product"
                  (if 0 <? COUNT_sale_items_of_product 1 (working Shop.conn_sold)
                   then Exception
                          "No se puede eliminar el producto porque está asociado a ventas existentes"
                   else Below (Error_executing_query FOREIGN_KEY_constraint_failed))),
        Shop.conn_sold)
  /\ (0 <? COUNT_sale_items_of_product 1 (working Shop.conn)) = false
  /\ (0 <? COUNT_sale_items_of_product 1 (working Shop.conn_sold)) = true.
Proof.
  split; [|split; [|split; vm_compute; reflexivity]].
  - apply (delete_product_blocked 1 Shop.conn 1); try reflexivity.
    right. exists (mkTransactionRow 1 1 3 "PURCHASE" None "2024-04-02T09:00:00" None).
    split; [left; reflexivity | reflexivity].
  - apply (delete_product_blocked 1 Shop.conn_sold 2); try reflexivity.
    left. exists (mkSaleItemRow 1 1 2 4 20 (Some 0%float) 80).
    split; [left; vm_compute; reflexivity | reflexivity].
Defined.

Lemma delete_product_removes_witness :
  exists c',
    delete_product 2 Shelf.conn_jean = (Done true, c')
    /\ map prod_id (rows (products (working c'))) = [1]
    /\ map pv_id (rows (product_variants (working c'))) = [1; 2]
    /\ map inv_product_variant_id (rows (inventory (working c'))) = [1; 2].
Proof.
  destruct (delete_product_removes 2 Shelf.conn_jean)
    as (c' & Hrun & _ & _ & Hp & Hv & _).
  - unfold sqlite_integer. cbn. lia.
  - intros si [].
  - intros t Hin. vm_compute in Hin. destruct Hin as [<-|[<-|[]]]; vm_compute; reflexivity.
  - exists c'. split; [exact Hrun|]. destruct (Hv eq_refl) as [Hpv Hinv].
    rewrite Hp, Hpv, Hinv. repeat split.
Defined.

(** ** Categories *)

Lemma count_products_positive (db : DB) (c : Z) (p : ProductRow) :
  In p (rows (products db)) -> prod_category_id p = c ->
  (0 <? COUNT_products_of_category c db) = true.
Proof.
  intros Hin Hc. apply Z.ltb_lt. unfold COUNT_products_of_category.
  assert (Hf : In p (filter (fun x => prod_category_id x =? c) (rows (products db)))).
  { apply filter_In. split; [exact Hin | now apply Z.eqb_eq]. }
  destruct (filter _ _); [contradiction|]. cbn [List.length]. lia.
Qed.

Lemma count_products_zero (db : DB) (c : Z) :
  (forall p, In p (rows (products db)) -> prod_category_id p <> c) ->
  (0 <? COUNT_products_of_category c db) = false
  /\ existsb (fun p => prod_category_id p =? c) (rows (products db)) = false.
Proof.
  intros H. split.
  - unfold COUNT_products_of_category. rewrite filter_none; [reflexivity|].
    intros p Hin. apply Z.eqb_neq. now apply H.
  - apply existsb_none. intros p Hin. apply Z.eqb_neq. now apply H.
Qed.

(** X24.  A category goes only when no product is in it.  With a product
    in the category, delete_category raises the category-in-use message
    under its own wrapper and, with no write pending before the call,
    leaves the connection as it was.  With none, and an id that fits
    SQLite's INTEGER, it returns True with everything committed: no
    category has the id afterwards, every other category row is kept in
    order, the products are untouched, and if every product had its
    category before, every product still has. *)
Theorem delete_category_only_when_unused :
  forall (category_id : Z) (c : Conn),
    settled c ->
    ((exists p, In p (rows (products (working c))) /\ prod_category_id p = category_id) ->
     delete_category category_id c
     = (Failed (Reraised "Error deleting category"
                  (Exception
                     "No se puede eliminar la categoría porque hay productos asociados a ella")),
        c))
    /\ ((forall p, In p (rows (products (working c))) -> prod_category_id p <> category_id) ->
        sqlite_integer category_id ->
        exists c',
          delete_category category_id c = (Done true, c')
          /\ committed c' = working c'
          /\ category_exists (working c') category_id = false
          /\ rows (categories (working c'))
             = filter (fun r => negb (cat_id r =? category_id))
                      (rows (categories (working c)))
          /\ products (working c') = products (working c)
          /\ ((forall p, In p (rows (products (working c))) ->
                         category_exists (working c) (prod_category_id p) = true) ->
              forall p, In p (rows (products (working c'))) ->
                        category_exists (working c') (prod_category_id p) = true)).
Proof.
  intros cid c Hc. split.
  - intros (p & Hin & Hp). unfold delete_category. txt_run.
    rewrite (count_products_positive _ _ _ Hin Hp). cbn.
    now rewrite (rollback_clean c Hc).
  - intros Hnone _. destruct (count_products_zero (working c) cid Hnone) as [Hcount Hex].
    unfold delete_category. txt_run. rewrite Hcount.
    unfold DELETE_category. rewrite Hex, andb_false_r.
    cbn [working committed time_source time_reads].
    eexists. split; [reflexivity|]. cbn [working committed]. split; [reflexivity|].
    split; [unfold category_exists; cbn -[has_id]; apply has_id_filter_same|].
    split; [reflexivity|]. split; [reflexivity|].
    intros Href p Hin. cbn in Hin. unfold category_exists. cbn -[has_id].
    rewrite has_id_filter_other; [now apply Href|]. now apply Hnone.
Qed.

Lemma delete_category_only_when_unused_witness :
  delete_category 1 Shelf.conn_two_categories
    = (Failed (Reraised "Error deleting category"
                 (Exception
                    "No se puede eliminar la categoría porque hay productos asociados a ella")),
       Shelf.conn_two_categories)
  /\ exists c',
       delete_category 2 Shelf.conn_two_categories = (Done true, c')
       /\ committed c' = working c'
       /\ category_exists (working c') 2 = false
       /\ rows (categories (working c'))
          = filter (fun r => negb (cat_id r =? 2))
                   (rows (categories (working Shelf.conn_two_categories)))
       /\ products (working c') = products (working Shelf.conn_two_categories)
       /\ ((forall p, In p (rows (products (working Shelf.conn_two_categories))) ->
                      category_exists (working Shelf.conn_two_categories)
                                      (prod_category_id p) = true) ->
           forall p, In p (rows (products (working c'))) ->
                     category_exists (working c') (prod_category_id p) = true).
Proof.
  split.
  - apply (proj1 (delete_category_only_when_unused 1 Shelf.conn_two_categories eq_refl)).
    eexists. split; [left; reflexivity | reflexivity].
  - apply (proj2 (delete_category_only_when_unused 2 Shelf.conn_two_categories eq_refl)).
    + intros p [<-|[]]. discriminate.
    + unfold sqlite_integer. cbn. lia.
Defined.

Lemma in_names_existsb (l : list CategoryRow) (name : string) :
  existsb (fun r => String.eqb (cat_name r) name) l = true <-> In name (map cat_name l).
Proof.
  rewrite existsb_exists, in_map_iff. split.
  - intros (r & Hin & Hk). apply String.eqb_eq in Hk. now exists r.
  - intros (r & Hk & Hin). exists r. split; [exact Hin | now apply String.eqb_eq].
Qed.

(** X25.  Category names stay unique.  add_category with a name a
    category already has raises the UNIQUE error of the INSERT under its own
    wrapper and, with no write pending before the call, leaves the
    connection as it was; with a new name it returns the next rowid of
    categories and has committed that one row, appended.  Either way, names
    that were pairwise distinct before the call are so after it. *)
Theorem add_category_keeps_names_unique :
  forall (category : Category.t) (c : Conn),
    settled c ->
    (In (Category.name category) (map cat_name (rows (categories (working c)))) ->
     add_category category c
     = (Failed (Reraised "Error adding category"
                  (Below (Error_executing_query UNIQUE_constraint_failed))), c))
    /\ (~ In (Category.name category) (map cat_name (rows (categories (working c)))) ->
        exists c',
          add_category category c
          = (Done (next_rowid cat_id (categories (working c))), c')
          /\ committed c' = working c'
          /\ rows (categories (working c'))
             = rows (categories (working c))
               ++ [mkCategoryRow (next_rowid cat_id (categories (working c)))
                     (Category.name category) (Category.description category)])
    /\ (NoDup (map cat_name (rows (categories (working c)))) ->
        NoDup (map cat_name (rows (categories (working (snd (add_category category c))))))).
Proof.
  intros category c Hc.
  destruct (existsb (fun r => String.eqb (cat_name r) (Category.name category))
                    (rows (categories (working c)))) eqn:E.
  - assert (Hin : In (Category.name category) (map cat_name (rows (categories (working c)))))
      by (now apply in_names_existsb).
    assert (Hrun : add_category category c
                   = (Failed (Reraised "Error adding category"
                                (Below (Error_executing_query UNIQUE_constraint_failed))), c)).
    { unfold add_category. txt_run. unfold INSERT_category. rewrite E. cbn.
      now rewrite (rollback_clean c Hc). }
    split; [intros _; exact Hrun|]. split; [intros H; now elim H|].
    rewrite Hrun. intros H; exact H.
  - assert (Hnot : ~ In (Category.name category)
                        (map cat_name (rows (categories (working c))))).
    { intros H. apply in_names_existsb in H. congruence. }
    assert (Hrun : exists c',
               add_category category c
               = (Done (next_rowid cat_id (categories (working c))), c')
               /\ committed c' = working c'
               /\ rows (categories (working c'))
                  = rows (categories (working c))
                    ++ [mkCategoryRow (next_rowid cat_id (categories (working c)))
                          (Category.name category) (Category.description category)]).
    { unfold add_category. txt_run. unfold INSERT_category. rewrite E.
      cbn [working committed time_source time_reads]. eexists. repeat split. }
    split; [intros H; now elim Hnot|]. split; [intros _; exact Hrun|].
    destruct Hrun as (c' & Hrun & _ & Hrows). rewrite Hrun. cbn [snd].
    intros Hnodup. rewrite Hrows, map_app. cbn [map].
    apply NoDup_app; [exact Hnodup | repeat constructor; intros [] |].
    intros x Hin [<-|[]]. now apply Hnot.
Qed.

Lemma add_category_keeps_names_unique_witness :
  add_category (Category.mk None "Camisetas" "Otra vez") Shop.conn
    = (Failed (Reraised "Error adding category"
                 (Below (Error_executing_query UNIQUE_constraint_failed))), Shop.conn)
  /\ exists c',
       add_category (Category.mk None "Vestidos" "Vestidos para mujer") Shop.conn
       = (Done (next_rowid cat_id (categories (working Shop.conn))), c')
       /\ committed c' = working c'
       /\ rows (categories (working c'))
          = rows (categories (working Shop.conn))
            ++ [mkCategoryRow (next_rowid cat_id (categories (working Shop.conn)))
                  "Vestidos" "Vestidos para mujer"].
Proof.
  split.
  - apply (proj1 (add_category_keeps_names_unique
                    (Category.mk None "Camisetas" "Otra vez") Shop.conn eq_refl)).
    left; reflexivity.
  - apply (proj1 (proj2 (add_category_keeps_names_unique
                           (Category.mk None "Vestidos" "Vestidos para mujer")
                           Shop.conn eq_refl))).
    cbn. intros [H|[]]. discriminate.
Defined.

(** ** add_customer *)

Lemma has_email_exists (l : list CustomerRow) (e : string) :
  existsb (has_email e) l = true <-> exists r, In r l /\ cust_email r = Some e.
Proof.
  rewrite existsb_exists. unfold has_email. split.
  - intros (r & Hin & Hk). exists r. split; [exact Hin|].
    destruct (cust_email r) as [x|]; [|discriminate].
    apply String.eqb_eq in Hk. now subst.
  - intros (r & Hin & Hk). exists r. split; [exact Hin|]. rewrite Hk.
    apply String.eqb_refl.
Qed.

Lemma has_email_find (l : list CustomerRow) (e : string) :
  find (has_email e) l = None <-> existsb (has_email e) l = false.
Proof.
  split; intros H.
  - apply existsb_none. intros r Hin. exact (find_none _ _ H r Hin).
  - destruct (find (has_email e) l) as [r|] eqn:E; [|reflexivity].
    apply find_some in E. destruct E as [Hin Hk].
    assert (existsb (has_email e) l = true)
      by (apply existsb_exists; now exists r).
    congruence.
Qed.

Lemma emails_app (l l' : list CustomerRow) : emails (l ++ l') = emails l ++ emails l'.
Proof. unfold emails. apply flat_map_app. Qed.

Lemma in_emails (l : list CustomerRow) (e : string) :
  In e (emails l) <-> exists r, In r l /\ cust_email r = Some e.
Proof.
  unfold emails. rewrite in_flat_map. split.
  - intros (r & Hin & Hk). exists r. split; [exact Hin|].
    destruct (cust_email r) as [x|]; [|contradiction].
    destruct Hk as [<-|[]]. reflexivity.
  - intros (r & Hin & Hk). exists r. split; [exact Hin|]. rewrite Hk. now left.
Qed.

(** What add_customer does with an email in use, and with one that is not. *)
Lemma add_customer_run (customer : Customer.t) (c : Conn) :
  settled c ->
  (forall e, Customer.email customer = Some e ->
             existsb (has_email e) (rows (customers (working c))) = true ->
             fst (add_customer customer c)
             = Failed (Reraised "Error adding customer"
                         (if String.eqb e ""
                          then Below (Error_executing_query UNIQUE_constraint_failed)
                          else Exception
                                 "Ya existe un cliente con este correo electrónico"))
             /\ committed (snd (add_customer customer c)) = committed c
             /\ working (snd (add_customer customer c)) = working c)
  /\ ((forall e, Customer.email customer = Some e ->
                 existsb (has_email e) (rows (customers (working c))) = false) ->
      exists c',
        add_customer customer c
        = (Done (next_rowid cust_id (customers (working c))), c')
        /\ committed c' = working c'
        /\ rows (customers (working c'))
           = rows (customers (working c))
             ++ [mkCustomerRow (next_rowid cust_id (customers (working c)))
                   (Customer.name customer) (Customer.email customer)
                   (Customer.phone customer) (Customer.address customer)
                   (time_source c (time_reads c)) (time_source c (time_reads c))]
        /\ sales (working c') = sales (working c)).
Proof.
  intros Hc. unfold settled in Hc. split.
  - intros e He Hused. unfold add_customer. txt_run.
    unfold truthy, SELECT_customer_by_email, INSERT_customer. rewrite He.
    destruct (String.eqb e "") eqn:Ee; cbn [negb].
    + cbn [working committed time_source time_reads]. rewrite Hused. cbn.
      repeat split. exact Hc.
    + destruct (find (has_email e) (rows (customers (working c)))) as [r|] eqn:Ef.
      * cbn. repeat split. exact Hc.
      * apply has_email_find in Ef. congruence.
  - intros Hfree. unfold add_customer. txt_run.
    unfold truthy, SELECT_customer_by_email, INSERT_customer.
    destruct (Customer.email customer) as [e|] eqn:He.
    + specialize (Hfree e eq_refl).
      destruct (String.eqb e ""); cbn [negb].
      * cbn [working committed time_source time_reads]. rewrite Hfree.
        cbn [working committed time_source time_reads]. eexists. repeat split.
      * rewrite (proj2 (has_email_find _ _) Hfree).
        cbn [option_map working committed time_source time_reads]. rewrite Hfree.
        cbn [working committed time_source time_reads]. eexists. repeat split.
    + cbn [working committed time_source time_reads]. eexists. repeat split.
Qed.

(** X26.  No two customers share an email.  add_customer with an email
    that a customer already has raises under its own wrapper, the
    email-in-use message, or the UNIQUE error of the INSERT when the email
    is the empty text, which the check of the controller lets through, and
    writes nothing.  With no email, or one no customer has, it returns the
    next rowid of customers and has committed that one row, appended, with
    created_at and updated_at at the time of the call.  Either way, emails
    that were pairwise distinct before the call are so after it. *)
Theorem add_customer_keeps_emails_unique :
  forall (customer : Customer.t) (c : Conn),
    settled c ->
    (forall e r, Customer.email customer = Some e ->
                 In r (rows (customers (working c))) -> cust_email r = Some e ->
                 fst (add_customer customer c)
                 = Failed (Reraised "Error adding customer"
                             (if String.eqb e ""
                              then Below (Error_executing_query UNIQUE_constraint_failed)
                              else Exception
                                     "Ya existe un cliente con este correo electrónico"))
                 /\ committed (snd (add_customer customer c)) = committed c
                 /\ working (snd (add_customer customer c)) = working c)
    /\ ((forall e r, Customer.email customer = Some e ->
                     In r (rows (customers (working c))) -> cust_email r <> Some e) ->
        exists c',
          add_customer customer c
          = (Done (next_rowid cust_id (customers (working c))), c')
          /\ committed c' = working c'
          /\ rows (customers (working c'))
             = rows (customers (working c))
               ++ [mkCustomerRow (next_rowid cust_id (customers (working c)))
                     (Customer.name customer) (Customer.email customer)
                     (Customer.phone customer) (Customer.address customer)
                     (time_source c (time_reads c)) (time_source c (time_reads c))])
    /\ (NoDup (emails (rows (customers (working c)))) ->
        NoDup (emails (rows (customers (working (snd (add_customer customer c))))))).
Proof.
  intros customer c Hc. destruct (add_customer_run customer c Hc) as [Hused Hfree].
  split; [|split].
  - intros e r He Hin Hr. apply (Hused e He). apply has_email_exists. now exists r.
  - intros Hnone. destruct Hfree as (c' & H1 & H2 & H3 & _).
    + intros e He. apply existsb_none. intros r Hin. unfold has_email.
      destruct (cust_email r) as [x|] eqn:Ex; [|reflexivity].
      apply String.eqb_neq. intros <-. now apply (Hnone x r He Hin).
    + exists c'. repeat split; assumption.
  - intros Hnodup.
    destruct (match Customer.email customer with
              | Some e => existsb (has_email e) (rows (customers (working c)))
              | None => false
              end) eqn:E.
    + destruct (Customer.email customer) as [e|] eqn:He; [|discriminate].
      destruct (Hused e eq_refl E) as (_ & _ & Hw). now rewrite Hw.
    + destruct Hfree as (c' & H1 & _ & H3 & _).
      * intros e He. now rewrite He in E.
      * rewrite H1. cbn [snd]. rewrite H3, emails_app.
        apply NoDup_app; [exact Hnodup | |].
        { unfold emails. cbn. destruct (Customer.email customer); repeat constructor.
          intros []. }
        { intros x Hin Hx. unfold emails in Hx. cbn in Hx.
          destruct (Customer.email customer) as [e|] eqn:He; [|contradiction].
          destruct Hx as [<-|[]]. apply in_emails in Hin.
          apply has_email_exists in Hin. congruence. }
Qed.

Lemma add_customer_keeps_emails_unique_witness :
  (fst (add_customer (Customer.mk None "Luisa" (Some "luis@example.com") None None)
                     Shelf.conn_two_customers)
   = Failed (Reraised "Error adding customer"
               (if String.eqb "luis@example.com" ""
                then Below (Error_executing_query UNIQUE_constraint_failed)
                else Exception "Ya existe un cliente con este correo electrónico"))
   /\ committed (snd (add_customer
                        (Customer.mk None "Luisa" (Some "luis@example.com") None None)
                        Shelf.conn_two_customers))
      = committed Shelf.conn_two_customers
   /\ working (snd (add_customer
                      (Customer.mk None "Luisa" (Some "luis@example.com") None None)
                      Shelf.conn_two_customers))
      = working Shelf.conn_two_customers)
  /\ exists c',
       add_customer (Customer.mk None "Eva" None (Some "555") None)
                    Shelf.conn_two_customers
       = (Done (next_rowid cust_id (customers (working Shelf.conn_two_customers))), c')
       /\ committed c' = working c'
       /\ rows (customers (working c'))
          = rows (customers (working Shelf.conn_two_customers))
            ++ [mkCustomerRow
                  (next_rowid cust_id (customers (working Shelf.conn_two_customers)))
                  "Eva" None (Some "555") None
                  (time_source Shelf.conn_two_customers
                               (time_reads Shelf.conn_two_customers))
                  (time_source Shelf.conn_two_customers
                               (time_reads Shelf.conn_two_customers))].
Proof.
  split.
  - apply (proj1 (add_customer_keeps_emails_unique
                    (Customer.mk None "Luisa" (Some "luis@example.com") None None)
                    Shelf.conn_two_customers eq_refl)
                 "luis@example.com"
                 (mkCustomerRow 2 "Luis" (Some "luis@example.com") None None
                                "2024-04-03T09:00:00" "2024-04-03T09:00:00"));
      try reflexivity.
    right; left; reflexivity.
  - apply (proj1 (proj2 (add_customer_keeps_emails_unique
                           (Customer.mk None "Eva" None (Some "555") None)
                           Shelf.conn_two_customers eq_refl))).
    intros e r He. discriminate He.
Defined.

(** ** update_variant *)

Lemma map_update_keys {R K : Type} (key : R -> K) (f : R -> R) (l : list R) :
  (forall r, key (f r) = key r) -> map key (map f l) = map key l.
Proof. intros H. rewrite map_map. apply map_ext. exact H. Qed.

(** X27.  update_variant renames in place.  Whatever it is given and
    whatever the outcome, on a connection with no write pending the variant
    rows keep their ids and their products, in order, no Inventory row, no
    transaction and no sale item is touched, and no write is left pending.
    When another variant of the same product already has the size and
    colour asked for, the call raises under its own wrapper and the
    database is what it was. *)
Theorem update_variant_renames_in_place :
  forall (variant : ProductVariant.t) (c : Conn),
    settled c ->
    map (fun r => (pv_id r, pv_product_id r))
        (rows (product_variants (working (snd (update_variant variant c)))))
    = map (fun r => (pv_id r, pv_product_id r)) (rows (product_variants (working c)))
    /\ inventory (working (snd (update_variant variant c))) = inventory (working c)
    /\ inventory_transactions (working (snd (update_variant variant c)))
       = inventory_transactions (working c)
    /\ sale_items (working (snd (update_variant variant c))) = sale_items (working c)
    /\ settled (snd (update_variant variant c))
    /\ (forall i old other,
           ProductVariant.id variant = Some i ->
           find (fun r => pv_id r =? i) (rows (product_variants (working c))) = Some old ->
           In other (rows (product_variants (working c))) ->
           pv_id other <> i ->
           pv_product_id other = pv_product_id old ->
           pv_size other = ProductVariant.size variant ->
           pv_color other = ProductVariant.color variant ->
           (exists cause,
               fst (update_variant variant c)
               = Failed (Reraised "Error updating variant" cause))
           /\ working (snd (update_variant variant c)) = working c).
Proof.
  intros variant c Hc. unfold settled in Hc.
  unfold update_variant. txt_run.
  destruct (SELECT_other_variant_id _ _ _ _ (working c)) as [x|] eqn:Hsel.
  - cbn. rewrite <- Hc. do 5 (split; [reflexivity|]).
    intros. split; [now eexists | reflexivity].
  - unfold UPDATE_variant.
    destruct (ProductVariant.id variant) as [i|] eqn:Hid.
    + destruct (find (fun r => pv_id r =? i) (rows (product_variants (working c))))
        as [old|] eqn:Hold.
      * destruct (existsb _ (rows (product_variants (working c)))) eqn:Hdup.
        { cbn. rewrite <- Hc. do 5 (split; [reflexivity|]).
          intros. split; [now eexists | reflexivity]. }
        { cbn. split.
          - apply map_update_keys. intros r. destruct (pv_id r =? i); reflexivity.
          - do 4 (split; [reflexivity|]).
            intros i0 old0 other Hi Hf Hin Hne Hp Hs Hk.
            injection Hi as <-. rewrite Hold in Hf. injection Hf as <-.
            exfalso.
            assert (E : existsb (fun r => negb (pv_id r =? i)
                                          && (pv_product_id r =? pv_product_id old)
                                          && String.eqb (pv_size r)
                                                        (ProductVariant.size variant)
                                          && String.eqb (pv_color r)
                                                        (ProductVariant.color variant))
                                (rows (product_variants (working c))) = true).
            { apply existsb_exists. exists other. split; [exact Hin|].
              rewrite Hp, Hs, Hk, Z.eqb_refl, !String.eqb_refl.
              apply Z.eqb_neq in Hne. now rewrite Hne. }
            congruence. }
      * cbn. do 5 (split; [reflexivity|]).
        intros i0 old0 other Hi Hf. injection Hi as <-. congruence.
    + cbn. do 5 (split; [reflexivity|]). intros i old other Hi. discriminate Hi.
Qed.

Lemma update_variant_renames_in_place_witness :
  (exists cause,
      fst (update_variant (ProductVariant.mk (Some 1) 1 "G" "Negro" 0) Shop.conn)
      = Failed (Reraised "Error updating variant" cause))
  /\ working (snd (update_variant (ProductVariant.mk (Some 1) 1 "G" "Negro" 0) Shop.conn))
     = working Shop.conn.
Proof.
  apply (proj2 (proj2 (proj2 (proj2 (proj2
           (update_variant_renames_in_place
              (ProductVariant.mk (Some 1) 1 "G" "Negro" 0) Shop.conn eq_refl)))))
           1 (mkVariantRow 1 1 "M" "Negro") (mkVariantRow 2 1 "G" "Negro"));
    try reflexivity.
  - right; left; reflexivity.
  - discriminate.
Defined.

(** ** Updates of a row that is not there *)

(** X28.  An update of a row that is not there reports success.
    update_product and update_category with an id that names no row, and
    update_customer with such an id and an email no customer has, return
    True and change no row of the database, on a connection with no write
    pending, when the id given (and for a product its category_id) fits
    SQLite's INTEGER or is None.  No constraint is checked then: a NaN
    price or a category_id that names no category goes unnoticed. *)
Theorem update_of_unknown_id_returns_true :
  forall (c : Conn),
    settled c ->
    (forall product,
        (forall i, Product.id product = Some i -> product_exists (working c) i = false) ->
        sqlite_integer_or_null (Product.id product) ->
        sqlite_integer (Product.category_id product) ->
        fst (update_product product c) = Done true
        /\ committed (snd (update_product product c)) = committed c
        /\ working (snd (update_product product c)) = working c)
    /\ (forall category,
           (forall i, Category.id category = Some i ->
                      category_exists (working c) i = false) ->
           sqlite_integer_or_null (Category.id category) ->
           update_category category c = (Done true, c))
    /\ (forall customer,
           (forall i, Customer.id customer = Some i ->
                      customer_exists (working c) i = false) ->
           (forall e, Customer.email customer = Some e ->
                      existsb (has_email e) (rows (customers (working c))) = false) ->
           sqlite_integer_or_null (Customer.id customer) ->
           fst (update_customer customer c) = Done true
           /\ committed (snd (update_customer customer c)) = committed c
           /\ working (snd (update_customer customer c)) = working c).
Proof.
  intros c Hc. unfold settled in Hc. split; [|split].
  - intros product Hid _ _. unfold update_product. txt_run. unfold UPDATE_product.
    cbn [working committed time_source time_reads].
    destruct (Product.id product) as [i|]; [rewrite (Hid i eq_refl)|];
      cbn; repeat split; now rewrite Hc.
  - intros category Hid _. unfold update_category. txt_run. unfold UPDATE_category.
    destruct (Category.id category) as [i|]; [rewrite (Hid i eq_refl)|];
      cbn; rewrite <- Hc; now rewrite (rollback_clean c Hc).
  - intros customer Hid Hmail _. unfold update_customer. txt_run.
    unfold truthy, SELECT_other_customer_by_email, UPDATE_customer.
    assert (Hother : forall e o,
               Customer.email customer = Some e ->
               find (fun r => has_email e r
                              && match o with
                                 | Some i => negb (cust_id r =? i)
                                 | None => false
                                 end) (rows (customers (working c))) = None).
    { intros e o He. destruct (find _ _) as [r|] eqn:E; [|reflexivity].
      apply find_some in E. destruct E as [Hin Hk].
      apply andb_true_iff in Hk. destruct Hk as [Hk _].
      assert (existsb (has_email e) (rows (customers (working c))) = true)
        by (apply existsb_exists; now exists r).
      rewrite (Hmail e He) in H. discriminate. }
    destruct (Customer.email customer) as [e|] eqn:He.
    + destruct (String.eqb e ""); cbn [negb];
        [|rewrite (Hother e _ eq_refl); cbn [option_map]];
        cbn [working committed time_source time_reads];
        (destruct (Customer.id customer) as [i|]; [rewrite (Hid i eq_refl)|]);
        cbn; repeat split; now rewrite Hc.
    + cbn [working committed time_source time_reads].
      destruct (Customer.id customer) as [i|]; [rewrite (Hid i eq_refl)|];
        cbn; repeat split; now rewrite Hc.
Qed.

Lemma update_of_unknown_id_returns_true_witness :
  update_category (Category.mk (Some 9) "Camisetas" "Otra vez") Shop.conn
  = (Done true, Shop.conn).
Proof.
  apply (proj1 (proj2 (update_of_unknown_id_returns_true Shop.conn eq_refl))
               (Category.mk (Some 9) "Camisetas" "Otra vez")).
  - intros i Hi. injection Hi as <-. reflexivity.
  - unfold sqlite_integer_or_null, sqlite_integer. cbn. lia.
Defined.

(** ** setup_database *)

Lemma seed_run (l : list (string * string)) :
  forall c,
    exists c' added,
      for_each l (fun category =>
                    execute (INSERT_OR_IGNORE_category (fst category) (snd category))) c
      = (Return tt, c')
      /\ committed c' = committed c
      /\ rows (categories (working c')) = rows (categories (working c)) ++ added
      /\ (forall name, In name (map fst l) ->
                       In name (map cat_name (rows (categories (working c')))))
      /\ ((forall name, In name (map fst l) ->
                        In name (map cat_name (rows (categories (working c))))) ->
          added = [])
      /\ (NoDup (map cat_name (rows (categories (working c)))) ->
          NoDup (map cat_name (rows (categories (working c')))))
      /\ products (working c') = products (working c)
      /\ product_variants (working c') = product_variants (working c)
      /\ inventory (working c') = inventory (working c)
      /\ customers (working c') = customers (working c)
      /\ sales (working c') = sales (working c)
      /\ sale_items (working c') = sale_items (working c)
      /\ inventory_transactions (working c') = inventory_transactions (working c).
Proof.
  induction l as [|[name description] l IH]; intros c.
  - exists c, []. split; [reflexivity|]. split; [reflexivity|].
    split; [now rewrite app_nil_r|]. split; [intros n []|].
    split; [reflexivity|]. repeat split. intros H; exact H.
  - cbn [for_each fst snd]. unfold bind at 1. unfold execute at 1.
    unfold INSERT_OR_IGNORE_category.
    destruct (existsb (fun r => String.eqb (cat_name r) name)
                      (rows (categories (working c)))) eqn:E.
    + match goal with
      | |- context [for_each l _ ?c1] =>
          destruct (IH c1) as (c' & added & Hrun & Hcom & Hrows & Hall & Hnone & Hnd & Hrest)
      end.
      cbn [working committed categories set_categories rows] in *.
      exists c', added. split; [exact Hrun|]. split; [exact Hcom|].
      split; [exact Hrows|]. split; [|split; [|split; [exact Hnd | exact Hrest]]].
      * intros n [<-|Hin]; [|now apply Hall].
        rewrite Hrows, map_app. apply in_or_app. left. now apply in_names_existsb.
      * intros H. apply Hnone. intros n Hin. apply H. now right.
    + match goal with
      | |- context [for_each l _ ?c1] =>
          destruct (IH c1) as (c' & added & Hrun & Hcom & Hrows & Hall & Hnone & Hnd & Hrest)
      end.
      cbn [working committed categories set_categories rows append_row] in *.
      eexists c', (_ :: added). split; [exact Hrun|]. split; [exact Hcom|].
      split; [rewrite Hrows, <- app_assoc; reflexivity|].
      split; [|split; [|split; [|exact Hrest]]].
      * intros n [<-|Hin]; [|now apply Hall].
        rewrite Hrows, !map_app. apply in_or_app. left. apply in_or_app. right.
        now left.
      * intros H. exfalso.
        assert (Hin : In name (map cat_name (rows (categories (working c)))))
          by (apply H; now left).
        apply in_names_existsb in Hin. congruence.
      * intros Hnodup. apply Hnd. rewrite map_app. cbn [map cat_name].
        apply NoDup_app; [exact Hnodup | repeat constructor; intros [] |].
        intros x Hin [<-|[]]. apply in_names_existsb in Hin. congruence.
Qed.

(** X29.  setup_database seeds the categories once.  On every database
    it returns with everything committed; it has appended to categories
    only, one row for each default name that was missing, so that all five
    default names are there afterwards and names that were pairwise distinct
    still are; no row that was there is changed, and running it a second
    time adds nothing.  On the empty database the categories are the five
    defaults, in order. *)
Theorem setup_database_seeds_once :
  forall (c : Conn),
    exists c' added,
      setup_database c = (Return tt, c')
      /\ committed c' = working c'
      /\ rows (categories (working c')) = rows (categories (working c)) ++ added
      /\ (forall name, In name (map fst default_categories) ->
                       In name (map cat_name (rows (categories (working c')))))
      /\ (NoDup (map cat_name (rows (categories (working c)))) ->
          NoDup (map cat_name (rows (categories (working c')))))
      /\ rows (categories (working (snd (setup_database c'))))
         = rows (categories (working c'))
      /\ products (working c') = products (working c)
      /\ product_variants (working c') = product_variants (working c)
      /\ inventory (working c') = inventory (working c)
      /\ customers (working c') = customers (working c)
      /\ sales (working c') = sales (working c)
      /\ sale_items (working c') = sale_items (working c)
      /\ inventory_transactions (working c') = inventory_transactions (working c)
      /\ (rows (categories (working c)) = [] ->
          map (fun r => (cat_name r, cat_description r)) (rows (categories (working c')))
          = default_categories).
Proof.
  intros c.
  destruct (seed_run default_categories c)
    as (c1 & added & Hrun & Hcom & Hrows & Hall & _ & Hnd & Hrest).
  exists (mkConn (working c1) (working c1) (time_source c1) (time_reads c1)), added.
  split; [unfold setup_database, bind, commit; now rewrite Hrun|].
  cbn [working committed]. split; [reflexivity|]. split; [exact Hrows|].
  split; [exact Hall|]. split; [exact Hnd|]. split.
  { destruct (seed_run default_categories
                (mkConn (working c1) (working c1) (time_source c1) (time_reads c1)))
      as (c2 & added2 & Hrun2 & _ & Hrows2 & _ & Hnone2 & _).
    unfold setup_database, bind, commit. rewrite Hrun2. cbn [snd working].
    rewrite Hrows2, (Hnone2 Hall). apply app_nil_r. }
  destruct Hrest as (H1 & H2 & H3 & H4 & H5 & H6 & H7).
  repeat (split; [assumption|]).
  intros Hempty. clear - Hrun Hempty.
  destruct c as [com [[rws sq] prods pvs invs custs sls sis txs] ts n].
  cbn in Hempty. subst rws. revert Hrun.
  unfold default_categories. cbn [for_each fst snd].
  unfold bind, execute, INSERT_OR_IGNORE_category. cbn.
  intros H. injection H as <-. reflexivity.
Qed.

(** ** The stock reports *)

Lemma in_insert_sorted {A : Type} (le : A -> A -> bool) (x y : A) (l : list A) :
  In y (insert_sorted le x l) <-> y = x \/ In y l.
Proof.
  induction l as [|z l IH]; cbn [insert_sorted].
  - cbn. intuition.
  - destruct (le x z); cbn [In]; [intuition|]. rewrite IH. intuition.
Qed.

Lemma in_order_by {A : Type} (le : A -> A -> bool) (y : A) (l : list A) :
  In y (order_by le l) <-> In y l.
Proof.
  unfold order_by. induction l as [|x l IH]; cbn [fold_right]; [reflexivity|].
  rewrite in_insert_sorted, IH. cbn [In]. intuition.
Qed.

Lemma ascending_insert {A : Type} (le : A -> A -> bool) (key : A -> Z) (x : A)
    (l : list A) :
  (forall a b, le a b = true -> key a <= key b) ->
  (forall a b, le a b = false -> key b <= key a) ->
  ascending (map key l) -> ascending (map key (insert_sorted le x l)).
Proof.
  intros Hle Hgt. induction l as [|z l IH]; intros Hasc; cbn [insert_sorted].
  - cbn. split; [intros y []|exact I].
  - destruct (le x z) eqn:E.
    + cbn [map ascending] in *. destruct Hasc as [Hz Hrest]. split; [|split; assumption].
      intros y [<-|Hin]; [now apply Hle|].
      specialize (Hz y Hin). specialize (Hle _ _ E). lia.
    + cbn [map ascending] in *. destruct Hasc as [Hz Hrest]. split; [|now apply IH].
      intros y Hin. apply in_map_iff in Hin. destruct Hin as (a & <- & Hin).
      apply in_insert_sorted in Hin. destruct Hin as [->|Hin]; [now apply Hgt|].
      apply Hz. now apply in_map.
Qed.

Lemma ascending_order_by {A : Type} (le : A -> A -> bool) (key : A -> Z) (l : list A) :
  (forall a b, le a b = true -> key a <= key b) ->
  (forall a b, le a b = false -> key b <= key a) ->
  ascending (map key (order_by le l)).
Proof.
  intros Hle Hgt. unfold order_by. induction l as [|x l IH]; cbn [fold_right].
  - exact I.
  - now apply ascending_insert.
Qed.

Lemma in_low_stock (threshold : Z) (db : DB)
    (line : Z * string * string * Z * string * string * Z) :
  In line (SELECT_low_stock threshold db)
  <-> exists x, In x (stock_rows db) /\ stock_line x = line
                /\ 0 < line_quantity line <= threshold.
Proof.
  unfold SELECT_low_stock. rewrite in_map_iff. split.
  - intros (x & <- & Hin). apply in_order_by in Hin. apply filter_In in Hin.
    destruct Hin as [Hin Hq]. exists x. split; [exact Hin|]. split; [reflexivity|].
    destruct x as [[p pv] i]. cbn. apply andb_true_iff in Hq. destruct Hq as [H1 H2].
    apply Z.ltb_lt in H1. apply Z.leb_le in H2. lia.
  - intros (x & Hin & <- & Hq). exists x. split; [reflexivity|].
    apply in_order_by. apply filter_In. split; [exact Hin|].
    destruct x as [[p pv] i]. cbn in Hq. apply andb_true_iff.
    split; [apply Z.ltb_lt | apply Z.leb_le]; lia.
Qed.

Lemma in_out_of_stock (db : DB) (line : Z * string * string * Z * string * string * Z) :
  In line (SELECT_out_of_stock db)
  <-> exists x, In x (stock_rows db) /\ stock_line x = line /\ line_quantity line = 0.
Proof.
  unfold SELECT_out_of_stock. rewrite in_map_iff. split.
  - intros (x & <- & Hin). apply in_order_by in Hin. apply filter_In in Hin.
    destruct Hin as [Hin Hq]. exists x. split; [exact Hin|]. split; [reflexivity|].
    destruct x as [[p pv] i]. cbn. now apply Z.eqb_eq.
  - intros (x & Hin & <- & Hq). exists x. split; [reflexivity|].
    apply in_order_by. apply filter_In. split; [exact Hin|].
    destruct x as [[p pv] i]. cbn in Hq. now apply Z.eqb_eq.
Qed.

(** X30.  The low-stock report takes its threshold inclusive.  For a
    threshold that fits SQLite's INTEGER, get_low_stock_items reads only; it
    lists a stocked variant exactly when its quantity is above 0 and at
    most the threshold, by quantity going up, and no line of it is in the
    out-of-stock report, which lists the variants of quantity 0;
    Inventory.is_in_stock is True of every line of the first and False of
    every line of the second, and a variant of negative quantity is not in
    stock and on neither report.  Inventory.has_low_stock answers True
    exactly when the quantity is above 0 and below the threshold: a variant
    whose quantity equals the threshold is on the report while
    has_low_stock says False. *)
Theorem low_stock_threshold_is_inclusive :
  forall (threshold : Z) (c : Conn),
    sqlite_integer threshold ->
    get_low_stock_items threshold c = (Done (SELECT_low_stock threshold (working c)), c)
    /\ get_out_of_stock_items c = (Done (SELECT_out_of_stock (working c)), c)
    /\ (forall x, In x (stock_rows (working c)) ->
          (In (stock_line x) (SELECT_low_stock threshold (working c))
           <-> 0 < line_quantity (stock_line x) <= threshold)
          /\ (In (stock_line x) (SELECT_out_of_stock (working c))
              <-> line_quantity (stock_line x) = 0))
    /\ (forall line, In line (SELECT_low_stock threshold (working c)) ->
          0 < line_quantity line <= threshold
          /\ ~ In line (SELECT_out_of_stock (working c)))
    /\ ascending (map line_quantity (SELECT_low_stock threshold (working c)))
    /\ (forall inv, has_low_stock threshold inv = true
                    <-> 0 < Inventory.quantity inv < threshold)
    /\ (forall p pv i,
          In (p, pv, i) (stock_rows (working c)) ->
          inv_quantity i = threshold -> 0 < threshold ->
          In (stock_line (p, pv, i)) (SELECT_low_stock threshold (working c))
          /\ has_low_stock threshold
               (Inventory.mk (inv_id i) (inv_product_variant_id i) (inv_quantity i)
                             (inv_last_updated i)) = false)
    /\ (forall p pv i,
          In (p, pv, i) (stock_rows (working c)) ->
          let inv := Inventory.mk (inv_id i) (inv_product_variant_id i) (inv_quantity i)
                                  (inv_last_updated i) in
          (In (stock_line (p, pv, i)) (SELECT_low_stock threshold (working c)) ->
           is_in_stock inv = true)
          /\ (In (stock_line (p, pv, i)) (SELECT_out_of_stock (working c)) ->
              is_in_stock inv = false)
          /\ (inv_quantity i < 0 ->
              is_in_stock inv = false
              /\ ~ In (stock_line (p, pv, i)) (SELECT_low_stock threshold (working c))
              /\ ~ In (stock_line (p, pv, i)) (SELECT_out_of_stock (working c)))).
Proof.
  intros threshold c _. split; [reflexivity|]. split; [reflexivity|].
  split; [|split; [|split; [|split; [|split]]]].
  - intros x Hin. split.
    + rewrite in_low_stock. split.
      * intros (y & _ & Hy & Hq). exact Hq.
      * intros Hq. now exists x.
    + rewrite in_out_of_stock. split.
      * intros (y & _ & Hy & Hq). exact Hq.
      * intros Hq. now exists x.
  - intros line Hin. apply in_low_stock in Hin. destruct Hin as (x & _ & _ & Hq).
    split; [exact Hq|]. rewrite in_out_of_stock. intros (y & _ & _ & H0). lia.
  - unfold SELECT_low_stock. rewrite map_map.
    apply (ascending_order_by _ (fun x => line_quantity (stock_line x))).
    + intros [[p pv] i] [[p' pv'] i'] H. cbn. apply orb_true_iff in H.
      destruct H as [H|H]; [apply Z.ltb_lt in H; lia|].
      apply andb_true_iff in H. destruct H as [H _]. apply Z.eqb_eq in H. lia.
    + intros [[p pv] i] [[p' pv'] i'] H. cbn. apply orb_false_iff in H.
      destruct H as [H _]. apply Z.ltb_ge in H. exact H.
  - intros inv. unfold has_low_stock. rewrite andb_true_iff, !Z.ltb_lt. reflexivity.
  - intros p pv i Hin Hq Hpos. split.
    + apply in_low_stock. exists (p, pv, i). split; [exact Hin|].
      split; [reflexivity|]. cbn. lia.
    + unfold has_low_stock. cbn. rewrite Hq, Z.ltb_irrefl. apply andb_false_r.
  - intros p pv i Hin inv. unfold is_in_stock. subst inv. cbn [Inventory.quantity].
    rewrite in_low_stock, in_out_of_stock. split; [|split].
    + intros (y & _ & _ & Hq). apply Z.ltb_lt. cbn in Hq. lia.
    + intros (y & _ & _ & Hq). apply Z.ltb_ge. cbn in Hq. lia.
    + intros Hneg. split; [apply Z.ltb_ge; lia|].
      split; intros (y & _ & _ & Hq); cbn in Hq; lia.
Qed.

Lemma low_stock_threshold_is_inclusive_witness :
  In (1, "TSH001", "Camiseta", 1, "M", "Negro", 3) (SELECT_low_stock 3 (working Shop.conn))
  /\ has_low_stock 3 (Inventory.mk 1 1 3 "2024-04-02T09:00:00") = false.
Proof.
  assert (H3 : sqlite_integer 3) by (unfold sqlite_integer; cbn; lia).
  apply (proj1 (proj2 (proj2 (proj2 (proj2 (proj2 (proj2
           (low_stock_threshold_is_inclusive 3 Shop.conn H3)))))))
           (mkProductRow 1 "TSH001" "Camiseta" "Algodon" 1 20 (Some 0%float) None None
                         "2024-04-01T09:00:00" "2024-04-01T09:00:00")
           (mkVariantRow 1 1 "M" "Negro")
           (mkInventoryRow 1 1 3 "2024-04-02T09:00:00")).
  - left; reflexivity.
  - reflexivity.
  - reflexivity.
Defined.
